(** * Teams Call Recorder: a shallow embedding of the recording core

    The extension runs in three isolated contexts that only exchange
    messages: the content script (observer, first part of
    [src/content.js]), the background service worker (coordinator,
    [src/background.js]) and the offscreen document (capture worker, last
    part of [src/content.js]).  Each context is embedded as a
    state-and-exception monad over its own mutable globals; every call that
    leaves the context (a [chrome.*] API, a media device, the clock)
    consults an environment that decides whether the call rejects and what
    it returns.  A handler runs to completion before the next event is
    taken, as the data model of the extension assumes. *)

From Stdlib Require Import ZArith QArith Qround Ascii String DecimalString Lia Bool.
From stdpp Require Import base list strings gmap.

Local Open Scope Z_scope.

(** ** Promises: outcomes, and the state-and-exception monad *)

(** A settled promise: fulfilled with a value, or rejected with the
    [message] of the thrown [Error]. *)
Inductive Outcome (A : Type) : Type :=
| Ok (a : A)
| Throw (e : string).
Arguments Ok {A} a.
Arguments Throw {A} e.

Definition M (T A : Type) : Type := T -> Outcome A * T.

Definition ret {T A} (a : A) : M T A := fun s => (Ok a, s).
Definition throw {T A} (e : string) : M T A := fun s => (Throw e, s).
Definition bind {T A B} (m : M T A) (k : A -> M T B) : M T B :=
  fun s => match m s with
           | (Ok a, s') => k a s'
           | (Throw e, s') => (Throw e, s')
           end.
Definition get {T} : M T T := fun s => (Ok s, s).
Definition modify {T} (f : T -> T) : M T unit := fun s => (Ok tt, f s).

(** [try { m } catch (e) { h e }] *)
Definition try_catch {T A} (m : M T A) (h : string -> M T A) : M T A :=
  fun s => match m s with
           | (Ok a, s') => (Ok a, s')
           | (Throw e, s') => h e s'
           end.

(** [try { m } finally { f }]: [f] always runs; when it throws, its
    exception replaces the outcome of [m]. *)
Definition try_finally {T A} (m : M T A) (f : M T unit) : M T A :=
  fun s => match m s with
           | (r, s') => match f s' with
                        | (Ok _, s'') => (r, s'')
                        | (Throw e, s'') => (Throw e, s'')
                        end
           end.

Notation "x <- m ;; k" := (bind m (fun x => k))
  (at level 100, m at next level, right associativity).
Notation "m ;;; k" := (bind m (fun _ => k))
  (at level 100, right associativity).

(** [for (let i = start; i < start + count; i++) body(i)] *)
Fixpoint for_range {T} (start count : nat) (body : nat -> M T unit) : M T unit :=
  match count with
  | O => ret tt
  | S n => body start ;;; for_range (S start) n body
  end.

(** ** JavaScript strings

    Strings are sequences of code units; the embedding keeps the code
    units below 256 (Latin-1), which covers every literal of the sources. *)

Definition code (c : ascii) : nat := nat_of_ascii c.

(** [a || b] on strings: the empty string (like [undefined]) is falsy. *)
Definition str_or (a b : string) : string :=
  match a with EmptyString => b | _ => a end.

(** The white space of [\s] and of [String.prototype.trim]. *)
Definition is_space (c : ascii) : bool :=
  let n := code c in
  ((9 <=? n) && (n <=? 13))%nat || (n =? 32)%nat || (n =? 160)%nat.

Definition is_digit (c : ascii) : bool :=
  let n := code c in ((48 <=? n) && (n <=? 57))%nat.

Definition is_dot (c : ascii) : bool := (code c =? 46)%nat.

Fixpoint str_map (f : ascii -> ascii) (s : string) : string :=
  match s with
  | EmptyString => EmptyString
  | String c r => String (f c) (str_map f r)
  end.

Fixpoint str_forallb (p : ascii -> bool) (s : string) : bool :=
  match s with
  | EmptyString => true
  | String c r => p c && str_forallb p r
  end.

(** [s.slice(0, n)] *)
Fixpoint str_take (n : nat) (s : string) : string :=
  match n, s with
  | S m, String c r => String c (str_take m r)
  | _, _ => EmptyString
  end.

Fixpoint drop_while (p : ascii -> bool) (s : string) : string :=
  match s with
  | EmptyString => EmptyString
  | String c r => if p c then drop_while p r else s
  end.

Fixpoint take_while (p : ascii -> bool) (s : string) : string :=
  match s with
  | EmptyString => EmptyString
  | String c r => if p c then String c (take_while p r) else EmptyString
  end.

Fixpoint str_rev_onto (s acc : string) : string :=
  match s with
  | EmptyString => acc
  | String c r => str_rev_onto r (String c acc)
  end.
Definition str_rev (s : string) : string := str_rev_onto s EmptyString.

(** [s.trim()] *)
Definition trim (s : string) : string :=
  str_rev (drop_while is_space (str_rev (drop_while is_space s))).

Fixpoint is_prefix (p s : string) : bool :=
  match p, s with
  | EmptyString, _ => true
  | String a p', String b s' => Ascii.eqb a b && is_prefix p' s'
  | _, _ => false
  end.

(** [s.includes(p)] *)
Fixpoint includes (s p : string) : bool :=
  is_prefix p s ||
  match s with
  | EmptyString => false
  | String _ r => includes r p
  end.

(** [s.toLowerCase()] on Latin-1 code units. *)
Definition lower_char (c : ascii) : ascii :=
  let n := code c in
  if ((65 <=? n) && (n <=? 90))%nat
     || ((192 <=? n) && (n <=? 222) && negb (n =? 215))%nat
  then ascii_of_nat (n + 32) else c.
Definition toLowerCase (s : string) : string := str_map lower_char s.

(** [String(n)] for an integer, and [s.padStart(2, "0")]. *)
Definition String_of_Z (z : Z) : string := NilZero.string_of_int (Z.to_int z).
Definition padStart2 (s : string) : string :=
  match s with
  | String c EmptyString => String "0"%char s
  | _ => s
  end.

(** ** File names ([src/background.js]) *)

(** The character class of the first [replace] in [sanitize]: backslash,
    slash, colon, star, question mark, double quote, angle brackets, bar. *)
Definition is_unsafe (c : ascii) : bool :=
  existsb (Nat.eqb (code c)) [92; 47; 58; 42; 63; 34; 60; 62; 124]%nat.

(** [s.replace(/\s+/g, "_")]: each maximal run of white space becomes one
    underscore. *)
Fixpoint collapse_from (in_run : bool) (s : string) : string :=
  match s with
  | EmptyString => EmptyString
  | String c r =>
      if is_space c
      then (if in_run then collapse_from true r
            else String "_"%char (collapse_from true r))
      else String c (collapse_from false r)
  end.
Definition collapse_spaces (s : string) : string := collapse_from false s.

(** [sanitize(input)] *)
Definition sanitize (input : string) : string :=
  str_take 80
    (collapse_spaces
       (str_map (fun c => if is_unsafe c then "_"%char else c) input)).

(** [normalizeExtension(format)] *)
Definition normalizeExtension (format : string) : string :=
  if String.eqb format "wav" then "wav"
  else if String.eqb format "mp3" then "webm"
  else "webm".

(** The local-time fields [new Date()] is asked for in [makeFilename]. *)
Record LocalDate := {
  getFullYear : Z;
  getMonth : Z;
  getDate : Z;
  getHours : Z;
  getMinutes : Z;
}.

(** [makeFilename(title, format, folder)], with [now = new Date()]. *)
Definition makeFilename (now : LocalDate) (title format folder : string) : string :=
  let safeTitle := sanitize (str_or title "TeamsCall") in
  let yyyy := String_of_Z (getFullYear now) in
  let mm := padStart2 (String_of_Z (getMonth now + 1)) in
  let dd := padStart2 (String_of_Z (getDate now)) in
  let hh := padStart2 (String_of_Z (getHours now)) in
  let min := padStart2 (String_of_Z (getMinutes now)) in
  let ext := normalizeExtension format in
  sanitize (str_or folder "TeamsRecordings") +:+ "/Teams_" +:+ yyyy +:+ "-" +:+ mm
    +:+ "-" +:+ dd +:+ "_" +:+ hh +:+ "-" +:+ min +:+ "_" +:+ safeTitle +:+ "." +:+ ext.

Definition no_dot (s : string) : bool := str_forallb (fun d => negb (is_dot d)) s.

(** The leftmost match of [/\.[^.]+$/] in [s]: the text before the match
    and the text after its dot.  A match starts at a dot that is followed,
    up to the end of the string, by one or more characters other than a
    dot. *)
Fixpoint matchExt (s : string) : option (string * string) :=
  match s with
  | EmptyString => None
  | String c r =>
      if is_dot c && negb (String.eqb r "") && no_dot r
      then Some (EmptyString, r)
      else match matchExt r with
           | Some (before, after) => Some (String c before, after)
           | None => None
           end
  end.

(** [applyFormatToFilename(filename, format)] *)
Definition applyFormatToFilename (filename format : string) : string :=
  let ext := normalizeExtension format in
  if String.eqb filename "" then "TeamsRecordings/TeamsCall." +:+ ext
  else match matchExt filename with
       | Some (before, _) => before +:+ "." +:+ ext
       | None => filename +:+ "." +:+ ext
       end.

(** ** Numbers

    A JavaScript number is NaN, an infinity, or a finite value.  Finite
    values are kept as exact rationals: the samples of a [Float32Array]
    have 24-bit significands and the two scale factors of the encoder have
    at most 16 bits, so every product the encoder forms is exact in
    binary64 and rational arithmetic computes the same value. *)
Inductive float : Type :=
| NaN
| PInf
| NInf
| Fin (q : Q).

Definition Qltb (a b : Q) : bool := negb (Qle_bool b a).

(** [a < b] *)
Definition flt (a b : float) : bool :=
  match a, b with
  | NaN, _ | _, NaN => false
  | _, NInf => false
  | PInf, _ => false
  | NInf, _ => true
  | Fin _, PInf => true
  | Fin x, Fin y => Qltb x y
  end.

(** [Math.min(a, b)] and [Math.max(a, b)] *)
Definition Math_min (a b : float) : float :=
  match a, b with
  | NaN, _ | _, NaN => NaN
  | _, _ => if flt b a then b else a
  end.
Definition Math_max (a b : float) : float :=
  match a, b with
  | NaN, _ | _, NaN => NaN
  | _, _ => if flt a b then b else a
  end.

Definition fsign (a : float) : Z :=
  match a with
  | NaN => 0
  | PInf => 1
  | NInf => -1
  | Fin q => Z.sgn (Qnum q)
  end.

(** [a * b] *)
Definition fmul (a b : float) : float :=
  match a, b with
  | NaN, _ | _, NaN => NaN
  | Fin x, Fin y => Fin (x * y)
  | _, _ => match (fsign a * fsign b)%Z with
            | Z0 => NaN
            | Zpos _ => PInf
            | Zneg _ => NInf
            end
  end.

(** The integer part of a finite number, rounding toward zero. *)
Definition truncate (q : Q) : Z := Z.quot (Qnum q) (Zpos (Qden q)).

(** [ToInt16], the conversion [DataView.prototype.setInt16] applies to its
    value: NaN and the infinities become 0, a finite number is truncated and
    reduced modulo 2^16 into the signed range. *)
Definition ToInt16 (v : float) : Z :=
  match v with
  | Fin q =>
      let int16bit := truncate q mod 65536 in
      if 32768 <=? int16bit then int16bit - 65536 else int16bit
  | _ => 0
  end.

Definition of_Z (z : Z) : float := Fin (inject_Z z).

(** A [Blob]: its bytes and its MIME type. *)
Record Blob := {
  blob_bytes : list Z;
  blob_type : string;
}.

(** ** The WAV encoder ([audioBufferToWavBlob] of the capture worker)

    Sizes and the sample rate are integers; the header arithmetic of the
    source stays far below 2^53, where numbers are exact. *)

Module Wav.

(** The fields of a decoded [AudioBuffer] the encoder reads;
    [getChannelData ch i] is [buffer.getChannelData(ch)[i]]. *)
Record AudioBuffer := {
  numberOfChannels : nat;
  sampleRate : Z;
  buffer_length : nat;
  getChannelData : nat -> nat -> float;
}.

(** The [DataView] over the buffer being filled and the local [offset]. *)
Record Writer := {
  view : list Z;
  offset : nat;
}.

Definition RangeError : string := "Offset is outside the bounds of the DataView".

(** Little-endian bytes of the low [8 * n] bits of [v]. *)
Fixpoint le_bytes (n : nat) (v : Z) : list Z :=
  match n with
  | O => []
  | S m => v mod 256 :: le_bytes m (v / 256)
  end.

Fixpoint write_at (off : nat) (bs : list Z) (l : list Z) : list Z :=
  match bs with
  | [] => l
  | b :: r => write_at (S off) r (<[off := b]> l)
  end.

(** A store of [n] bytes at [off]: the view checks the whole range before
    it writes anything. *)
Definition store (off n : nat) (v : Z) : M Writer unit :=
  fun w =>
    if (off + n <=? length (view w))%nat
    then (Ok tt, {| view := write_at off (le_bytes n v) (view w); offset := offset w |})
    else (Throw RangeError, w).

(** [view.setUint8(off, v)], [view.setUint16(off, v, true)],
    [view.setUint32(off, v, true)] for an integer [v]. *)
Definition setUint8 (off : nat) (v : Z) : M Writer unit := store off 1 v.
Definition setUint16 (off : nat) (v : Z) : M Writer unit := store off 2 v.
Definition setUint32 (off : nat) (v : Z) : M Writer unit := store off 4 v.

(** [view.setInt16(off, v, true)] for a number [v]. *)
Definition setInt16 (off : nat) (v : float) : M Writer unit := store off 2 (ToInt16 v).

(** [writeString(view, offset, str)] *)
Fixpoint writeString (off : nat) (str : string) : M Writer unit :=
  match str with
  | EmptyString => ret tt
  | String c r => setUint8 off (Z.of_nat (code c)) ;;; writeString (S off) r
  end.

(** [Math.max(-1, Math.min(1, sample))] *)
Definition clamp (sample : float) : float :=
  Math_max (of_Z (-1)) (Math_min (of_Z 1) sample).

(** The value the sample loop hands to [setInt16], and the 16-bit integer
    that call stores. *)
Definition scaled (sample : float) : float :=
  let clamped := clamp sample in
  if flt clamped (of_Z 0) then fmul clamped (of_Z 32768) else fmul clamped (of_Z 32767).
Definition written (sample : float) : Z := ToInt16 (scaled sample).

(** The body of the inner loop, for frame [i] and channel [ch]. *)
Definition writeSample (buffer : AudioBuffer) (i ch : nat) : M Writer unit :=
  let channel := getChannelData buffer ch in
  w <- get ;;
  setInt16 (offset w) (scaled (channel i)) ;;;
  modify (fun w => {| view := view w; offset := offset w + 2 |}).

(** [audioBufferToWavBlob(buffer)]; [maxByteLength] is the size above which
    [new ArrayBuffer] throws. *)
Definition audioBufferToWavBlob (maxByteLength : nat) (buffer : AudioBuffer) : Outcome Blob :=
  let numberOfChannels := Nat.min 2 (numberOfChannels buffer) in
  let sampleRate := sampleRate buffer in
  let samples := buffer_length buffer in
  let bytesPerSample := 2%nat in
  let blockAlign := (numberOfChannels * bytesPerSample)%nat in
  let dataSize := (samples * blockAlign)%nat in
  if (maxByteLength <? 44 + dataSize)%nat then Throw "Array buffer allocation failed" else
  let wavBuffer := replicate (44 + dataSize) 0 in
  let body : M Writer unit :=
    writeString 0 "RIFF" ;;;
    setUint32 4 (36 + Z.of_nat dataSize) ;;;
    writeString 8 "WAVE" ;;;
    writeString 12 "fmt " ;;;
    setUint32 16 16 ;;;
    setUint16 20 1 ;;;
    setUint16 22 (Z.of_nat numberOfChannels) ;;;
    setUint32 24 sampleRate ;;;
    setUint32 28 (sampleRate * Z.of_nat blockAlign) ;;;
    setUint16 32 (Z.of_nat blockAlign) ;;;
    setUint16 34 16 ;;;
    writeString 36 "data" ;;;
    setUint32 40 (Z.of_nat dataSize) ;;;
    modify (fun w => {| view := view w; offset := 44 |}) ;;;
    for_range 0 samples (fun i =>
      for_range 0 numberOfChannels (fun ch => writeSample buffer i ch))
  in
  match body {| view := wavBuffer; offset := 0 |} with
  | (Ok _, w) => Ok {| blob_bytes := view w; blob_type := "audio/wav" |}
  | (Throw e, _) => Throw e
  end.

(** The sizes the encoder derives from a buffer. *)
Definition channels (buffer : AudioBuffer) : nat := Nat.min 2 (numberOfChannels buffer).
Definition blockAlign (buffer : AudioBuffer) : nat := (channels buffer * 2)%nat.
Definition dataSize (buffer : AudioBuffer) : nat := (buffer_length buffer * blockAlign buffer)%nat.

(** The sample data of a WAV file: frame after frame, within a frame
    channel after channel, two little-endian bytes per sample. *)
Definition frame (buffer : AudioBuffer) (i : nat) : list Z :=
  flat_map (fun ch => le_bytes 2 (written (getChannelData buffer ch i)))
           (seq 0 (channels buffer)).
Definition pcm (buffer : AudioBuffer) : list Z :=
  flat_map (frame buffer) (seq 0 (buffer_length buffer)).

(** The bytes [writeString] stores for a string. *)
Fixpoint codes (s : string) : list Z :=
  match s with
  | EmptyString => []
  | String c r => Z.of_nat (code c) mod 256 :: codes r
  end.

(** The canonical 44-byte header for the given field values. *)
Definition header (chunkSize nch rate byteRate align bits size : Z) : list Z :=
  [82; 73; 70; 70] ++ le_bytes 4 chunkSize
  ++ [87; 65; 86; 69]
  ++ [102; 109; 116; 32] ++ le_bytes 4 16 ++ le_bytes 2 1 ++ le_bytes 2 nch
  ++ le_bytes 4 rate ++ le_bytes 4 byteRate ++ le_bytes 2 align ++ le_bytes 2 bits
  ++ [100; 97; 116; 97] ++ le_bytes 4 size.

(** Reading a little-endian field back, as a WAV parser does. *)
Fixpoint le_value (bs : list Z) : Z :=
  match bs with
  | [] => 0
  | b :: r => b + 256 * le_value r
  end.
Definition getUint (n off : nat) (bs : list Z) : Z := le_value (take n (drop off bs)).
Definition getInt16 (off : nat) (bs : list Z) : Z :=
  let u := getUint 2 off bs in if 32768 <=? u then u - 65536 else u.

End Wav.

(** ** Contracts shared by the three contexts *)

(** The values of [recordingState]: "idle", "recording", "paused". *)
Inductive RecState : Type := idle | recording | paused.

Definition RecState_eqb (a b : RecState) : bool :=
  match a, b with
  | idle, idle | recording, recording | paused, paused => true
  | _, _ => false
  end.

(** [a === b] on numbers, and on values that are a number or [null]. *)
Definition num_eq (a b : float) : bool :=
  match a, b with
  | PInf, PInf | NInf, NInf => true
  | Fin x, Fin y => Qeq_bool x y
  | _, _ => false
  end.
Definition count_eq (a b : option float) : bool :=
  match a, b with
  | None, None => true
  | Some x, Some y => num_eq x y
  | _, _ => false
  end.

(** ** The observer ([src/content.js]; the earlier revision kept under
    [src/unnamed/part_000] has the same [pollCallState]) *)

Module Observer.

Record State := {
  callActive : bool;
  meetingTitle : string;
  participantCount : option float;
  recordingState : RecState;
  panelEnabled : bool;
}.

(** What one poll reads from the page: for each selector the [textContent]
    of the first matching element ([None] when [querySelector] finds
    nothing), or whether an element matches at all. *)
Record Page := {
  meeting_title_el : option string;
  h1_el : option string;
  title_el : option string;
  document_title : string;
  participants_count_el : option string;
  aria_participants_el : option string;
  location_href : string;
  call_end_el : bool;
  leave_el : bool;
  hang_up_el : bool;
  toggle_video_el : bool;
}.

Inductive Effect : Type :=
| RenderPanel (s : State)
| CALL_STATUS_UPDATE (callActive : bool) (meetingTitle : string)
    (participantCount : option float).

(** [Number(digits)] for a run of decimal digits: the value rounded to the
    nearest binary64 number, ties to even. *)
Fixpoint digits_value (acc : Z) (s : string) : Z :=
  match s with
  | EmptyString => acc
  | String c r => digits_value (10 * acc + (Z.of_nat (code c) - 48)) r
  end.
Definition round_binary64 (n : Z) : float :=
  let bits := Z.log2 n + 1 in
  if bits <=? 53 then of_Z n
  else
    let k := bits - 53 in
    let q := n / 2 ^ k in
    let r := n mod 2 ^ k in
    let half := 2 ^ (k - 1) in
    let q' := if (half <? r) || ((r =? half) && Z.odd q) then q + 1 else q in
    if 2 ^ 1024 <=? q' * 2 ^ k then PInf else of_Z (q' * 2 ^ k).
Definition Number (digits : string) : float := round_binary64 (digits_value 0 digits).

(** [parseParticipantCount(text)]: the first run of digits, or [null]. *)
Definition parseParticipantCount (text : string) : option float :=
  match take_while is_digit (drop_while (fun c => negb (is_digit c)) text) with
  | EmptyString => None
  | m1 => Some (Number m1)
  end.

(** [detectCallActive()] *)
Definition detectCallActive (page : Page) : bool :=
  let url := toLowerCase (location_href page) in
  if includes url "/meetup-join/" || includes url "/meeting/" then true
  else existsb (fun found : bool => found)
         [call_end_el page; leave_el page; hang_up_el page; toggle_video_el page].

(** [a || b] on the results of [querySelector]. *)
Definition el_or (a b : option string) : option string :=
  match a with Some _ => a | None => b end.

(** [el?.textContent || fallback] *)
Definition text_or (el : option string) (fallback : string) : string :=
  match el with Some t => str_or t fallback | None => fallback end.

(** The three values [pollCallState] computes from the page before it
    compares them with the stored ones: [callActive], [meetingTitle] and
    [participantCount]. *)
Definition observe (page : Page) : bool * string * option float :=
  let titleEl := el_or (meeting_title_el page) (el_or (h1_el page) (title_el page)) in
  let meetingTitle := trim (text_or titleEl (str_or (document_title page) "TeamsCall")) in
  let partEl := el_or (participants_count_el page) (aria_participants_el page) in
  let participantCount := parseParticipantCount (text_or partEl "") in
  let callActive := detectCallActive page in
  (callActive, meetingTitle, participantCount).

(** [pollCallState()]: the new state and the effects, in order. *)
Definition pollCallState (page : Page) (state : State) : State * list Effect :=
  let '(callActive, meetingTitle, participantCount) := observe page in
  let changed :=
    negb (Bool.eqb callActive (Observer.callActive state))
    || negb (String.eqb meetingTitle (Observer.meetingTitle state))
    || negb (count_eq participantCount (Observer.participantCount state)) in
  if negb changed then (state, [])
  else
    let state' := {| callActive := callActive;
                     meetingTitle := meetingTitle;
                     participantCount := participantCount;
                     recordingState := recordingState state;
                     panelEnabled := panelEnabled state |} in
    (state', [RenderPanel state'; CALL_STATUS_UPDATE callActive meetingTitle participantCount]).

(** [n] consecutive polls of the same page, as [setInterval] runs them,
    with all their effects in order. *)
Fixpoint polls (n : nat) (page : Page) (state : State) : State * list Effect :=
  match n with
  | O => (state, [])
  | S m =>
      let (state1, effects1) := pollCallState page state in
      let (state2, effects2) := polls m page state1 in
      (state2, effects1 ++ effects2)
  end.

End Observer.

(** ** Execution contexts and their environment *)

(** The calls that leave a context.  Each may reject. *)
Inductive Api : Type :=
(* the coordinator *)
| storage_get_settings | storage_get_recordings
| storage_set_notes | storage_set_recordings | storage_set_runtimeState
| tabs_query | tabCapture_getMediaStreamId
| runtime_getContexts | offscreen_createDocument
| runtime_sendMessage | downloads_download | downloads_removeFile | downloads_erase
| action_setBadgeText | action_setBadgeBackgroundColor | tabs_sendMessage
(* the capture worker *)
| getUserMedia_tab | getUserMedia_mic
| new_AudioContext | context_resume | context_close
| createMediaStreamDestination | createMediaStreamSource | node_connect
| new_MediaRecorder | recorder_start | recorder_stop
| blob_arrayBuffer | context_decodeAudioData | reader_readAsDataURL
| worker_sendMessage.

(** What the outside world answers.  Every field is indexed by the number of
    calls the asking context has made so far. *)
Record Env := {
  fails : Api -> nat -> option string;
  query_result : nat -> list Z;
  media_stream_id : nat -> string;
  download_id : nat -> Z;
  Date_now : nat -> Z;
  new_Date : nat -> LocalDate;
  randomUUID : nat -> string;
  media_stream : nat -> nat;
  context_suspended : nat -> bool;
  audio_track_count : nat -> nat;
  isTypeSupported_opus : nat -> bool;
  decoded_audio : nat -> Wav.AudioBuffer;
  data_url : Blob -> string;
  maxByteLength : nat;
}.

(** A context: its globals [G], the number of outside calls it has made,
    and the log of those calls (events of type [E]). *)
Record Ctx (G E : Type) := {
  globals : G;
  clock : nat;
  trace : list E;
}.
Arguments globals {G E} c.
Arguments clock {G E} c.
Arguments trace {G E} c.

Section Context.
Context {G E : Type}.

Definition getg : M (Ctx G E) G := fun c => (Ok (globals c), c).
Definition modg (f : G -> G) : M (Ctx G E) unit :=
  fun c => (Ok tt, {| globals := f (globals c); clock := clock c; trace := trace c |}).

(** Log an effect that cannot fail. *)
Definition emit (ev : E) : M (Ctx G E) unit :=
  fun c => (Ok tt, {| globals := globals c; clock := clock c; trace := trace c ++ [ev] |}).

(** Ask the environment for a value. *)
Definition ask {A} (f : nat -> A) : M (Ctx G E) A :=
  fun c => (Ok (f (clock c)),
            {| globals := globals c; clock := S (clock c); trace := trace c |}).

(** An outside call: it is logged, and rejects when the environment
    says so. *)
Definition call (env : Env) (api : Api) (ev : E) : M (Ctx G E) unit :=
  fun c =>
    let c' := {| globals := globals c; clock := S (clock c); trace := trace c ++ [ev] |} in
    match fails env api (clock c) with
    | Some e => (Throw e, c')
    | None => (Ok tt, c')
    end.

(** An outside call that returns a value. *)
Definition request {A} (env : Env) (api : Api) (ev : E) (answer : nat -> A) : M (Ctx G E) A :=
  fun c =>
    let c' := {| globals := globals c; clock := S (clock c); trace := trace c ++ [ev] |} in
    match fails env api (clock c) with
    | Some e => (Throw e, c')
    | None => (Ok (answer (clock c)), c')
    end.

Definition lift {A} (o : Outcome A) : M (Ctx G E) A := fun c => (o, c).
End Context.

Definition when {T} (b : bool) (m : M T unit) : M T unit := if b then m else ret tt.

(** ** The capture worker (offscreen document; its script is the last
    part of [src/content.js]) *)

Module Offscreen.

Inductive RecorderState : Type := inactive | rec_recording | rec_paused.

Record MediaRecorder := {
  state : RecorderState;
  mimeType : string;
}.

Record Metadata := {
  startedAt : option Z;
  meta_meetingTitle : string;
  meta_participantCount : option float;
}.

Record Payload := {
  streamId : option string;
  sourceMode : string;
  format : string;
  beepOnStart : bool;
  metadata : Metadata;
}.

(** The messages addressed to the worker ([target: "offscreen"]). *)
Inductive Message : Type :=
| OFFSCREEN_START (payload : Payload)
| OFFSCREEN_PAUSE
| OFFSCREEN_RESUME
| OFFSCREEN_STOP
| OFFSCREEN_OTHER.

(** [{ ok, error }] *)
Record Response := {
  ok : bool;
  error : string;
}.

(** [{ format, blobDataUrl }] *)
Record Finalized := {
  fin_format : string;
  blobDataUrl : string;
}.

(** The module-level variables; streams and audio nodes are handles. *)
Record Globals := {
  mediaRecorder : option MediaRecorder;
  mixedStream : option nat;
  tabStream : option nat;
  micStream : option nat;
  chunks : list Blob;
  activeFormat : string;
  audioContext : option nat;
  audioDestination : option nat;
}.

Inductive Event : Type :=
| GetUserMedia (mic : bool)
| StopTracks (stream : nat)
| NewAudioContext
| ResumeContext (ctx : nat)
| CloseContext (ctx : nat)
| CreateDestination (ctx : nat)
| ConnectSource (stream : nat) (to_speakers : bool)
| PlayBeep (ctx : nat)
| NewMediaRecorder (stream : nat) (mimeType : string)
| RecorderStart (timeslice : Z)
| RecorderStop
| ArrayBuffer (b : Blob)
| DecodeAudioData
| ReadAsDataURL (b : Blob)
| RECORDING_FINALIZED (f : Finalized).

Definition Worker : Type := Ctx Globals Event.

Definition initial : Worker :=
  {| globals := {| mediaRecorder := None; mixedStream := None; tabStream := None;
                   micStream := None; chunks := []; activeFormat := "webm";
                   audioContext := None; audioDestination := None |};
     clock := 0; trace := [] |}.

Definition set_mediaRecorder (v : option MediaRecorder) (g : Globals) : Globals :=
  {| mediaRecorder := v; mixedStream := mixedStream g; tabStream := tabStream g;
     micStream := micStream g; chunks := chunks g; activeFormat := activeFormat g;
     audioContext := audioContext g; audioDestination := audioDestination g |}.
Definition set_mixedStream (v : option nat) (g : Globals) : Globals :=
  {| mediaRecorder := mediaRecorder g; mixedStream := v; tabStream := tabStream g;
     micStream := micStream g; chunks := chunks g; activeFormat := activeFormat g;
     audioContext := audioContext g; audioDestination := audioDestination g |}.
Definition set_tabStream (v : option nat) (g : Globals) : Globals :=
  {| mediaRecorder := mediaRecorder g; mixedStream := mixedStream g; tabStream := v;
     micStream := micStream g; chunks := chunks g; activeFormat := activeFormat g;
     audioContext := audioContext g; audioDestination := audioDestination g |}.
Definition set_micStream (v : option nat) (g : Globals) : Globals :=
  {| mediaRecorder := mediaRecorder g; mixedStream := mixedStream g; tabStream := tabStream g;
     micStream := v; chunks := chunks g; activeFormat := activeFormat g;
     audioContext := audioContext g; audioDestination := audioDestination g |}.
Definition set_chunks (v : list Blob) (g : Globals) : Globals :=
  {| mediaRecorder := mediaRecorder g; mixedStream := mixedStream g; tabStream := tabStream g;
     micStream := micStream g; chunks := v; activeFormat := activeFormat g;
     audioContext := audioContext g; audioDestination := audioDestination g |}.
Definition set_activeFormat (v : string) (g : Globals) : Globals :=
  {| mediaRecorder := mediaRecorder g; mixedStream := mixedStream g; tabStream := tabStream g;
     micStream := micStream g; chunks := chunks g; activeFormat := v;
     audioContext := audioContext g; audioDestination := audioDestination g |}.
Definition set_audioContext (v : option nat) (g : Globals) : Globals :=
  {| mediaRecorder := mediaRecorder g; mixedStream := mixedStream g; tabStream := tabStream g;
     micStream := micStream g; chunks := chunks g; activeFormat := activeFormat g;
     audioContext := v; audioDestination := audioDestination g |}.
Definition set_audioDestination (v : option nat) (g : Globals) : Globals :=
  {| mediaRecorder := mediaRecorder g; mixedStream := mixedStream g; tabStream := tabStream g;
     micStream := micStream g; chunks := chunks g; activeFormat := activeFormat g;
     audioContext := audioContext g; audioDestination := v |}.

Definition W (A : Type) : Type := M Worker A.

(** [if (stream) stream.getTracks().forEach((t) => t.stop())] *)
Definition stop_tracks (stream : option nat) : W unit :=
  match stream with
  | Some s => emit (StopTracks s)
  | None => ret tt
  end.

(** [cleanup()] *)
Definition cleanup (env : Env) : W unit :=
  g <- getg ;;
  stop_tracks (tabStream g) ;;;
  stop_tracks (micStream g) ;;;
  stop_tracks (mixedStream g) ;;;
  match audioContext g with
  | Some ctx => try_catch (call env context_close (CloseContext ctx)) (fun _ => ret tt)
  | None => ret tt
  end ;;;
  modg (fun g =>
    {| mediaRecorder := None; mixedStream := None; tabStream := None; micStream := None;
       chunks := []; activeFormat := activeFormat g;
       audioContext := None; audioDestination := None |}).

(** [!payload.streamId] *)
Definition no_stream_id (id : option string) : bool :=
  match id with
  | None | Some EmptyString => true
  | Some _ => false
  end.

(** [startCapture(payload)] *)
Definition startCapture (env : Env) (payload : Payload) : W unit :=
  cleanup env ;;;
  modg (set_activeFormat (str_or (format payload) "webm")) ;;;
  let sourceMode := str_or (sourceMode payload) "both" in
  let includeSystem := String.eqb sourceMode "both" || String.eqb sourceMode "system" in
  let includeMic := String.eqb sourceMode "both" || String.eqb sourceMode "mic" in
  when includeSystem (
    if no_stream_id (streamId payload)
    then throw "System audio capture is unavailable for this tab."
    else
      stream <- request env getUserMedia_tab (GetUserMedia false) (media_stream env) ;;
      modg (set_tabStream (Some stream))) ;;;
  when includeMic (
    try_catch
      (stream <- request env getUserMedia_mic (GetUserMedia true) (media_stream env) ;;
       modg (set_micStream (Some stream)))
      (fun _ =>
         modg (set_micStream None) ;;;
         if negb includeSystem
         then throw "Microphone permission is required for mic-only recording."
         else ret tt)) ;;;
  ctx <- request env new_AudioContext NewAudioContext (media_stream env) ;;
  modg (set_audioContext (Some ctx)) ;;;
  suspended <- ask (context_suspended env) ;;
  when suspended (try_catch (call env context_resume (ResumeContext ctx)) (fun _ => ret tt)) ;;;
  dest <- request env createMediaStreamDestination (CreateDestination ctx) (media_stream env) ;;
  modg (set_audioDestination (Some dest)) ;;;
  g <- getg ;;
  match tabStream g with
  | Some tab => when includeSystem (
      call env createMediaStreamSource (ConnectSource tab false) ;;;
      call env node_connect (ConnectSource tab true))
  | None => ret tt
  end ;;;
  match micStream g with
  | Some mic => when includeMic (call env createMediaStreamSource (ConnectSource mic false))
  | None => ret tt
  end ;;;
  modg (set_mixedStream (Some dest)) ;;;
  tracks <- ask (audio_track_count env) ;;
  if (tracks =? 0)%nat then throw "No audio source available for recording." else
  modg (set_chunks []) ;;;
  when (beepOnStart payload) (emit (PlayBeep ctx)) ;;;
  opus <- ask (isTypeSupported_opus env) ;;
  let mimeType := if opus : bool then "audio/webm;codecs=opus" else "audio/webm" in
  call env new_MediaRecorder (NewMediaRecorder dest mimeType) ;;;
  modg (set_mediaRecorder (Some {| state := inactive; mimeType := mimeType |})) ;;;
  call env recorder_start (RecorderStart 1000) ;;;
  modg (set_mediaRecorder (Some {| state := rec_recording; mimeType := mimeType |})).

(** [stopCapture()]: the recorder's [stop] event fires later and runs
    [onstop]. *)
Definition stopCapture (env : Env) : W unit :=
  g <- getg ;;
  match mediaRecorder g with
  | Some r =>
      match state r with
      | inactive => cleanup env
      | _ =>
          call env recorder_stop RecorderStop ;;;
          modg (set_mediaRecorder (Some {| state := inactive; mimeType := mimeType r |}))
      end
  | None => cleanup env
  end.

(** [blobToDataUrl(blob)] *)
Definition blobToDataUrl (env : Env) (blob : Blob) : W string :=
  request env reader_readAsDataURL (ReadAsDataURL blob) (fun _ => data_url env blob).

(** [convertWebmToWav(webmBlob)] *)
Definition convertWebmToWav (env : Env) (webmBlob : Blob) : W Blob :=
  context <- request env new_AudioContext NewAudioContext (media_stream env) ;;
  call env blob_arrayBuffer (ArrayBuffer webmBlob) ;;;
  buffer <- request env context_decodeAudioData DecodeAudioData (decoded_audio env) ;;
  call env context_close (CloseContext context) ;;;
  lift (Wav.audioBufferToWavBlob (maxByteLength env) buffer).

(** [finalize(blob, format)] *)
Definition finalize (env : Env) (blob : Blob) (format : string) : W Finalized :=
  if String.eqb format "wav" then
    try_catch
      (wavBlob <- convertWebmToWav env blob ;;
       url <- blobToDataUrl env wavBlob ;;
       ret {| fin_format := "wav"; blobDataUrl := url |})
      (fun _ =>
         url <- blobToDataUrl env blob ;;
         ret {| fin_format := "webm"; blobDataUrl := url |})
  else if String.eqb format "mp3" then
    url <- blobToDataUrl env blob ;;
    ret {| fin_format := "webm"; blobDataUrl := url |}
  else
    url <- blobToDataUrl env blob ;;
    ret {| fin_format := "webm"; blobDataUrl := url |}.

(** [new Blob(chunks, { type })] *)
Definition Blob_of (chunks : list Blob) (type : string) : Blob :=
  {| blob_bytes := concat (map blob_bytes chunks); blob_type := type |}.

(** [mediaRecorder.ondataavailable], for a chunk [data]. *)
Definition ondataavailable (data : Blob) : W unit :=
  when (0 <? length (blob_bytes data))%nat
    (modg (fun g => set_chunks (chunks g ++ [data]) g)).

(** [mediaRecorder.onstop] *)
Definition onstop (env : Env) : W unit :=
  try_finally
    (g <- getg ;;
     let type := match mediaRecorder g with
                 | Some r => str_or (mimeType r) "audio/webm"
                 | None => "audio/webm"
                 end in
     let blob := Blob_of (chunks g) type in
     finalized <- finalize env blob (activeFormat g) ;;
     call env worker_sendMessage (RECORDING_FINALIZED finalized))
    (cleanup env).

(** [mediaRecorder?.pause()] and [mediaRecorder?.resume()]: both throw on
    an inactive recorder. *)
Definition recorder_pause : W unit :=
  g <- getg ;;
  match mediaRecorder g with
  | None => ret tt
  | Some r =>
      match state r with
      | inactive => throw "Failed to execute 'pause' on 'MediaRecorder': The MediaRecorder's state is 'inactive'."
      | _ => modg (set_mediaRecorder (Some {| state := rec_paused; mimeType := mimeType r |}))
      end
  end.
Definition recorder_resume : W unit :=
  g <- getg ;;
  match mediaRecorder g with
  | None => ret tt
  | Some r =>
      match state r with
      | inactive => throw "Failed to execute 'resume' on 'MediaRecorder': The MediaRecorder's state is 'inactive'."
      | _ => modg (set_mediaRecorder (Some {| state := rec_recording; mimeType := mimeType r |}))
      end
  end.

(** [handle(message)] *)
Definition handle (env : Env) (message : Message) : W unit :=
  match message with
  | OFFSCREEN_START payload => startCapture env payload
  | OFFSCREEN_PAUSE => recorder_pause
  | OFFSCREEN_RESUME => recorder_resume
  | OFFSCREEN_STOP => stopCapture env
  | OFFSCREEN_OTHER => ret tt
  end.

(** The [chrome.runtime.onMessage] listener of the worker: every outcome of
    [handle], a rejection included, is turned into a response. *)
Definition onMessage (env : Env) (message : Message) (w : Worker) : Response * Worker :=
  match handle env message w with
  | (Ok _, w') => ({| ok := true; error := "" |}, w')
  | (Throw e, w') => ({| ok := false; error := e |}, w')
  end.

(** No capture session is allocated: every handle is [null] and no chunk
    is buffered. *)
Definition released (g : Globals) : Prop :=
  mediaRecorder g = None /\ mixedStream g = None /\ tabStream g = None
  /\ micStream g = None /\ chunks g = [] /\ audioContext g = None
  /\ audioDestination g = None.

End Offscreen.

(** ** The coordinator ([src/background.js]) *)

Module Background.

Record State := {
  callActive : bool;
  callTabId : option Z;
  callTitle : string;
  participantCount : option float;
  recordingState : RecState;
  recordingStartedAt : option Z;
  lastError : string;
  currentFilename : string;
  latestDownloadId : option Z;
}.

Record RecordingRecord := {
  id : string;
  filename : string;
  downloadId : Z;
  createdAt : Z;
  startedAt : option Z;
  endedAt : Z;
  durationSec : Z;
  meetingTitle : string;
  rec_participantCount : option float;
  rec_notes : string;
  rec_format : string;
  rec_folder : string;
}.

(** [chrome.storage.local]: the settings (an absent string key reads as the
    empty string, both are falsy), the history ([None] when the key holds
    no array) and the last published snapshot. *)
Record Storage := {
  sourceMode : string;
  format : string;
  folder : string;
  beepOnStart : bool;
  consentAccepted : bool;
  onScreenBadge : bool;
  notes : string;
  recordings : option (list RecordingRecord);
  runtimeState : option State;
}.

(** What the coordinator acts on: its [state] object, the extension
    storage, and the offscreen document when one exists. *)
Record World := {
  state : State;
  storage : Storage;
  offscreen : option Offscreen.Worker;
}.

Inductive Url : Type :=
| DataUrl (url : string)
| JsonDataUrl (record : RecordingRecord).

Inductive Event : Type :=
| StorageGet
| SetNotes (notes : string)
| SetRecordings (recordings : list RecordingRecord)
| SetRuntimeState (s : State)
| TabsQuery
| GetMediaStreamId (targetTabId : Z)
| GetContexts
| CreateDocument
| SendMessage (m : Offscreen.Message)
| Download (url : Url) (filename : string)
| RemoveFile (downloadId : Z)
| Erase (downloadId : Z)
| SetBadgeText (text : string)
| SetBadgeBackgroundColor (color : string)
| STATE_CHANGED (tabId : Z) (s : State).

Definition Coordinator : Type := Ctx World Event.
Definition B (A : Type) : Type := M Coordinator A.

(** The messages the listener dispatches on. *)
Inductive Message : Type :=
| CALL_STATUS_UPDATE (callActive : bool) (meetingTitle : string) (participantCount : option float)
| GET_STATE
| START_RECORDING (notes : string)
| PAUSE_RECORDING
| RESUME_RECORDING
| STOP_RECORDING
| RECORDING_CHUNK_READY
| RECORDING_FINALIZED (format : string) (blobDataUrl : string)
| LIST_RECORDINGS
| DELETE_RECORDING (id : string)
| UNKNOWN.

Inductive Result : Type :=
| undefined
| null
| result_true
| result_state (s : State)
| result_recordings (l : list RecordingRecord).

(** [{ ok: true, result }] and [{ ok: false, error }] *)
Inductive Response : Type :=
| Success (result : Result)
| Failure (error : string).

Definition initial_state : State :=
  {| callActive := false; callTabId := None; callTitle := ""; participantCount := None;
     recordingState := idle; recordingStartedAt := None; lastError := "";
     currentFilename := ""; latestDownloadId := None |}.

Definition set_lastError (v : string) (s : State) : State :=
  {| callActive := callActive s; callTabId := callTabId s; callTitle := callTitle s;
     participantCount := participantCount s; recordingState := recordingState s;
     recordingStartedAt := recordingStartedAt s; lastError := v;
     currentFilename := currentFilename s; latestDownloadId := latestDownloadId s |}.
Definition set_callTabId (v : option Z) (s : State) : State :=
  {| callActive := callActive s; callTabId := v; callTitle := callTitle s;
     participantCount := participantCount s; recordingState := recordingState s;
     recordingStartedAt := recordingStartedAt s; lastError := lastError s;
     currentFilename := currentFilename s; latestDownloadId := latestDownloadId s |}.
Definition set_recordingState (v : RecState) (s : State) : State :=
  {| callActive := callActive s; callTabId := callTabId s; callTitle := callTitle s;
     participantCount := participantCount s; recordingState := v;
     recordingStartedAt := recordingStartedAt s; lastError := lastError s;
     currentFilename := currentFilename s; latestDownloadId := latestDownloadId s |}.
Definition set_recordingStartedAt (v : option Z) (s : State) : State :=
  {| callActive := callActive s; callTabId := callTabId s; callTitle := callTitle s;
     participantCount := participantCount s; recordingState := recordingState s;
     recordingStartedAt := v; lastError := lastError s;
     currentFilename := currentFilename s; latestDownloadId := latestDownloadId s |}.
Definition set_currentFilename (v : string) (s : State) : State :=
  {| callActive := callActive s; callTabId := callTabId s; callTitle := callTitle s;
     participantCount := participantCount s; recordingState := recordingState s;
     recordingStartedAt := recordingStartedAt s; lastError := lastError s;
     currentFilename := v; latestDownloadId := latestDownloadId s |}.
Definition set_latestDownloadId (v : option Z) (s : State) : State :=
  {| callActive := callActive s; callTabId := callTabId s; callTitle := callTitle s;
     participantCount := participantCount s; recordingState := recordingState s;
     recordingStartedAt := recordingStartedAt s; lastError := lastError s;
     currentFilename := currentFilename s; latestDownloadId := v |}.

Definition get_state : B State := w <- getg ;; ret (state w).
Definition get_storage : B Storage := w <- getg ;; ret (storage w).
Definition mod_state (f : State -> State) : B unit :=
  modg (fun w => {| state := f (state w); storage := storage w; offscreen := offscreen w |}).
Definition mod_storage (f : Storage -> Storage) : B unit :=
  modg (fun w => {| state := state w; storage := f (storage w); offscreen := offscreen w |}).
Definition set_offscreen (v : option Offscreen.Worker) : B unit :=
  modg (fun w => {| state := state w; storage := storage w; offscreen := v |}).

Definition store_notes (v : string) (s : Storage) : Storage :=
  {| sourceMode := sourceMode s; format := format s; folder := folder s;
     beepOnStart := beepOnStart s; consentAccepted := consentAccepted s;
     onScreenBadge := onScreenBadge s; notes := v; recordings := recordings s;
     runtimeState := runtimeState s |}.
Definition store_recordings (v : option (list RecordingRecord)) (s : Storage) : Storage :=
  {| sourceMode := sourceMode s; format := format s; folder := folder s;
     beepOnStart := beepOnStart s; consentAccepted := consentAccepted s;
     onScreenBadge := onScreenBadge s; notes := notes s; recordings := v;
     runtimeState := runtimeState s |}.
Definition store_runtimeState (v : State) (s : Storage) : Storage :=
  {| sourceMode := sourceMode s; format := format s; folder := folder s;
     beepOnStart := beepOnStart s; consentAccepted := consentAccepted s;
     onScreenBadge := onScreenBadge s; notes := notes s; recordings := recordings s;
     runtimeState := Some v |}.

(** [publishState()] *)
Definition publishState (env : Env) : B unit :=
  state <- get_state ;;
  let label :=
    match recordingState state with
    | recording => "REC"
    | _ => if callActive state then "CALL" else ""
    end in
  let color :=
    match recordingState state with
    | recording => "#d91e18"
    | _ => if callActive state then "#1b8f3e" else "#7a7a7a"
    end in
  call env action_setBadgeText (SetBadgeText label) ;;;
  call env action_setBadgeBackgroundColor (SetBadgeBackgroundColor color) ;;;
  call env storage_set_runtimeState (SetRuntimeState state) ;;;
  mod_storage (store_runtimeState state) ;;;
  try_catch
    match callTabId state with
    | Some tab => call env tabs_sendMessage (STATE_CHANGED tab state)
    | None => ret tt
    end
    (fun _ => ret tt).

(** [chrome.runtime.sendMessage({ target: "offscreen", ... })]: the promise
    rejects when nothing listens; otherwise it resolves with whatever the
    worker's listener passes to [sendResponse]. *)
Definition sendMessage (env : Env) (m : Offscreen.Message) : B Offscreen.Response :=
  call env runtime_sendMessage (SendMessage m) ;;;
  w <- getg ;;
  match offscreen w with
  | None => throw "Could not establish connection. Receiving end does not exist."
  | Some worker =>
      let (response, worker') := Offscreen.onMessage env m worker in
      set_offscreen (Some worker') ;;;
      ret response
  end.

(** [ensureOffscreenDocument()] *)
Definition ensureOffscreenDocument (env : Env) : B unit :=
  call env runtime_getContexts GetContexts ;;;
  w <- getg ;;
  match offscreen w with
  | Some _ => ret tt
  | None =>
      call env offscreen_createDocument CreateDocument ;;;
      set_offscreen (Some Offscreen.initial)
  end.

(** [saveBlobToDownloads(blobDataUrl, filename)] *)
Definition saveBlobToDownloads (env : Env) (url : Url) (filename : string) : B Z :=
  request env downloads_download (Download url filename) (download_id env).

(** [resolveTeamsTabId()] *)
Definition resolveTeamsTabId (env : Env) : B (option Z) :=
  st <- get_state ;;
  match callTabId st with
  | Some tab => ret (Some tab)
  | None =>
      tabs <- request env tabs_query TabsQuery (query_result env) ;;
      ret (head tabs)
  end.

(** [pauseRecording()] *)
Definition pauseRecording (env : Env) : B Result :=
  st <- get_state ;;
  if negb (RecState_eqb (recordingState st) recording) then ret undefined else
  sendMessage env Offscreen.OFFSCREEN_PAUSE ;;;
  mod_state (set_recordingState paused) ;;;
  publishState env ;;;
  ret undefined.

(** [resumeRecording()] *)
Definition resumeRecording (env : Env) : B Result :=
  st <- get_state ;;
  if negb (RecState_eqb (recordingState st) paused) then ret undefined else
  sendMessage env Offscreen.OFFSCREEN_RESUME ;;;
  mod_state (set_recordingState recording) ;;;
  publishState env ;;;
  ret undefined.

(** [stopRecording()] *)
Definition stopRecording (env : Env) : B Result :=
  st <- get_state ;;
  if RecState_eqb (recordingState st) idle then ret undefined else
  sendMessage env Offscreen.OFFSCREEN_STOP ;;;
  ret undefined.

(** [handleCallStatus(message, sender)]; [sender_tab] is [sender.tab?.id]. *)
Definition handleCallStatus (env : Env) (callActive' : bool) (meetingTitle' : string)
    (participantCount' : option float) (sender_tab : option Z) : B Result :=
  mod_state (fun s =>
    {| callActive := callActive';
       callTabId := match sender_tab with
                    | Some tab => if tab =? 0 then callTabId s else Some tab
                    | None => callTabId s
                    end;
       callTitle := meetingTitle';
       participantCount := participantCount';
       recordingState := recordingState s;
       recordingStartedAt := recordingStartedAt s;
       lastError := lastError s;
       currentFilename := currentFilename s;
       latestDownloadId := latestDownloadId s |}) ;;;
  publishState env ;;;
  st <- get_state ;;
  if negb (callActive st) && negb (RecState_eqb (recordingState st) idle)
  then stopRecording env
  else ret undefined.

(** [!tabId] *)
Definition no_tab (tabId : option Z) : bool :=
  match tabId with
  | None => true
  | Some tab => tab =? 0
  end.

(** [startRecording(notes)] *)
Definition startRecording (env : Env) (notes' : string) : B Result :=
  call env storage_get_settings StorageGet ;;;
  settings <- get_storage ;;
  if negb (consentAccepted settings) then throw "Consent disclaimer must be accepted." else
  st <- get_state ;;
  if negb (RecState_eqb (recordingState st) idle) then throw "Recording already in progress." else
  tabId <- resolveTeamsTabId env ;;
  if no_tab tabId then throw "No active Teams call tab found." else
  mod_state (set_callTabId tabId) ;;;
  let sourceMode := str_or (sourceMode settings) "both" in
  streamId <-
    (if String.eqb sourceMode "mic" then ret None
     else
       id <- request env tabCapture_getMediaStreamId
               (GetMediaStreamId (default 0 tabId)) (media_stream_id env) ;;
       ret (Some id)) ;;
  ensureOffscreenDocument env ;;;
  mod_state (set_recordingState recording) ;;;
  now <- ask (Date_now env) ;;
  mod_state (set_recordingStartedAt (Some now)) ;;;
  mod_state (set_lastError "") ;;;
  date <- ask (new_Date env) ;;
  st <- get_state ;;
  mod_state (set_currentFilename (makeFilename date (callTitle st) (format settings) (folder settings))) ;;;
  call env storage_set_notes (SetNotes (str_or notes' "")) ;;;
  mod_storage (store_notes (str_or notes' "")) ;;;
  publishState env ;;;
  try_catch
    (st <- get_state ;;
     sendMessage env (Offscreen.OFFSCREEN_START
       {| Offscreen.streamId := streamId;
          Offscreen.sourceMode := sourceMode;
          Offscreen.format := format settings;
          Offscreen.beepOnStart := beepOnStart settings;
          Offscreen.metadata :=
            {| Offscreen.startedAt := recordingStartedAt st;
               Offscreen.meta_meetingTitle := str_or (callTitle st) "TeamsCall";
               Offscreen.meta_participantCount := participantCount st |} |}) ;;;
     ret undefined)
    (fun error =>
       mod_state (set_recordingState idle) ;;;
       mod_state (set_recordingStartedAt None) ;;;
       mod_state (set_currentFilename "") ;;;
       publishState env ;;;
       throw error).

(** [handleChunk(_message)] *)
Definition handleChunk : B Result := ret result_true.

(** [filename.replace(/\.[^.]+$/, "")] *)
Definition strip_ext (filename : string) : string :=
  match matchExt filename with
  | Some (before, _) => before
  | None => filename
  end.

(** [Math.max(0, Math.round((endedAt - (startedAt || endedAt)) / 1000))] *)
Definition duration (startedAt : option Z) (endedAt : Z) : Z :=
  let started := match startedAt with
                 | Some t => if t =? 0 then endedAt else t
                 | None => endedAt
                 end in
  Z.max 0 ((endedAt - started + 500) / 1000).

(** The name [handleFinalized] saves the artifact under. *)
Definition finalFilename (date : LocalDate) (st : State) (settings : Storage)
    (finalizedFormat : string) : string :=
  let fallbackFilename := makeFilename date (callTitle st) finalizedFormat (folder settings) in
  applyFormatToFilename (str_or (currentFilename st) fallbackFilename) finalizedFormat.

(** [handleFinalized(message)] *)
Definition handleFinalized (env : Env) (format' blobDataUrl : string) : B Result :=
  call env storage_get_settings StorageGet ;;;
  settings <- get_storage ;;
  let finalizedFormat := str_or format' "webm" in
  date <- ask (new_Date env) ;;
  st <- get_state ;;
  let finalFilename := finalFilename date st settings finalizedFormat in
  try_finally
    (downloadId <- saveBlobToDownloads env (DataUrl blobDataUrl) finalFilename ;;
     mod_state (set_latestDownloadId (Some downloadId)) ;;;
     endedAt <- ask (Date_now env) ;;
     uuid <- ask (randomUUID env) ;;
     st <- get_state ;;
     let record :=
       {| id := uuid;
          filename := finalFilename;
          downloadId := downloadId;
          createdAt := endedAt;
          startedAt := recordingStartedAt st;
          endedAt := endedAt;
          durationSec := duration (recordingStartedAt st) endedAt;
          meetingTitle := str_or (callTitle st) "TeamsCall";
          rec_participantCount := participantCount st;
          rec_notes := str_or (notes settings) "";
          rec_format := finalizedFormat;
          rec_folder := folder settings |} in
     let metadataName := strip_ext finalFilename +:+ ".json" in
     saveBlobToDownloads env (JsonDataUrl record) metadataName ;;;
     call env storage_get_recordings StorageGet ;;;
     existing <- get_storage ;;
     let recordings := default [] (recordings existing) in
     let recordings := record :: recordings in
     call env storage_set_recordings (SetRecordings (take 200 recordings)) ;;;
     mod_storage (fun s => store_notes "" (store_recordings (Some (take 200 recordings)) s)) ;;;
     ret undefined)
    (mod_state (set_recordingState idle) ;;;
     mod_state (set_recordingStartedAt None) ;;;
     mod_state (set_currentFilename "") ;;;
     publishState env).

(** [listRecordings()] *)
Definition listRecordings (env : Env) : B Result :=
  call env storage_get_recordings StorageGet ;;;
  data <- get_storage ;;
  ret (result_recordings (default [] (recordings data))).

(** [deleteRecording(id)] *)
Definition deleteRecording (env : Env) (id' : string) : B Result :=
  if String.eqb id' "" then ret undefined else
  call env storage_get_recordings StorageGet ;;;
  data <- get_storage ;;
  let recordings := default [] (recordings data) in
  let target := find (fun r => String.eqb (id r) id') recordings in
  match target with
  | Some r =>
      when (negb (downloadId r =? 0)) (
        try_catch (call env downloads_removeFile (RemoveFile (downloadId r))) (fun _ => ret tt) ;;;
        call env downloads_erase (Erase (downloadId r)))
  | None => ret tt
  end ;;;
  let kept := filter (fun r => negb (String.eqb (id r) id')) recordings in
  call env storage_set_recordings (SetRecordings kept) ;;;
  mod_storage (store_recordings (Some kept)) ;;;
  ret undefined.

(** [handleMessage(message, sender)] *)
Definition handleMessage (env : Env) (message : Message) (sender_tab : option Z) : B Result :=
  match message with
  | CALL_STATUS_UPDATE a t n => handleCallStatus env a t n sender_tab
  | GET_STATE => st <- get_state ;; ret (result_state st)
  | START_RECORDING notes => startRecording env (str_or notes "")
  | PAUSE_RECORDING => pauseRecording env
  | RESUME_RECORDING => resumeRecording env
  | STOP_RECORDING => stopRecording env
  | RECORDING_CHUNK_READY => handleChunk
  | RECORDING_FINALIZED f url => handleFinalized env f url
  | LIST_RECORDINGS => listRecordings env
  | DELETE_RECORDING i => deleteRecording env i
  | UNKNOWN => ret null
  end.

(** The [chrome.runtime.onMessage] listener; [message] is [None] for a
    message without a [type], which gets no response.  In the [catch] the
    error is written to [lastError] and the state is published without
    waiting for the outcome. *)
Definition onMessage (env : Env) (message : option Message) (sender_tab : option Z)
    (c : Coordinator) : option Response * Coordinator :=
  match message with
  | None => (None, c)
  | Some m =>
      match handleMessage env m sender_tab c with
      | (Ok result, c') => (Some (Success result), c')
      | (Throw e, c') =>
          let message := str_or e "Error" in
          let (_, c'') := (mod_state (set_lastError message) ;;; publishState env) c' in
          (Some (Failure message), c'')
      end
  end.

(** The [chrome.commands.onCommand] listener. *)
Definition onCommand (env : Env) (command : string) : B unit :=
  when (String.eqb command "toggle-recording") (
    st <- get_state ;;
    if RecState_eqb (recordingState st) idle
    then startRecording env "" ;;; ret tt
    else stopRecording env ;;; ret tt) ;;;
  when (String.eqb command "pause-resume-recording") (
    st <- get_state ;;
    if RecState_eqb (recordingState st) recording then pauseRecording env ;;; ret tt
    else if RecState_eqb (recordingState st) paused then resumeRecording env ;;; ret tt
    else ret tt).

(** What can happen to the coordinator and its world, one event at a time:
    a message arrives, a keyboard command fires, or the recorder of the
    offscreen document delivers a chunk or stops.  The RECORDING_FINALIZED
    message that [onstop] sends reaches the coordinator as a message of its
    own. *)
Inductive Input : Type :=
| Deliver (message : option Message) (sender_tab : option Z)
| Command (command : string)
| RecorderData (data : Blob)
| RecorderStopped.

Definition in_worker (f : Offscreen.Worker -> Offscreen.Worker) (c : Coordinator) : Coordinator :=
  match offscreen (globals c) with
  | Some w => snd (set_offscreen (Some (f w)) c)
  | None => c
  end.

Definition step (env : Env) (i : Input) (c : Coordinator) : Coordinator :=
  match i with
  | Deliver message sender_tab => snd (onMessage env message sender_tab c)
  | Command command => snd (onCommand env command c)
  | RecorderData data => in_worker (fun w => snd (Offscreen.ondataavailable data w)) c
  | RecorderStopped => in_worker (fun w => snd (Offscreen.onstop env w)) c
  end.

(** The worlds the coordinator can be in: it starts with the initial
    [state] object, any storage and no offscreen document. *)
Inductive reachable : Coordinator -> Prop :=
| reachable_init (storage : Storage) :
    reachable {| globals := {| state := initial_state; storage := storage; offscreen := None |};
                 clock := 0; trace := [] |}
| reachable_step (env : Env) (i : Input) (c : Coordinator) :
    reachable c -> reachable (step env i c).

(** The invariant of the data model. *)
Definition state_invariant (s : State) : Prop :=
  recordingState s <> idle -> recordingStartedAt s <> None /\ currentFilename s <> "".

(** Predicates for reasoning about what a handler does to [state]: the
    handler leaves it alone, or every run from [s] ends in [Q]. *)
Definition keeps_state {A} (m : B A) : Prop :=
  forall c, state (globals (snd (m c))) = state (globals c).

Definition wps {A} (m : B A) (Q : Outcome A -> State -> Prop) (s : State) : Prop :=
  forall c, state (globals c) = s -> Q (fst (m c)) (state (globals (snd (m c)))).

Definition always {A} (P : State -> Prop) : Outcome A -> State -> Prop := fun _ s => P s.

(** The calls one run of [publishState] makes for the state [s] when the
    badge and the snapshot are accepted: the broadcast of [s]. *)
Definition broadcast (s : State) : list Event :=
  [SetBadgeText (match recordingState s with
                 | recording => "REC"
                 | _ => if callActive s then "CALL" else ""
                 end);
   SetBadgeBackgroundColor (match recordingState s with
                            | recording => "#d91e18"
                            | _ => if callActive s then "#1b8f3e" else "#7a7a7a"
                            end);
   SetRuntimeState s]
  ++ match callTabId s with
     | Some tab => [STATE_CHANGED tab s]
     | None => []
     end.

(** Assumptions on the environment used by some statements. *)
Definition badge_works (env : Env) : Prop :=
  forall n, fails env action_setBadgeText n = None
            /\ fails env action_setBadgeBackgroundColor n = None
            /\ fails env storage_set_runtimeState n = None.

Definition persistence_works (env : Env) : Prop :=
  forall n, fails env storage_get_settings n = None
            /\ fails env downloads_download n = None
            /\ fails env storage_get_recordings n = None
            /\ fails env storage_set_recordings n = None.

Definition start_calls_work (env : Env) : Prop :=
  badge_works env
  /\ forall n, fails env storage_get_settings n = None
               /\ fails env runtime_getContexts n = None
               /\ fails env offscreen_createDocument n = None
               /\ fails env storage_set_notes n = None
               /\ fails env runtime_sendMessage n = None.

End Background.

(** ** Sample environments and worlds *)

Definition silence : Wav.AudioBuffer :=
  {| Wav.numberOfChannels := 1; Wav.sampleRate := 48000; Wav.buffer_length := 0;
     Wav.getChannelData := fun _ _ => of_Z 0 |}.

Definition two_samples : Wav.AudioBuffer :=
  {| Wav.numberOfChannels := 2; Wav.sampleRate := 48000; Wav.buffer_length := 2;
     Wav.getChannelData := fun ch i => if (ch =? i)%nat then Fin (1 # 2) else Fin (-3 # 2) |}.

Definition march_9 : LocalDate :=
  {| getFullYear := 2024; getMonth := 2; getDate := 9; getHours := 14; getMinutes := 5 |}.

(** An environment that refuses exactly the calls [refused] names. *)
Definition answering (refused : Api -> nat -> option string) : Env :=
  {| fails := refused;
     query_result := fun _ => [7];
     media_stream_id := fun _ => "stream-1";
     download_id := fun n => Z.of_nat n + 1;
     Date_now := fun n => 1710000000000 + 1000 * Z.of_nat n;
     new_Date := fun _ => march_9;
     randomUUID := fun _ => "3f0c2b9e-5d1a-4c6e-9a37-2b8f0e4d7c11";
     media_stream := fun n => n;
     context_suspended := fun _ => false;
     audio_track_count := fun _ => 1%nat;
     isTypeSupported_opus := fun _ => true;
     decoded_audio := fun _ => silence;
     data_url := fun _ => "data:audio/webm;base64,GkXfo0AgQoaBAUL3";
     maxByteLength := 4096 |}.

Definition quiet : Env := answering (fun _ _ => None).

Definition download_refused : Env :=
  answering (fun api _ => match api with
                          | downloads_download => Some "Download interrupted"
                          | _ => None
                          end).

Definition mic_denied : Env :=
  answering (fun api _ => match api with
                          | getUserMedia_mic => Some "Permission denied"
                          | _ => None
                          end).

Definition settings (consent : bool) (mode : string) : Background.Storage :=
  {| Background.sourceMode := mode; Background.format := "mp3";
     Background.folder := "TeamsRecordings"; Background.beepOnStart := true;
     Background.consentAccepted := consent; Background.onScreenBadge := true;
     Background.notes := ""; Background.recordings := None;
     Background.runtimeState := None |}.

(** The coordinator right after the service worker started. *)
Definition fresh (consent : bool) (mode : string) : Background.Coordinator :=
  {| globals := {| Background.state := Background.initial_state;
                   Background.storage := settings consent mode;
                   Background.offscreen := None |};
     clock := 0; trace := [] |}.

(** ... after the observer in tab 7 reported a call ... *)
Definition in_call (consent : bool) (mode : string) : Background.Coordinator :=
  Background.step quiet
    (Background.Deliver
       (Some (Background.CALL_STATUS_UPDATE true "Standup" (Some (of_Z 3)))) (Some 7))
    (fresh consent mode).

(** ... and after a successful Start. *)
Definition while_recording : Background.Coordinator :=
  Background.step quiet
    (Background.Deliver (Some (Background.START_RECORDING "")) (Some 7))
    (in_call true "both").

Definition standup_page : Observer.Page :=
  {| Observer.meeting_title_el := None; Observer.h1_el := Some "  Standup  ";
     Observer.title_el := Some "Microsoft Teams"; Observer.document_title := "Microsoft Teams";
     Observer.participants_count_el := Some "People (12)";
     Observer.aria_participants_el := None;
     Observer.location_href := "https://teams.microsoft.com/v2/Meeting/19:abc";
     Observer.call_end_el := false; Observer.leave_el := true; Observer.hang_up_el := false;
     Observer.toggle_video_el := false |}.

Definition standup_seen : Observer.State :=
  {| Observer.callActive := true; Observer.meetingTitle := "Standup";
     Observer.participantCount := Some (of_Z 12); Observer.recordingState := idle;
     Observer.panelEnabled := true |}.

(** ** Escaping text for [innerHTML] ([escapeHtml], which the panel of
    [src/content.js] and the popup script at the end of
    [src/background.js] both define) *)

Module Html.

(** [s.replaceAll(c, by)] for a one-character pattern. *)
Fixpoint replaceAll (c : ascii) (by_ : string) (s : string) : string :=
  match s with
  | EmptyString => EmptyString
  | String d r =>
      if Ascii.eqb d c then by_ +:+ replaceAll c by_ r
      else String d (replaceAll c by_ r)
  end.

(** [escapeHtml(input)] on a string; the character 034 is the double
    quote. *)
Definition escapeHtml (input : string) : string :=
  replaceAll "034"%char "&quot;"
    (replaceAll ">"%char "&gt;"
       (replaceAll "<"%char "&lt;"
          (replaceAll "&"%char "&amp;" input))).

(** The text one character of the input stands for in HTML. *)
Definition entity (c : ascii) : string :=
  if Ascii.eqb c "&"%char then "&amp;"
  else if Ascii.eqb c "<"%char then "&lt;"
  else if Ascii.eqb c ">"%char then "&gt;"
  else if Ascii.eqb c "034"%char then "&quot;"
  else String c EmptyString.

Fixpoint str_flat_map (f : ascii -> string) (s : string) : string :=
  match s with
  | EmptyString => EmptyString
  | String c r => f c +:+ str_flat_map f r
  end.

(** The characters that open or close markup or an attribute value. *)
Definition is_markup (c : ascii) : bool :=
  Ascii.eqb c "<"%char || Ascii.eqb c ">"%char || Ascii.eqb c "034"%char.

(** [s.slice(n)] *)
Fixpoint str_drop (n : nat) (s : string) : string :=
  match n, s with
  | S m, String _ r => str_drop m r
  | _, _ => s
  end.

(** An HTML parser reading escaped text back: each of the four entities
    becomes its character. *)
Fixpoint decode (fuel : nat) (s : string) : string :=
  match fuel with
  | O => s
  | S n =>
      match s with
      | EmptyString => EmptyString
      | String c r =>
          if is_prefix "&amp;" s then String "&"%char (decode n (str_drop 5 s))
          else if is_prefix "&lt;" s then String "<"%char (decode n (str_drop 4 s))
          else if is_prefix "&gt;" s then String ">"%char (decode n (str_drop 4 s))
          else if is_prefix "&quot;" s then String "034"%char (decode n (str_drop 6 s))
          else String c (decode n r)
      end
  end.

End Html.

(** ** The control panel of the observer ([renderPanel] and the listeners
    of [init] in [src/content.js]) *)

Module Panel.

(** What [renderPanel] puts into the container: the class of the dot, the
    status text, the escaped title, the [disabled] attribute of the four
    buttons and whether the transcript block is there. *)
Record View := {
  dot : string;
  status : string;
  title : string;
  start_disabled : bool;
  pause_disabled : bool;
  resume_disabled : bool;
  stop_disabled : bool;
  transcript_shown : bool;
}.

(** The content script: its [state] object and the panel in the page
    ([panelRoot]; [None] is [null]). *)
Record Script := {
  state : Observer.State;
  panelRoot : option View;
}.

Definition container (s : Observer.State) : View :=
  let isRecording := RecState_eqb (Observer.recordingState s) recording in
  let isPaused := RecState_eqb (Observer.recordingState s) paused in
  {| dot := if isRecording then "rec" else if Observer.callActive s then "call" else "idle";
     status := if isRecording then "Recording" else if isPaused then "Paused"
               else if Observer.callActive s then "Call active" else "Idle";
     title := Html.escapeHtml (str_or (Observer.meetingTitle s) "Teams call");
     start_disabled := negb (RecState_eqb (Observer.recordingState s) idle);
     pause_disabled := negb isRecording;
     resume_disabled := negb isPaused;
     stop_disabled := RecState_eqb (Observer.recordingState s) idle;
     transcript_shown := isRecording || isPaused |}.

(** [renderPanel()]: the panel after the call.  The container is replaced
    on every render, so the result does not depend on the previous one. *)
Definition renderPanel (s : Observer.State) : option View :=
  if negb (Observer.panelEnabled s) then None
  else if negb (Observer.callActive s) && RecState_eqb (Observer.recordingState s) idle then None
  else Some (container s).

(** The events the script reacts to: a tick of the poll timer, a runtime
    message ([STATE_CHANGED] carries the two fields the listener reads),
    a change of the [onScreenBadge] key in local storage and the answer to
    the initial read of that key ([None] when the value is [undefined]). *)
Inductive Event : Type :=
| Tick (page : Observer.Page)
| STATE_CHANGED (recordingState : RecState) (callActive : bool)
| OTHER_MESSAGE
| BadgeChanged (newValue : option bool)
| BadgeLoaded (onScreenBadge : option bool).

(** [value !== false] *)
Definition not_false (value : option bool) : bool :=
  match value with
  | Some false => false
  | _ => true
  end.

(** The panel after the effects of a poll, in order. *)
Definition after (effects : list Observer.Effect) (panelRoot : option View) : option View :=
  foldl (fun panel effect =>
           match effect with
           | Observer.RenderPanel s => renderPanel s
           | Observer.CALL_STATUS_UPDATE _ _ _ => panel
           end) panelRoot effects.

Definition react (e : Event) (c : Script) : Script :=
  match e with
  | Tick page =>
      let (state', effects) := Observer.pollCallState page (state c) in
      {| state := state'; panelRoot := after effects (panelRoot c) |}
  | STATE_CHANGED recordingState callActive =>
      let state' := {| Observer.callActive := callActive;
                       Observer.meetingTitle := Observer.meetingTitle (state c);
                       Observer.participantCount := Observer.participantCount (state c);
                       Observer.recordingState := recordingState;
                       Observer.panelEnabled := Observer.panelEnabled (state c) |} in
      {| state := state'; panelRoot := renderPanel state' |}
  | OTHER_MESSAGE => c
  | BadgeChanged value | BadgeLoaded value =>
      let state' := {| Observer.callActive := Observer.callActive (state c);
                       Observer.meetingTitle := Observer.meetingTitle (state c);
                       Observer.participantCount := Observer.participantCount (state c);
                       Observer.recordingState := Observer.recordingState (state c);
                       Observer.panelEnabled := not_false value |} in
      {| state := state'; panelRoot := renderPanel state' |}
  end.

(** The script as it is loaded: the initial [state], no panel. *)
Definition loaded : Script :=
  {| state := {| Observer.callActive := false; Observer.meetingTitle := "";
                 Observer.participantCount := None; Observer.recordingState := idle;
                 Observer.panelEnabled := true |};
     panelRoot := None |}.

Definition run (events : list Event) (c : Script) : Script :=
  foldl (fun c e => react e c) c events.

End Panel.

(** ** Default settings ([DEFAULT_SETTINGS] and the [onInstalled] listener
    of [src/background.js]) *)

Module Install.

(** The values local storage holds under a key. *)
Inductive Value : Type :=
| VString (s : string)
| VBool (b : bool)
| VState (s : Background.State)
| VJson (n : nat).

Definition DEFAULT_SETTINGS : list (string * Value) :=
  [("sourceMode", VString "both");
   ("format", VString "webm");
   ("folder", VString "TeamsRecordings");
   ("beepOnStart", VBool true);
   ("consentAccepted", VBool false);
   ("onScreenBadge", VBool true);
   ("notes", VString "")].

(** The calls of the listener, as they are made. *)
Inductive Call : Type :=
| StorageGet (keys : list string)
| StorageSet (items : gmap string Value)
| SetBadgeText (text : string)
| SetBadgeBackgroundColor (color : string)
| STATE_CHANGED (tabId : Z) (s : Background.State).

(** What a run of the listener acts on: [chrome.storage.local] as a finite
    map (which keys are set, and to what), and the calls made so far. *)
Record Run := {
  store : gmap string Value;
  calls : list Call;
}.

(** One call: it is logged; the platform rejects it when [rejects] says so
    for its position among the calls, and otherwise it has its [effect] on
    the storage. *)
Definition invoke (rejects : nat -> option string) (c : Call)
    (effect : gmap string Value -> gmap string Value) : M Run unit :=
  fun r =>
    match rejects (length (calls r)) with
    | Some e => (Throw e, {| store := store r; calls := calls r ++ [c] |})
    | None => (Ok tt, {| store := effect (store r); calls := calls r ++ [c] |})
    end.

(** What [chrome.storage.local.get(keys)] resolves with: the stored
    entries under [keys]. *)
Definition storage_get (keys : list string) (store : gmap string Value) : gmap string Value :=
  filter (fun entry => entry.1 ∈ keys) store.

(** The effect of [chrome.storage.local.set(items)]. *)
Definition storage_set (items : gmap string Value) (store : gmap string Value) :
    gmap string Value :=
  items ∪ store.

(** The loop over [Object.entries(DEFAULT_SETTINGS)] that builds
    [update]. *)
Definition missing (entries : list (string * Value)) (current : gmap string Value) :
    gmap string Value :=
  foldl (fun update entry =>
           match current !! entry.1 with
           | None => <[entry.1 := entry.2]> update
           | Some _ => update
           end) ∅ entries.

(** [publishState()], with the storage as a finite map. *)
Definition publishState (rejects : nat -> option string) (state : Background.State) :
    M Run unit :=
  let label :=
    match Background.recordingState state with
    | recording => "REC"
    | _ => if Background.callActive state then "CALL" else ""
    end in
  let color :=
    match Background.recordingState state with
    | recording => "#d91e18"
    | _ => if Background.callActive state then "#1b8f3e" else "#7a7a7a"
    end in
  invoke rejects (SetBadgeText label) id ;;;
  invoke rejects (SetBadgeBackgroundColor color) id ;;;
  invoke rejects (StorageSet {["runtimeState" := VState state]})
    (storage_set {["runtimeState" := VState state]}) ;;;
  try_catch
    match Background.callTabId state with
    | Some tab => invoke rejects (STATE_CHANGED tab state) id
    | None => ret tt
    end
    (fun _ => ret tt).

(** The [chrome.runtime.onInstalled] listener; [state] is the coordinator's
    [state] object at that time. *)
Definition onInstalled (rejects : nat -> option string) (state : Background.State) :
    M Run unit :=
  invoke rejects (StorageGet (DEFAULT_SETTINGS.*1)) id ;;;
  r <- get ;;
  let current := storage_get (DEFAULT_SETTINGS.*1) (store r) in
  let update := missing DEFAULT_SETTINGS current in
  (if decide (update = ∅) then ret tt
   else invoke rejects (StorageSet update) (storage_set update)) ;;;
  publishState rejects state.

(** The calls of one run of [publishState] that is not rejected. *)
Definition published (state : Background.State) : list Call :=
  [SetBadgeText (match Background.recordingState state with
                 | recording => "REC"
                 | _ => if Background.callActive state then "CALL" else ""
                 end);
   SetBadgeBackgroundColor (match Background.recordingState state with
                            | recording => "#d91e18"
                            | _ => if Background.callActive state then "#1b8f3e" else "#7a7a7a"
                            end);
   StorageSet {["runtimeState" := VState state]}]
  ++ match Background.callTabId state with
     | Some tab => [STATE_CHANGED tab state]
     | None => []
     end.

End Install.

(** ** Further notions used in statements *)

(** No character of a sanitized name is one of the nine replaced ones or
    white space. *)
Definition is_safe (c : ascii) : bool := negb (is_unsafe c) && negb (is_space c).

(** The text contains a decimal digit. *)
Definition has_digit (text : string) : bool :=
  negb (str_forallb (fun c => negb (is_digit c)) text).

(** The worker after the recorder delivered the chunks [ds], in order. *)
Definition delivered (ds : list Blob) (w : Offscreen.Worker) : Offscreen.Worker :=
  foldl (fun w data => snd (Offscreen.ondataavailable data w)) w ds.

(** The two flags [startCapture] derives from [payload.sourceMode]. *)
Definition includeSystem (sourceMode : string) : bool :=
  String.eqb (str_or sourceMode "both") "both" || String.eqb (str_or sourceMode "both") "system".
Definition includeMic (sourceMode : string) : bool :=
  String.eqb (str_or sourceMode "both") "both" || String.eqb (str_or sourceMode "both") "mic".

(** The calls by which [cleanup] gives a stream or the audio context
    back. *)
Definition is_release (ev : Offscreen.Event) : bool :=
  match ev with
  | Offscreen.StopTracks _ | Offscreen.CloseContext _ => true
  | _ => false
  end.


(** Every call of [startCapture] other than the microphone request is
    answered, and the mixed stream has an audio track. *)
Definition capture_works (env : Env) : Prop :=
  forall n, fails env getUserMedia_tab n = None
            /\ fails env new_AudioContext n = None
            /\ fails env createMediaStreamDestination n = None
            /\ fails env createMediaStreamSource n = None
            /\ fails env node_connect n = None
            /\ fails env new_MediaRecorder n = None
            /\ fails env recorder_start n = None
            /\ audio_track_count env n <> 0%nat.

(** Every call of [convertWebmToWav] is answered. *)
Definition decoding_works (env : Env) : Prop :=
  forall n, fails env new_AudioContext n = None
            /\ fails env blob_arrayBuffer n = None
            /\ fails env context_decodeAudioData n = None
            /\ fails env context_close n = None.

(** Every call [startRecording] makes before it messages the worker is
    answered. *)
Definition start_prepares (env : Env) : Prop :=
  Background.badge_works env
  /\ forall n, fails env storage_get_settings n = None
               /\ fails env tabCapture_getMediaStreamId n = None
               /\ fails env runtime_getContexts n = None
               /\ fails env offscreen_createDocument n = None
               /\ fails env storage_set_notes n = None.

(** An environment in which local storage cannot be read. *)
Definition storage_unreadable : Env :=
  answering (fun api _ => match api with
                          | storage_get_settings => Some "The storage backend is unavailable."
                          | _ => None
                          end).

(** An environment in which the channel to the offscreen document is
    closed. *)
Definition channel_closed : Env :=
  answering (fun api _ => match api with
                          | runtime_sendMessage => Some "Could not establish connection."
                          | _ => None
                          end).

(** An environment in which no Teams tab is open. *)
Definition no_teams_tab : Env :=
  {| fails := fun _ _ => None;
     query_result := fun _ => [];
     media_stream_id := media_stream_id quiet;
     download_id := download_id quiet;
     Date_now := Date_now quiet;
     new_Date := new_Date quiet;
     randomUUID := randomUUID quiet;
     media_stream := media_stream quiet;
     context_suspended := context_suspended quiet;
     audio_track_count := audio_track_count quiet;
     isTypeSupported_opus := isTypeSupported_opus quiet;
     decoded_audio := decoded_audio quiet;
     data_url := data_url quiet;
     maxByteLength := maxByteLength quiet |}.

(** The worker of [while_recording]. *)
Definition recording_worker : Offscreen.Worker :=
  default Offscreen.initial (Background.offscreen (globals while_recording)).

(** The history as the handlers read it: the stored array, or the empty
    list when the key holds none. *)
Definition history_of (c : Background.Coordinator) : list Background.RecordingRecord :=
  default [] (Background.recordings (Background.storage (globals c))).

(** The coordinator after a sequence of events, each met in an environment
    of its own. *)
Definition runs (events : list (Env * Background.Input)) (c : Background.Coordinator) :
    Background.Coordinator :=
  foldl (fun c event => Background.step event.1 event.2 c) c events.

(** The history holds at most 200 records. *)
Definition short_history (c : Background.Coordinator) : Prop :=
  (length (history_of c) <= 200)%nat.

(** A handler that never makes the history too long. *)
Definition keeps_short {A} (m : Background.B A) : Prop :=
  forall c, short_history c -> short_history (snd (m c)).

(** A history record with the given id and download id. *)
Definition sample_record (i : string) (d : Z) : Background.RecordingRecord :=
  {| Background.id := i; Background.filename := "TeamsRecordings/Teams_2024-03-09_14-05_Standup.webm";
     Background.downloadId := d; Background.createdAt := 1710000000000;
     Background.startedAt := Some 1709999990000; Background.endedAt := 1710000000000;
     Background.durationSec := 10; Background.meetingTitle := "Standup";
     Background.rec_participantCount := None; Background.rec_notes := "";
     Background.rec_format := "webm"; Background.rec_folder := "TeamsRecordings" |}.

(** * Properties *)

(** ** The monad *)

Lemma bind_ok {T A B} (m : M T A) (k : A -> M T B) s a s' :
  m s = (Ok a, s') -> bind m k s = k a s'.
Proof. intros H. unfold bind. now rewrite H. Qed.

(** ** Strings and file names *)

Lemma append_cons (c : ascii) (a b : string) : String c a +:+ b = String c (a +:+ b).
Proof. reflexivity. Qed.

Lemma append_empty (b : string) : "" +:+ b = b.
Proof. reflexivity. Qed.

Lemma append_nonempty (a b : string) : b <> "" -> a +:+ b <> "".
Proof.
  intros H. destruct a; [rewrite append_empty; exact H | rewrite append_cons; discriminate].
Qed.

Lemma makeFilename_nonempty date title format folder :
  makeFilename date title format folder <> "".
Proof. unfold makeFilename. apply append_nonempty. discriminate. Qed.

Lemma no_dot_append_dot (a b : string) : no_dot (a +:+ String "."%char b) = false.
Proof.
  unfold no_dot. induction a as [|c a IH].
  - reflexivity.
  - rewrite append_cons. cbn [str_forallb]. rewrite IH. apply andb_false_r.
Qed.

(** A name that ends in a dot and a dot-free, non-empty extension is split
    by the extension pattern exactly there. *)
Lemma matchExt_append (base ext : string) :
  ext <> "" -> no_dot ext = true -> matchExt (base +:+ String "."%char ext) = Some (base, ext).
Proof.
  intros Hne Hnd. induction base as [|c base IH].
  - rewrite append_empty. cbn [matchExt]. rewrite Hnd.
    destruct ext; [congruence | reflexivity].
  - rewrite append_cons. cbn [matchExt]. rewrite IH, no_dot_append_dot.
    now rewrite !andb_false_r.
Qed.

Lemma normalizeExtension_cases (format : string) :
  normalizeExtension format = "wav" \/ normalizeExtension format = "webm".
Proof.
  unfold normalizeExtension.
  destruct (String.eqb format "wav"); [now left|].
  destruct (String.eqb format "mp3"); now right.
Qed.

Lemma applyFormatToFilename_shape (filename format : string) :
  exists base, applyFormatToFilename filename format = base +:+ "." +:+ normalizeExtension format.
Proof.
  unfold applyFormatToFilename.
  destruct (String.eqb filename "").
  - now exists "TeamsRecordings/TeamsCall".
  - destruct (matchExt filename) as [[before after]|]; eauto.
Qed.

Lemma applyFormatToFilename_extension (filename format : string) :
  exists base,
    applyFormatToFilename filename format = base +:+ "." +:+ normalizeExtension format
    /\ matchExt (applyFormatToFilename filename format) = Some (base, normalizeExtension format).
Proof.
  destruct (applyFormatToFilename_shape filename format) as [base E].
  exists base. split; [exact E|]. rewrite E.
  apply (matchExt_append base (normalizeExtension format));
    destruct (normalizeExtension_cases format) as [-> | ->];
    first [discriminate | reflexivity].
Qed.

(** ** Numbers and samples *)

Lemma truncate_scaled_bounds (q : Q) (k lo hi : Z) :
  0 < k -> (inject_Z lo <= q)%Q -> (q <= inject_Z hi)%Q ->
  lo * k <= truncate (q * inject_Z k) <= hi * k.
Proof.
  destruct q as [a b]. unfold Qle, truncate, Qmult, inject_Z. simpl.
  intros Hk H1 H2. rewrite Pos.mul_1_r.
  rewrite <- (Z.quot_mul (lo * k) (Zpos b)), <- (Z.quot_mul (hi * k) (Zpos b)) by lia.
  split; apply Z.quot_le_mono; nia.
Qed.

Lemma Qltb_true (a b : Q) : Qltb a b = true <-> (a < b)%Q.
Proof.
  unfold Qltb. rewrite negb_true_iff, <- not_true_iff_false, Qle_bool_iff.
  split; [apply Qnot_le_lt | apply Qlt_not_le].
Qed.

Lemma Qltb_false (a b : Q) : Qltb a b = false <-> (b <= a)%Q.
Proof. unfold Qltb. rewrite negb_false_iff. apply Qle_bool_iff. Qed.

Lemma signed16_wraps_back (v : Z) :
  -32768 <= v <= 32767 ->
  (if 32768 <=? v mod 65536 then v mod 65536 - 65536 else v mod 65536) = v.
Proof.
  intros H. destruct (Z_le_gt_dec 0 v).
  - rewrite Z.mod_small by lia. destruct (Z.leb_spec 32768 v); lia.
  - replace (v mod 65536) with (v + 65536).
    + destruct (Z.leb_spec 32768 (v + 65536)); lia.
    + apply Z.mod_unique with (q := -1); lia.
Qed.

Lemma ToInt16_small (q : Q) :
  -32768 <= truncate q <= 32767 -> ToInt16 (Fin q) = truncate q.
Proof. intros H. unfold ToInt16. cbv zeta. now apply signed16_wraps_back. Qed.

Lemma ToInt16_range (v : float) : -32768 <= ToInt16 v <= 32767.
Proof.
  destruct v as [| | |q]; cbn [ToInt16]; try lia.
  pose proof (Z.mod_pos_bound (truncate q) 65536 ltac:(lia)).
  destruct (Z.leb_spec 32768 (truncate q mod 65536)); lia.
Qed.

Section WavProofs.
Import Wav.

Lemma clamp_finite (x : float) :
  x <> NaN -> exists q : Q, clamp x = Fin q /\ (inject_Z (-1) <= q)%Q /\ (q <= inject_Z 1)%Q.
Proof.
  intros Hx. destruct x as [| | |q]; [congruence | | |].
  - exists (inject_Z 1). split; [reflexivity | split; [discriminate | apply Qle_refl]].
  - exists (inject_Z (-1)). split; [reflexivity | split; [apply Qle_refl | discriminate]].
  - unfold clamp, Math_min, of_Z, flt.
    destruct (Qltb q (inject_Z 1)) eqn:H1.
    + cbn [Math_max flt]. destruct (Qltb (inject_Z (-1)) q) eqn:H2.
      * exists q. apply Qltb_true in H1, H2.
        split; [reflexivity | split; apply Qlt_le_weak; assumption].
      * exists (inject_Z (-1)). split; [reflexivity | split; [apply Qle_refl | discriminate]].
    + exists (inject_Z 1). split; [reflexivity | split; [discriminate | apply Qle_refl]].
Qed.

Lemma length_le_bytes n v : length (le_bytes n v) = n.
Proof. revert v. induction n; intros; cbn; [reflexivity | now rewrite IHn]. Qed.

Lemma le_value_le_bytes (n : nat) (v : Z) :
  le_value (le_bytes n v) = v mod 2 ^ (8 * Z.of_nat n).
Proof.
  revert v. induction n as [|n IH]; intros v.
  - cbn. now rewrite Z.mod_1_r.
  - cbn [le_bytes le_value]. rewrite IH.
    replace (8 * Z.of_nat (S n)) with (8 + 8 * Z.of_nat n) by lia.
    rewrite Z.pow_add_r by lia. change (2 ^ 8) with 256.
    rewrite Z.rem_mul_r by lia. reflexivity.
Qed.

Lemma le_value_u32 (v : Z) : 0 <= v < 4294967296 -> le_value (le_bytes 4 v) = v.
Proof. intros H. rewrite le_value_le_bytes. apply Z.mod_small. exact H. Qed.

Lemma le_value_u16 (v : Z) : 0 <= v < 65536 -> le_value (le_bytes 2 v) = v.
Proof. intros H. rewrite le_value_le_bytes. apply Z.mod_small. exact H. Qed.

Lemma getInt16_le_bytes (v : Z) :
  -32768 <= v <= 32767 -> getInt16 0 (le_bytes 2 v) = v.
Proof.
  intros H. unfold getInt16, getUint.
  change (take 2 (drop 0 (le_bytes 2 v))) with (le_bytes 2 v).
  rewrite le_value_le_bytes. change (2 ^ (8 * Z.of_nat 2)) with 65536.
  now apply signed16_wraps_back.
Qed.

(** C10: every sample other than NaN is clamped to a finite value [q] in
    [-1, 1]; the encoder stores the integer part of [q * 32768] when [q] is
    negative and of [q * 32767] otherwise, with no wrap-around, so the
    stored value lies in [-32768, 32767] and reads back unchanged from its
    two little-endian bytes; -1 is stored as -32768 and +1 as 32767. *)
Theorem sample_written_in_range (x : float) :
  x <> NaN ->
  exists q : Q,
    clamp x = Fin q /\ (inject_Z (-1) <= q)%Q /\ (q <= inject_Z 1)%Q /\
    written x = truncate (q * inject_Z (if Qltb q (inject_Z 0) then 32768 else 32767)) /\
    -32768 <= written x <= 32767 /\
    getInt16 0 (le_bytes 2 (written x)) = written x /\
    written (of_Z (-1)) = -32768 /\ written (of_Z 1) = 32767.
Proof.
  intros Hx. destruct (clamp_finite x Hx) as (q & Hc & Hlo & Hhi).
  exists q.
  assert (Hw : written x = truncate (q * inject_Z (if Qltb q (inject_Z 0) then 32768 else 32767))
               /\ -32768 <= written x <= 32767).
  { unfold written, scaled. rewrite Hc. cbn [flt of_Z fmul].
    destruct (Qltb q (inject_Z 0)) eqn:Hneg.
    - apply Qltb_true in Hneg.
      pose proof (truncate_scaled_bounds q 32768 (-1) 0 ltac:(lia) Hlo (Qlt_le_weak _ _ Hneg)) as B.
      rewrite ToInt16_small by lia. split; [reflexivity | lia].
    - apply Qltb_false in Hneg.
      pose proof (truncate_scaled_bounds q 32767 0 1 ltac:(lia) Hneg Hhi) as B.
      rewrite ToInt16_small by lia. split; [reflexivity | lia]. }
  destruct Hw as [Hw Hr].
  split; [exact Hc|]. split; [exact Hlo|]. split; [exact Hhi|].
  split; [exact Hw|]. split; [exact Hr|].
  split; [now apply getInt16_le_bytes|].
  split; reflexivity.
Qed.

Lemma sample_written_in_range_witness :
  exists q : Q,
    clamp (Fin (-3 # 2)) = Fin q /\ (inject_Z (-1) <= q)%Q /\ (q <= inject_Z 1)%Q /\
    written (Fin (-3 # 2))
    = truncate (q * inject_Z (if Qltb q (inject_Z 0) then 32768 else 32767)) /\
    -32768 <= written (Fin (-3 # 2)) <= 32767 /\
    getInt16 0 (le_bytes 2 (written (Fin (-3 # 2)))) = written (Fin (-3 # 2)) /\
    written (of_Z (-1)) = -32768 /\ written (of_Z 1) = 32767.
Proof. apply (sample_written_in_range (Fin (-3 # 2))). discriminate. Defined.

(** *** Filling the buffer *)

Lemma write_at_next (bs done zs : list Z) :
  (length bs <= length zs)%nat ->
  write_at (length done) bs (done ++ zs) = done ++ bs ++ drop (length bs) zs.
Proof.
  revert done zs. induction bs as [|b r IH]; intros done zs H.
  - reflexivity.
  - destruct zs as [|z zs]; [cbn in H; lia|].
    cbn [write_at].
    replace (<[length done := b]> (done ++ z :: zs)) with ((done ++ [b]) ++ zs).
    + replace (S (length done)) with (length (done ++ [b])) by (rewrite length_app; cbn; lia).
      rewrite IH by (cbn in H; lia). now rewrite <- app_assoc.
    + rewrite <- app_assoc. cbn.
      rewrite <- (Nat.add_0_r (length done)) at 1. now rewrite insert_app_r.
Qed.

(** A store right behind the bytes written so far, into a buffer that has
    room for it. *)
Lemma store_next (done : list Z) (k n : nat) (v : Z) (o off : nat) :
  off = length done -> (n <= k)%nat ->
  store off n v {| view := done ++ replicate k 0; offset := o |}
  = (Ok tt, {| view := (done ++ le_bytes n v) ++ replicate (k - n) 0; offset := o |}).
Proof.
  intros -> H. unfold store. cbn [view offset].
  rewrite length_app, length_replicate.
  destruct (Nat.leb_spec (length done + n) (length done + k)); [|lia].
  rewrite write_at_next by (rewrite length_le_bytes, length_replicate; lia).
  rewrite length_le_bytes, drop_replicate, <- app_assoc. reflexivity.
Qed.

Lemma writeString_next (str : string) : forall (done : list Z) (k o off : nat),
  off = length done -> (String.length str <= k)%nat ->
  writeString off str {| view := done ++ replicate k 0; offset := o |}
  = (Ok tt, {| view := (done ++ codes str) ++ replicate (k - String.length str) 0; offset := o |}).
Proof.
  induction str as [|c r IH]; intros done k o off Hoff Hk.
  - cbn. now rewrite app_nil_r, Nat.sub_0_r.
  - cbn [writeString String.length codes] in *. unfold setUint8.
    rewrite (bind_ok _ _ _ _ _ (store_next done k 1 _ o off Hoff ltac:(lia))).
    rewrite IH by (rewrite ?length_app; cbn; lia).
    cbn [le_bytes]. rewrite <- !app_assoc. cbn [app].
    replace (k - 1 - String.length r)%nat with (k - S (String.length r))%nat by lia.
    reflexivity.
Qed.

Lemma writeSample_next (buffer : AudioBuffer) (i ch : nat) (done : list Z) (k o : nat) :
  o = length done -> (2 <= k)%nat ->
  writeSample buffer i ch {| view := done ++ replicate k 0; offset := o |}
  = (Ok tt,
     {| view := (done ++ le_bytes 2 (written (getChannelData buffer ch i)))
                ++ replicate (k - 2) 0;
        offset := o + 2 |}).
Proof.
  intros Ho Hk. unfold writeSample, bind, get, setInt16, modify. cbn [offset].
  rewrite (store_next done k 2 _ o o Ho Hk). reflexivity.
Qed.

Lemma channel_loop (buffer : AudioBuffer) (i count : nat) :
  forall (start : nat) (done : list Z) (k o : nat),
  o = length done -> (2 * count <= k)%nat ->
  for_range start count (fun ch => writeSample buffer i ch)
    {| view := done ++ replicate k 0; offset := o |}
  = (Ok tt,
     {| view := (done ++ flat_map (fun ch => le_bytes 2 (written (getChannelData buffer ch i)))
                                  (seq start count))
                ++ replicate (k - 2 * count) 0;
        offset := o + 2 * count |}).
Proof.
  induction count as [|n IH]; intros start done k o Ho Hk.
  - cbn. rewrite app_nil_r, Nat.sub_0_r, Nat.add_0_r. reflexivity.
  - cbn [for_range].
    rewrite (bind_ok _ _ _ _ _ (writeSample_next buffer i start done k o Ho ltac:(lia))).
    rewrite IH by (rewrite ?length_app, ?length_le_bytes; lia).
    cbn [seq flat_map]. rewrite <- !app_assoc.
    replace (k - 2 - 2 * n)%nat with (k - 2 * S n)%nat by lia.
    replace (o + 2 + 2 * n)%nat with (o + 2 * S n)%nat by lia.
    reflexivity.
Qed.

Lemma length_channels_from (buffer : AudioBuffer) (i count start : nat) :
  length (flat_map (fun ch => le_bytes 2 (written (getChannelData buffer ch i))) (seq start count))
  = (2 * count)%nat.
Proof.
  revert start. induction count as [|n IH]; intros start; cbn [seq flat_map].
  - reflexivity.
  - rewrite length_app, IH, length_le_bytes. lia.
Qed.

Lemma frame_loop (buffer : AudioBuffer) (count : nat) :
  forall (start : nat) (done : list Z) (k o : nat),
  o = length done -> (count * (2 * channels buffer) <= k)%nat ->
  for_range start count
    (fun i => for_range 0 (channels buffer) (fun ch => writeSample buffer i ch))
    {| view := done ++ replicate k 0; offset := o |}
  = (Ok tt,
     {| view := (done ++ flat_map (frame buffer) (seq start count))
                ++ replicate (k - count * (2 * channels buffer)) 0;
        offset := o + count * (2 * channels buffer) |}).
Proof.
  induction count as [|n IH]; intros start done k o Ho Hk.
  - cbn. rewrite app_nil_r, Nat.sub_0_r, Nat.add_0_r. reflexivity.
  - cbn [for_range].
    rewrite (bind_ok _ _ _ _ _
               (channel_loop buffer start (channels buffer) 0 done k o Ho ltac:(lia))).
    rewrite IH by (rewrite ?length_app, ?length_channels_from; lia).
    cbn [seq flat_map]. unfold frame at 2. rewrite <- !app_assoc.
    replace (k - 2 * channels buffer - n * (2 * channels buffer))%nat
      with (k - S n * (2 * channels buffer))%nat by lia.
    replace (o + 2 * channels buffer + n * (2 * channels buffer))%nat
      with (o + S n * (2 * channels buffer))%nat by lia.
    reflexivity.
Qed.

Lemma length_frames (b : AudioBuffer) (count start : nat) :
  length (flat_map (frame b) (seq start count)) = (count * blockAlign b)%nat.
Proof.
  revert start. induction count as [|n IH]; intros start; cbn [seq flat_map].
  - reflexivity.
  - rewrite length_app, IH. unfold frame. rewrite length_channels_from.
    unfold blockAlign. lia.
Qed.

Lemma length_pcm (b : AudioBuffer) : length (pcm b) = dataSize b.
Proof. apply length_frames. Qed.

(** What the encoder returns whenever the buffer can be allocated. *)
Lemma audioBufferToWavBlob_bytes (maxByteLength : nat) (b : AudioBuffer) :
  (44 + dataSize b <= maxByteLength)%nat ->
  audioBufferToWavBlob maxByteLength b
  = Ok {| blob_bytes :=
            header (36 + Z.of_nat (dataSize b)) (Z.of_nat (channels b)) (sampleRate b)
                   (sampleRate b * Z.of_nat (blockAlign b)) (Z.of_nat (blockAlign b)) 16
                   (Z.of_nat (dataSize b))
            ++ pcm b;
          blob_type := "audio/wav" |}.
Proof.
  intros Halloc. unfold audioBufferToWavBlob.
  fold (channels b). fold (blockAlign b). fold (dataSize b).
  destruct (Nat.ltb_spec maxByteLength (44 + dataSize b)); [lia|].
  change (replicate (44 + dataSize b) 0) with ([] ++ replicate (44 + dataSize b) 0).
  unfold setUint32, setUint16.
  do 13 (erewrite bind_ok;
         [| first [apply writeString_next | apply store_next]; [reflexivity | cbn; lia]]).
  unfold bind at 1. unfold modify at 1. cbn [view offset].
  rewrite frame_loop; [| reflexivity | unfold dataSize, blockAlign; cbn; lia].
  cbn [view].
  replace (_ - buffer_length b * (2 * channels b))%nat with 0%nat
    by (unfold dataSize, blockAlign; cbn; lia).
  cbn [replicate]. rewrite app_nil_r. reflexivity.
Qed.

Lemma flat_map_block {A} (f : A -> list Z) (n : nat) (Hf : forall x, length (f x) = n) :
  forall (l : list A) (i : nat) (x : A),
    l !! i = Some x -> take n (drop (i * n) (flat_map f l)) = f x.
Proof.
  induction l as [|y l IH]; intros i x Hi; [discriminate|].
  destruct i as [|i]; cbn [flat_map].
  - cbn in Hi. injection Hi as ->. cbn [Nat.mul drop]. rewrite drop_0.
    apply take_app_length'. now rewrite Hf.
  - cbn in Hi. replace (S i * n)%nat with (length (f y) + i * n)%nat by (rewrite Hf; lia).
    rewrite drop_app_add. now apply IH.
Qed.

Lemma take_drop_take {A} (l : list A) (a m c : nat) :
  (m + a <= c)%nat -> take a (drop m (take c l)) = take a (drop m l).
Proof.
  intros H. rewrite !take_drop_commute, take_take.
  replace (Nat.min (m + a) c) with (m + a)%nat by lia. reflexivity.
Qed.

Lemma pcm_sample (b : AudioBuffer) (i ch : nat) :
  (i < buffer_length b)%nat -> (ch < channels b)%nat ->
  take 2 (drop ((i * channels b + ch) * 2) (pcm b)) = le_bytes 2 (written (getChannelData b ch i)).
Proof.
  intros Hi Hch.
  pose proof (flat_map_block (frame b) (channels b * 2)
                (fun x => eq_trans (length_channels_from b x (channels b) 0) (Nat.mul_comm _ _))
                (seq 0 (buffer_length b)) i i (lookup_seq_lt 0 _ i Hi)) as Hframe.
  pose proof (flat_map_block (fun c => le_bytes 2 (written (getChannelData b c i))) 2
                (fun x => length_le_bytes 2 _) (seq 0 (channels b)) ch ch
                (lookup_seq_lt 0 _ ch Hch)) as Hsample.
  fold (frame b i) in Hsample. fold (pcm b) in Hframe.
  rewrite <- Hsample, <- Hframe.
  rewrite take_drop_take by lia. rewrite drop_drop.
  f_equal. f_equal. lia.
Qed.

(** C7: for a decoded buffer with [s] samples, [c >= 1] channels and
    sample rate [r] whose sizes fit the 32-bit header fields (and whose
    output can be allocated), [audioBufferToWavBlob] returns
    [44 + s * min 2 c * 2] bytes: "RIFF", the chunk size [36 + dataSize],
    "WAVE", "fmt " with size 16, format 1, the channel count, the sample
    rate, the byte rate [r * blockAlign], the block align, 16 bits per
    sample, "data" and [dataSize = s * min 2 c * 2], followed by the
    samples as 16-bit little-endian integers, frame by frame. *)
Theorem wav_blob_canonical (maxByteLength : nat) (b : AudioBuffer) :
  (1 <= numberOfChannels b)%nat ->
  (44 + dataSize b <= maxByteLength)%nat ->
  36 + Z.of_nat (dataSize b) < 2 ^ 32 ->
  0 <= sampleRate b ->
  sampleRate b * Z.of_nat (blockAlign b) < 2 ^ 32 ->
  exists bytes : list Z,
    audioBufferToWavBlob maxByteLength b = Ok {| blob_bytes := bytes; blob_type := "audio/wav" |}
    /\ length bytes = (44 + buffer_length b * Nat.min 2 (numberOfChannels b) * 2)%nat
    /\ dataSize b = (buffer_length b * Nat.min 2 (numberOfChannels b) * 2)%nat
    /\ take 44 bytes
       = header (36 + Z.of_nat (dataSize b)) (Z.of_nat (channels b)) (sampleRate b)
                (sampleRate b * Z.of_nat (blockAlign b)) (Z.of_nat (blockAlign b)) 16
                (Z.of_nat (dataSize b))
    /\ take 4 bytes = [82; 73; 70; 70]
    /\ getUint 4 4 bytes = 36 + Z.of_nat (dataSize b)
    /\ take 8 (drop 8 bytes) = [87; 65; 86; 69; 102; 109; 116; 32]
    /\ getUint 4 16 bytes = 16
    /\ getUint 2 20 bytes = 1
    /\ getUint 2 22 bytes = Z.of_nat (Nat.min 2 (numberOfChannels b))
    /\ getUint 4 24 bytes = sampleRate b
    /\ getUint 4 28 bytes = sampleRate b * Z.of_nat (blockAlign b)
    /\ getUint 2 32 bytes = Z.of_nat (blockAlign b)
    /\ getUint 2 34 bytes = 16
    /\ take 4 (drop 36 bytes) = [100; 97; 116; 97]
    /\ getUint 4 40 bytes = Z.of_nat (dataSize b)
    /\ drop 44 bytes = pcm b
    /\ forall i ch : nat, (i < buffer_length b)%nat -> (ch < channels b)%nat ->
         getInt16 (44 + (i * channels b + ch) * 2) bytes = written (getChannelData b ch i).
Proof.
  intros Hnch Halloc Hsize Hrate0 Hrate.
  change (2 ^ 32) with 4294967296 in Hsize, Hrate.
  eexists. split; [apply audioBufferToWavBlob_bytes; exact Halloc|].
  assert (Hch : (1 <= channels b <= 2)%nat) by (unfold channels; lia).
  assert (Hds : dataSize b = (buffer_length b * Nat.min 2 (numberOfChannels b) * 2)%nat)
    by (unfold dataSize, blockAlign, channels; lia).
  assert (Halign : blockAlign b = (channels b * 2)%nat) by reflexivity.
  pose proof (le_value_u32 (36 + Z.of_nat (dataSize b)) ltac:(lia)) as E4.
  pose proof (le_value_u32 16 ltac:(lia)) as E16.
  pose proof (le_value_u16 1 ltac:(lia)) as E20.
  pose proof (le_value_u16 (Z.of_nat (channels b)) ltac:(lia)) as E22.
  pose proof (le_value_u32 (sampleRate b) ltac:(nia)) as E24.
  pose proof (le_value_u32 (sampleRate b * Z.of_nat (blockAlign b)) ltac:(nia)) as E28.
  pose proof (le_value_u16 (Z.of_nat (blockAlign b)) ltac:(lia)) as E32.
  pose proof (le_value_u16 16 ltac:(lia)) as E34.
  pose proof (le_value_u32 (Z.of_nat (dataSize b)) ltac:(lia)) as E40.
  split; [rewrite length_app, length_pcm, Hds; reflexivity|].
  split; [exact Hds|].
  split; [reflexivity|].
  split; [reflexivity|].
  split; [exact E4|].
  split; [reflexivity|].
  split; [exact E16|].
  split; [exact E20|].
  split; [exact E22|].
  split; [exact E24|].
  split; [exact E28|].
  split; [exact E32|].
  split; [exact E34|].
  split; [reflexivity|].
  split; [exact E40|].
  split; [reflexivity|].
  intros i ch Hi Hc. unfold getInt16, getUint.
  rewrite <- drop_drop.
  change (drop 44 (header _ _ _ _ _ _ _ ++ pcm b)) with (pcm b).
  rewrite pcm_sample by assumption.
  rewrite le_value_le_bytes. change (2 ^ (8 * Z.of_nat 2)) with 65536.
  apply signed16_wraps_back, ToInt16_range.
Qed.

Lemma wav_blob_canonical_witness :
  exists bytes : list Z,
    audioBufferToWavBlob 4096 two_samples
    = Ok {| blob_bytes := bytes; blob_type := "audio/wav" |}
    /\ length bytes = 52%nat
    /\ getUint 4 4 bytes = 44
    /\ getUint 4 40 bytes = 8
    /\ drop 44 bytes = [255; 63; 0; 128; 0; 128; 255; 63].
Proof.
  destruct (wav_blob_canonical 4096 two_samples) as
    (bytes & H & L & _ & _ & _ & C & _ & _ & _ & _ & _ & _ & _ & _ & _ & D & P & _);
    [cbn; lia | cbn; lia | cbn; lia | cbn; lia | cbn; lia |].
  exists bytes. split; [exact H|]. split; [exact L|]. split; [exact C|].
  split; [exact D | exact P].
Defined.

End WavProofs.

(** ** The observer *)

Section ObserverProofs.
Import Observer.

Lemma num_eq_round (n : Z) : num_eq (round_binary64 n) (round_binary64 n) = true.
Proof.
  unfold round_binary64. cbv zeta.
  repeat match goal with |- context [if ?b then _ else _] => destruct b end;
    cbn; try reflexivity; apply Qeq_bool_refl.
Qed.

(** A parsed count is never NaN, so it is strictly equal to itself. *)
Lemma count_eq_parse (text : string) :
  count_eq (parseParticipantCount text) (parseParticipantCount text) = true.
Proof.
  unfold parseParticipantCount.
  destruct (take_while is_digit _); cbn; [reflexivity | apply num_eq_round].
Qed.

Lemma count_eq_observed (page : Page) :
  count_eq (snd (observe page)) (snd (observe page)) = true.
Proof. unfold observe. cbn. apply count_eq_parse. Qed.

(** C8: when what a poll computes from the page equals the stored
    [callActive], [meetingTitle] and [participantCount], the poll changes
    nothing, renders nothing and sends nothing; so any number of polls of
    an unchanged page is silent. *)
Theorem unchanged_page_poll_is_silent (page : Page) (state : State) :
  observe page = (callActive state, meetingTitle state, participantCount state) ->
  pollCallState page state = (state, [])
  /\ forall n, polls n page state = (state, []).
Proof.
  intros H.
  assert (Hone : pollCallState page state = (state, [])).
  { unfold pollCallState. pose proof (count_eq_observed page) as Hc.
    rewrite H in *. cbn in Hc.
    rewrite Bool.eqb_reflx, String.eqb_refl, Hc. reflexivity. }
  split; [exact Hone|].
  induction n as [|n IH]; cbn [polls]; [reflexivity|].
  now rewrite Hone, IH.
Qed.

Lemma unchanged_page_poll_is_silent_witness :
  pollCallState standup_page standup_seen = (standup_seen, [])
  /\ forall n, polls n standup_page standup_seen = (standup_seen, []).
Proof. apply (unchanged_page_poll_is_silent standup_page standup_seen). reflexivity. Defined.

(** Whatever was stored before, the poll after a poll of the same page is
    silent. *)
Lemma second_poll_is_silent (page : Page) (state : State) :
  snd (pollCallState page (fst (pollCallState page state))) = [].
Proof.
  pose proof (count_eq_observed page) as Hc.
  unfold pollCallState at 2.
  destruct (observe page) as [[a t] n] eqn:E. cbn in Hc.
  destruct (negb _) eqn:Hchanged; cbn [fst].
  - unfold pollCallState. rewrite E, Hchanged. reflexivity.
  - unfold pollCallState. rewrite E. cbn.
    rewrite Bool.eqb_reflx, String.eqb_refl, Hc. reflexivity.
Qed.

End ObserverProofs.

(** ** The capture worker *)

Lemma cleanup_releases (env : Env) (w : Offscreen.Worker) :
  exists w', Offscreen.cleanup env w = (Ok tt, w') /\ Offscreen.released (globals w').
Proof.
  unfold Offscreen.cleanup, Offscreen.stop_tracks, bind, getg, emit, modg, try_catch, call, ret.
  cbn.
  destruct (Offscreen.tabStream (globals w)), (Offscreen.micStream (globals w)),
    (Offscreen.mixedStream (globals w)), (Offscreen.audioContext (globals w)); cbn.
  all: repeat match goal with
              | |- context [fails ?e ?api ?n] => destruct (fails e api n); cbn
              end.
  all: eexists; split; [reflexivity|]; repeat split.
Qed.

(** A mic-only start whose microphone request is refused: the listener
    answers with the error, and nothing stays allocated. *)
Lemma mic_only_start_fails (env : Env) (payload : Offscreen.Payload) (w : Offscreen.Worker) :
  Offscreen.sourceMode payload = "mic" ->
  (forall n, fails env getUserMedia_mic n <> None) ->
  exists w',
    Offscreen.onMessage env (Offscreen.OFFSCREEN_START payload) w
    = ({| Offscreen.ok := false;
          Offscreen.error := "Microphone permission is required for mic-only recording." |}, w')
    /\ Offscreen.released (globals w').
Proof.
  intros Hmode Hmic.
  unfold Offscreen.onMessage, Offscreen.handle, Offscreen.startCapture.
  rewrite Hmode. cbn [str_or String.eqb Ascii.eqb Bool.eqb orb negb when].
  destruct (cleanup_releases env w) as (w1 & E & R).
  unfold bind at 1. rewrite E.
  unfold bind, modg, ret, try_catch, request, throw. cbn.
  specialize (Hmic (clock w1)).
  destruct (fails env getUserMedia_mic (clock w1)); [|congruence]. cbn.
  eexists; split; [reflexivity|].
  unfold Offscreen.released in *. cbn. tauto.
Qed.

(** ** The coordinator *)

Create HintDb keeps.

Section CoordinatorProofs.
Import Background.

(** *** Handlers and the [state] object *)

Lemma keeps_ret {A} (a : A) : keeps_state (ret a).
Proof. intros c. reflexivity. Qed.

Lemma keeps_throw {A} (e : string) : keeps_state (throw (A := A) e).
Proof. intros c. reflexivity. Qed.

Lemma keeps_bind {A A'} (m : B A) (k : A -> B A') :
  keeps_state m -> (forall a, keeps_state (k a)) -> keeps_state (bind m k).
Proof.
  intros Hm Hk c. unfold bind. specialize (Hm c).
  destruct (m c) as [[a|e] c1]; cbn in *; [rewrite Hk|]; exact Hm.
Qed.

Lemma keeps_try_catch {A} (m : B A) (h : string -> B A) :
  keeps_state m -> (forall e, keeps_state (h e)) -> keeps_state (try_catch m h).
Proof.
  intros Hm Hh c. unfold try_catch. specialize (Hm c).
  destruct (m c) as [[a|e] c1]; cbn in *; [|rewrite Hh]; exact Hm.
Qed.

Lemma keeps_call env api ev : keeps_state (call env api ev).
Proof. intros c. unfold call. destruct (fails env api (clock c)); reflexivity. Qed.

Lemma keeps_request {A} env api ev (f : nat -> A) : keeps_state (request env api ev f).
Proof. intros c. unfold request. destruct (fails env api (clock c)); reflexivity. Qed.

Lemma keeps_ask {A} (f : nat -> A) : keeps_state (ask f).
Proof. intros c. reflexivity. Qed.

Lemma keeps_get_state : keeps_state get_state.
Proof. intros c. reflexivity. Qed.

Lemma keeps_get_storage : keeps_state get_storage.
Proof. intros c. reflexivity. Qed.

Lemma keeps_getg : keeps_state (getg (G := World) (E := Event)).
Proof. intros c. reflexivity. Qed.

Lemma keeps_mod_storage f : keeps_state (mod_storage f).
Proof. intros c. reflexivity. Qed.

Lemma keeps_set_offscreen v : keeps_state (set_offscreen v).
Proof. intros c. reflexivity. Qed.

Lemma keeps_when (b : bool) (m : B unit) : keeps_state m -> keeps_state (when b m).
Proof. intros H. destruct b; [exact H | apply keeps_ret]. Qed.

Hint Resolve keeps_ret keeps_throw keeps_call keeps_request keeps_ask keeps_get_state
  keeps_get_storage keeps_getg keeps_mod_storage keeps_set_offscreen : keeps.
Hint Extern 2 (keeps_state (bind _ _)) => apply keeps_bind; [|intro] : keeps.
Hint Extern 2 (keeps_state (try_catch _ _)) => apply keeps_try_catch; [|intro] : keeps.
Hint Extern 2 (keeps_state (when _ _)) => apply keeps_when : keeps.
Hint Extern 3 (keeps_state (match ?x with _ => _ end)) => destruct x : keeps.

Lemma keeps_publishState env : keeps_state (publishState env).
Proof. unfold publishState. auto 20 with keeps. Qed.

Lemma keeps_sendMessage env m : keeps_state (sendMessage env m).
Proof. unfold sendMessage. auto 20 with keeps. Qed.

Lemma keeps_ensureOffscreenDocument env : keeps_state (ensureOffscreenDocument env).
Proof. unfold ensureOffscreenDocument. auto 20 with keeps. Qed.

Lemma keeps_resolveTeamsTabId env : keeps_state (resolveTeamsTabId env).
Proof. unfold resolveTeamsTabId. auto 20 with keeps. Qed.

Lemma keeps_saveBlobToDownloads env url name : keeps_state (saveBlobToDownloads env url name).
Proof. unfold saveBlobToDownloads. auto with keeps. Qed.

Hint Resolve keeps_publishState keeps_sendMessage keeps_ensureOffscreenDocument
  keeps_resolveTeamsTabId keeps_saveBlobToDownloads : keeps.

Lemma wps_ret {A} (a : A) Q s : Q (Ok a) s -> wps (ret a) Q s.
Proof. intros H c <-. exact H. Qed.

Lemma wps_throw {A} (e : string) (Q : Outcome A -> State -> Prop) s :
  Q (Throw e) s -> wps (throw e) Q s.
Proof. intros H c <-. exact H. Qed.

Lemma wps_bind {A A'} (m : B A) (k : A -> B A') Q s :
  wps m (fun r s' => match r with
                     | Ok a => wps (k a) Q s'
                     | Throw e => Q (Throw e) s'
                     end) s ->
  wps (bind m k) Q s.
Proof.
  intros H c Hc. specialize (H c Hc). unfold bind.
  destruct (m c) as [[a|e] c1]; cbn in *; [apply H; reflexivity | exact H].
Qed.

Lemma wps_try_catch {A} (m : B A) (h : string -> B A) Q s :
  wps m (fun r s' => match r with
                     | Ok a => Q (Ok a) s'
                     | Throw e => wps (h e) Q s'
                     end) s ->
  wps (try_catch m h) Q s.
Proof.
  intros H c Hc. specialize (H c Hc). unfold try_catch.
  destruct (m c) as [[a|e] c1]; cbn in *; [exact H | apply H; reflexivity].
Qed.

Lemma wps_try_finally {A} (m : B A) (f : B unit) Q s :
  wps m (fun r s' => wps f (fun r2 s'' => match r2 with
                                          | Ok _ => Q r s''
                                          | Throw e => Q (Throw e) s''
                                          end) s') s ->
  wps (try_finally m f) Q s.
Proof.
  intros H c Hc. specialize (H c Hc). unfold try_finally.
  destruct (m c) as [r c1]; cbn in *. specialize (H c1 eq_refl).
  destruct (f c1) as [[u|e] c2]; exact H.
Qed.

Lemma wps_frame {A} (m : B A) Q s :
  keeps_state m -> (forall r, Q r s) -> wps m Q s.
Proof. intros Hm H c <-. rewrite Hm. apply H. Qed.

Lemma wps_consequence {A} (m : B A) (Q1 Q2 : Outcome A -> State -> Prop) s :
  wps m Q1 s -> (forall r s', Q1 r s' -> Q2 r s') -> wps m Q2 s.
Proof. intros H HQ c Hc. apply HQ, H, Hc. Qed.

Lemma wps_get_state Q s : Q (Ok s) s -> wps get_state Q s.
Proof. intros H c <-. exact H. Qed.

Lemma wps_mod_state f (Q : Outcome unit -> State -> Prop) s :
  Q (Ok tt) (f s) -> wps (mod_state f) Q s.
Proof. intros H c <-. exact H. Qed.

Lemma wps_ask {A} (f : nat -> A) (Q : Outcome A -> State -> Prop) s :
  (forall a, Q (Ok a) s) -> wps (ask f) Q s.
Proof. intros H c <-. apply H. Qed.

Ltac wps_step :=
  lazymatch goal with
  | |- wps (bind _ _) _ _ => apply wps_bind
  | |- wps (ret _) _ _ => apply wps_ret
  | |- wps (throw _) _ _ => apply wps_throw
  | |- wps get_state _ _ => apply wps_get_state
  | |- wps (ask _) _ _ => apply wps_ask; intro
  | |- wps (mod_state _) _ _ => apply wps_mod_state
  | |- wps (try_catch _ _) _ _ => apply wps_try_catch
  | |- wps (try_finally _ _) _ _ => apply wps_try_finally
  | |- wps (if ?b then _ else _) _ _ => destruct b eqn:?
  | |- wps (match ?x with _ => _ end) _ _ => destruct x eqn:?
  | |- wps _ _ _ => apply wps_frame; [solve [auto 20 with keeps] | intros [?|?]]
  end; cbv beta iota.

Ltac leaf :=
  try assumption;
  try match goal with
      | H : state_invariant ?s |- state_invariant _ =>
          unfold state_invariant in *; cbn in *;
          first [ exact H
                | intros; congruence
                | intros _; split; [discriminate | apply makeFilename_nonempty] ]
      end.

Lemma RecState_eqb_true a b : RecState_eqb a b = true -> a = b.
Proof. destruct a, b; cbn; congruence. Qed.

Lemma pauseRecording_inv env s :
  state_invariant s -> wps (pauseRecording env) (always state_invariant) s.
Proof.
  intros H. unfold pauseRecording, always. repeat wps_step; leaf.
  all: apply negb_false_iff, RecState_eqb_true in Heqb.
  all: unfold state_invariant in *; cbn; intros _; apply H; congruence.
Qed.

Lemma resumeRecording_inv env s :
  state_invariant s -> wps (resumeRecording env) (always state_invariant) s.
Proof.
  intros H. unfold resumeRecording, always. repeat wps_step; leaf.
  all: apply negb_false_iff, RecState_eqb_true in Heqb.
  all: unfold state_invariant in *; cbn; intros _; apply H; congruence.
Qed.

Lemma stopRecording_inv env s :
  state_invariant s -> wps (stopRecording env) (always state_invariant) s.
Proof. intros H. unfold stopRecording, always. repeat wps_step; leaf. Qed.

Lemma handleCallStatus_inv env a t n tab s :
  state_invariant s -> wps (handleCallStatus env a t n tab) (always state_invariant) s.
Proof.
  intros H. unfold handleCallStatus, always. repeat wps_step; leaf.
  all: try (apply stopRecording_inv; exact H).
Qed.

(** Start sets the state, the time stamp and the (never empty) file name
    together; its rollback clears them together. *)
Lemma startRecording_inv env notes s :
  state_invariant s -> wps (startRecording env notes) (always state_invariant) s.
Proof. intros H. unfold startRecording, always. repeat wps_step; leaf. Qed.

Lemma handleFinalized_inv env f url s :
  state_invariant s -> wps (handleFinalized env f url) (always state_invariant) s.
Proof. intros H. unfold handleFinalized, always. repeat wps_step; leaf. Qed.

Lemma onMessage_invariant env message tab c :
  state_invariant (state (globals c)) ->
  state_invariant (state (globals (snd (onMessage env message tab c)))).
Proof.
  intros H. unfold onMessage. destruct message as [m|]; [|exact H].
  assert (Hm : wps (handleMessage env m tab) (always state_invariant) (state (globals c))).
  { destruct m; cbn [handleMessage];
      auto using pauseRecording_inv, resumeRecording_inv, stopRecording_inv,
        handleCallStatus_inv, startRecording_inv, handleFinalized_inv.
    all: unfold handleChunk, listRecordings, deleteRecording, always;
      repeat wps_step; assumption. }
  specialize (Hm c eq_refl).
  destruct (handleMessage env m tab c) as [[r|e] c1]; [exact Hm|].
  assert (Hc : wps (mod_state (set_lastError (str_or e "Error")) ;;; publishState env)
                   (always state_invariant) (state (globals c1)))
    by (unfold always; repeat wps_step; exact Hm).
  specialize (Hc c1 eq_refl).
  destruct ((mod_state (set_lastError (str_or e "Error")) ;;; publishState env) c1) as [r c2].
  exact Hc.
Qed.

Lemma onCommand_invariant env command c :
  state_invariant (state (globals c)) ->
  state_invariant (state (globals (snd (onCommand env command c)))).
Proof.
  intros H.
  assert (Hm : wps (onCommand env command) (always state_invariant) (state (globals c))).
  { unfold onCommand, when, always.
    repeat first
      [ assumption
      | eapply wps_consequence;
        [ first [ apply startRecording_inv | apply stopRecording_inv
                | apply pauseRecording_inv | apply resumeRecording_inv ]; assumption
        | unfold always; intros [?|?] ? ?; cbv beta iota ]
      | wps_step ]. }
  exact (Hm c eq_refl).
Qed.

(** C2: in every state the coordinator reaches by handling messages
    (call status, start, pause, resume, stop, finalize and the others),
    keyboard commands and recorder events, [recordingState <> idle] implies
    [recordingStartedAt <> null] and [currentFilename <> ""]. *)
Theorem recording_implies_started_and_named (c : Coordinator) :
  reachable c -> state_invariant (state (globals c)).
Proof.
  induction 1 as [storage | env i c Hc IH].
  - cbn. unfold state_invariant. cbn. congruence.
  - destruct i; cbn [step].
    + now apply onMessage_invariant.
    + now apply onCommand_invariant.
    + unfold in_worker. destruct (offscreen (globals c)); exact IH.
    + unfold in_worker. destruct (offscreen (globals c)); exact IH.
Qed.

Lemma recording_implies_started_and_named_witness :
  recordingState (state (globals while_recording)) = recording
  /\ state_invariant (state (globals while_recording)).
Proof.
  split; [vm_compute; reflexivity|].
  apply (recording_implies_started_and_named while_recording).
  unfold while_recording, in_call.
  apply reachable_step, reachable_step. unfold fresh. apply reachable_init.
Defined.

(** *** Publishing the state *)

Lemma publishState_frame (env : Env) (c : Coordinator) :
  state (globals (snd (publishState env c))) = state (globals c)
  /\ offscreen (globals (snd (publishState env c))) = offscreen (globals c)
  /\ recordings (storage (globals (snd (publishState env c)))) = recordings (storage (globals c))
  /\ notes (storage (globals (snd (publishState env c)))) = notes (storage (globals c)).
Proof.
  unfold publishState, bind, get_state, getg, ret, call, mod_storage, modg, try_catch. cbn.
  repeat match goal with
         | |- context [fails ?e ?api ?n] => destruct (fails e api n); cbn
         | |- context [callTabId ?s] => destruct (callTabId s); cbn
         end; auto.
Qed.

Lemma publishState_trace (env : Env) (c : Coordinator) :
  exists evs, trace (snd (publishState env c)) = trace c ++ evs.
Proof.
  unfold publishState, bind, get_state, getg, ret, call, mod_storage, modg, try_catch. cbn.
  repeat match goal with
         | |- context [fails ?e ?api ?n] => destruct (fails e api n); cbn
         | |- context [callTabId ?s] => destruct (callTabId s); cbn
         end; rewrite <- ?app_assoc; eexists; reflexivity.
Qed.

(** When the badge and the snapshot are accepted, [publishState] succeeds
    and its calls are the broadcast of the current state; a refused push to
    the tab is swallowed. *)
Lemma publishState_ok (env : Env) (c : Coordinator) :
  badge_works env ->
  exists n,
    publishState env c
    = (Ok tt,
       {| globals := {| state := state (globals c);
                        storage := store_runtimeState (state (globals c)) (storage (globals c));
                        offscreen := offscreen (globals c) |};
          clock := n;
          trace := trace c ++ broadcast (state (globals c)) |}).
Proof.
  intros H. unfold publishState, bind, get_state, getg, ret, call, mod_storage, modg, try_catch.
  cbn.
  destruct (H (clock c)) as (-> & _ & _). cbn.
  destruct (H (S (clock c))) as (_ & -> & _). cbn.
  destruct (H (S (S (clock c)))) as (_ & _ & ->).
  cbn. unfold broadcast.
  destruct (callTabId (state (globals c))) as [tab|]; cbn.
  - destruct (fails env tabs_sendMessage _); eexists; rewrite <- !app_assoc; reflexivity.
  - eexists; rewrite <- !app_assoc; reflexivity.
Qed.

Local Arguments publishState : simpl never.
Local Arguments finalFilename : simpl never.
Local Arguments makeFilename : simpl never.
Local Arguments strip_ext : simpl never.
Local Arguments duration : simpl never.
Local Arguments take : simpl never.
Local Arguments Offscreen.onMessage : simpl never.

(** Unfold [handleFinalized] and split on the outcome of each persistence
    step; what is left in every case is the [finally] block. *)
Ltac run_handleFinalized Hget :=
  unfold handleFinalized, bind, call, try_finally, saveBlobToDownloads, request, ask,
    get_state, get_storage, getg, mod_state, mod_storage, modg, ret;
  rewrite Hget; cbn;
  repeat match goal with
         | |- context [fails _ ?api ?n] =>
             lazymatch api with
             | downloads_download => idtac
             | storage_get_recordings => idtac
             | storage_set_recordings => idtac
             end;
             destruct (fails _ api n) eqn:?; cbn
         end.

(** *** Finalize *)

(** What the [finally] block gives: once the settings have been read,
    [handleFinalized] ends with [recordingState = idle],
    [recordingStartedAt = null] and [currentFilename = ""] whatever the
    state was and whichever of the persistence steps (saving the artifact,
    saving the sidecar, reading or writing the history) throws; and when the
    badge and snapshot calls are accepted its last calls are the broadcast
    of that state. *)
Lemma finalize_returns_to_idle_once_settings_are_read
    (env : Env) (format' url : string) (c : Coordinator) :
  fails env storage_get_settings (clock c) = None ->
  let c' := snd (handleFinalized env format' url c) in
  recordingState (state (globals c')) = idle
  /\ recordingStartedAt (state (globals c')) = None
  /\ currentFilename (state (globals c')) = ""
  /\ (badge_works env ->
      exists before, trace c' = (trace c ++ before) ++ broadcast (state (globals c'))).
Proof.
  intros Hget c'. subst c'.
  assert (Hstate : let s := state (globals (snd (handleFinalized env format' url c))) in
                   recordingState s = idle /\ recordingStartedAt s = None
                   /\ currentFilename s = "").
  { run_handleFinalized Hget.
    all: match goal with
         | |- context [publishState _ ?c1] =>
             destruct (publishState_frame env c1) as (Hst & _);
             destruct (publishState env c1) as [[u|e] c2]
         end; cbn in Hst |- *; rewrite Hst; cbn; auto. }
  destruct Hstate as (H1 & H2 & H3).
  split; [exact H1|]. split; [exact H2|]. split; [exact H3|].
  intros Hbadge.
  run_handleFinalized Hget.
  all: match goal with
       | |- context [publishState _ ?c1] =>
           destruct (publishState_ok env c1 Hbadge) as [n ->]
       end; cbn.
  all: eexists; f_equal; rewrite <- ?app_assoc; reflexivity.
Qed.

Lemma badge_works_answering (refused : Api -> nat -> option string) :
  (forall n, refused action_setBadgeText n = None
             /\ refused action_setBadgeBackgroundColor n = None
             /\ refused storage_set_runtimeState n = None) ->
  badge_works (answering refused).
Proof. intros H n. exact (H n). Qed.

Lemma finalize_returns_to_idle_once_settings_are_read_example :
  recordingState (state (globals while_recording)) = recording
  /\ recordingState
       (state (globals (snd (handleFinalized download_refused "webm" "data:audio/webm;base64,"
                               while_recording)))) = idle
  /\ recordingStartedAt
       (state (globals (snd (handleFinalized download_refused "webm" "data:audio/webm;base64,"
                               while_recording)))) = None
  /\ currentFilename
       (state (globals (snd (handleFinalized download_refused "webm" "data:audio/webm;base64,"
                               while_recording)))) = ""
  /\ exists before,
       trace (snd (handleFinalized download_refused "webm" "data:audio/webm;base64,"
                     while_recording))
       = (trace while_recording ++ before)
         ++ broadcast
              (state (globals (snd (handleFinalized download_refused "webm"
                                      "data:audio/webm;base64," while_recording)))).
Proof.
  destruct (finalize_returns_to_idle_once_settings_are_read download_refused "webm"
              "data:audio/webm;base64,"
              while_recording eq_refl) as (H1 & H2 & H3 & H4).
  split; [vm_compute; reflexivity|].
  split; [exact H1|]. split; [exact H2|]. split; [exact H3|].
  apply H4. apply badge_works_answering. intros n. cbn. auto.
Qed.

(** The broadcast needs the badge: [publishState] gives up at a refused
    [setBadgeText], before the snapshot is stored and before the tab is
    told (only a failure of the tab message is swallowed). *)
Lemma publishState_stops_at_refused_badge (env : Env) (c : Coordinator) (e : string) :
  fails env action_setBadgeText (clock c) = Some e ->
  exists label,
    publishState env c
    = (Throw e, {| globals := globals c; clock := S (clock c);
                   trace := trace c ++ [SetBadgeText label] |}).
Proof.
  intros H. unfold publishState, bind, get_state, getg, ret, call. cbn.
  rewrite H. eexists. reflexivity.
Qed.

(** C1, what the code does when the settings cannot be read: the read at
    the top of [handleFinalized] is awaited before the [try] block, so its
    rejection leaves the handler without any download, reset or broadcast.
    The listener answers with the error and records it in [lastError];
    [recordingState], [recordingStartedAt] and [currentFilename] are what
    they were, so a coordinator that was Recording or Paused still is. *)
Theorem finalize_stays_recording_when_settings_unreadable
    (env : Env) (format' url : string) (tab : option Z) (c : Coordinator) (e : string) :
  fails env storage_get_settings (clock c) = Some e ->
  recordingState (state (globals c)) <> idle ->
  handleFinalized env format' url c
  = (Throw e, {| globals := globals c; clock := S (clock c);
                 trace := trace c ++ [StorageGet] |})
  /\ fst (onMessage env (Some (RECORDING_FINALIZED format' url)) tab c)
     = Some (Failure (str_or e "Error"))
  /\ state (globals (snd (onMessage env (Some (RECORDING_FINALIZED format' url)) tab c)))
     = set_lastError (str_or e "Error") (state (globals c))
  /\ recordingState
       (state (globals (snd (onMessage env (Some (RECORDING_FINALIZED format' url)) tab c))))
     <> idle.
Proof.
  intros Hget Hbusy.
  assert (Hh : handleFinalized env format' url c
               = (Throw e, {| globals := globals c; clock := S (clock c);
                              trace := trace c ++ [StorageGet] |})).
  { unfold handleFinalized, bind at 1, call. now rewrite Hget. }
  split; [exact Hh|].
  unfold onMessage, handleMessage. rewrite Hh.
  unfold bind, mod_state, modg. cbn.
  match goal with
  | |- context [publishState _ ?c1] =>
      destruct (publishState_frame env c1) as (Hst & _);
      destruct (publishState env c1) as [r c2]
  end; cbn in Hst |- *.
  split; [reflexivity|]. split; [exact Hst|]. now rewrite Hst.
Qed.

Lemma finalize_stays_recording_when_settings_unreadable_witness :
  recordingState (state (globals while_recording)) = recording
  /\ fst (onMessage storage_unreadable
            (Some (RECORDING_FINALIZED "webm" "data:audio/webm;base64,GkXfo0AgQoaBAUL3"))
            None while_recording)
     = Some (Failure "The storage backend is unavailable.")
  /\ recordingState
       (state (globals (snd (onMessage storage_unreadable
                               (Some (RECORDING_FINALIZED "webm"
                                        "data:audio/webm;base64,GkXfo0AgQoaBAUL3"))
                               None while_recording)))) = recording.
Proof.
  assert (H := finalize_stays_recording_when_settings_unreadable storage_unreadable "webm"
                 "data:audio/webm;base64,GkXfo0AgQoaBAUL3" None while_recording
                 "The storage backend is unavailable.").
  destruct H as (_ & H1 & H2 & _).
  - reflexivity.
  - vm_compute. discriminate.
  - split; [vm_compute; reflexivity|]. split; [exact H1|].
    rewrite H2. vm_compute. reflexivity.
Defined.

(** C9: when the persistence calls succeed, the history that
    [handleFinalized] stores is the new record followed by the previous
    history, cut after 200 entries: the new record is at index 0, the
    length is at most 200, and what is dropped is dropped from the end. *)
Theorem history_newest_first_capped
    (env : Env) (format' url : string) (c : Coordinator) :
  persistence_works env ->
  let before := default [] (recordings (storage (globals c))) in
  let after := recordings (storage (globals (snd (handleFinalized env format' url c)))) in
  exists record : RecordingRecord,
    after = Some (take 200 (record :: before))
    /\ take 200 (record :: before) = record :: take 199 before
    /\ take 200 (record :: before) !! 0%nat = Some record
    /\ (length (take 200 (record :: before)) <= 200)%nat
    /\ rec_format record = str_or format' "webm"
    /\ filename record
       = finalFilename (new_Date env (S (clock c))) (state (globals c)) (storage (globals c))
           (str_or format' "webm").
Proof.
  intros Hok before after. subst before after.
  unfold handleFinalized, bind, call, try_finally, saveBlobToDownloads, request, ask,
    get_state, get_storage, getg, mod_state, mod_storage, modg, ret.
  destruct (Hok (clock c)) as (-> & _). cbn.
  destruct (Hok (S (S (clock c)))) as (_ & -> & _). cbn.
  destruct (Hok (S (S (S (S (S (clock c))))))) as (_ & -> & _). cbn.
  destruct (Hok (S (S (S (S (S (S (clock c)))))))) as (_ & _ & -> & _). cbn.
  destruct (Hok (S (S (S (S (S (S (S (clock c))))))))) as (_ & _ & _ & ->). cbn.
  match goal with
  | |- context [publishState env ?c1] =>
      destruct (publishState_frame env c1) as (_ & _ & Hrec & _);
      destruct (publishState env c1) as [[u|e] c2]
  end; cbn in Hrec |- *; rewrite Hrec.
  all: eexists; split; [reflexivity|].
  all: split; [reflexivity|]; split; [reflexivity|].
  all: split; [rewrite length_take; lia|]; split; reflexivity.
Qed.

Lemma history_newest_first_capped_witness :
  exists record : RecordingRecord,
    recordings (storage (globals (snd (handleFinalized quiet "webm" "data:audio/webm;base64,"
                                         while_recording))))
    = Some [record]
    /\ filename record = "TeamsRecordings/Teams_2024-03-09_14-05_Standup.webm".
Proof.
  destruct (history_newest_first_capped quiet "webm" "data:audio/webm;base64," while_recording)
    as (record & Hafter & _ & _ & _ & _ & Hname).
  - intros n. cbn. auto.
  - exists record. split; [exact Hafter|]. rewrite Hname. vm_compute. reflexivity.
Defined.

(** Whatever was requested, the format [finalize] reports is one of the
    two the worker can deliver. *)
Lemma finalize_returns_wav_or_webm
    (env : Env) (blob : Blob) (requested : string) (w w' : Offscreen.Worker)
    (finalized : Offscreen.Finalized) :
  Offscreen.finalize env blob requested w = (Ok finalized, w') ->
  Offscreen.fin_format finalized = "wav" \/ Offscreen.fin_format finalized = "webm".
Proof.
  unfold Offscreen.finalize.
  destruct (String.eqb requested "wav").
  - unfold try_catch, bind at 1.
    destruct (Offscreen.convertWebmToWav env blob w) as [[wavBlob|e] w1];
      unfold bind, Offscreen.blobToDataUrl, request, ret;
      repeat match goal with
             | |- context [fails ?e ?api ?n] => destruct (fails e api n); cbn
             end;
      intros [= <- _]; auto.
  - destruct (String.eqb requested "mp3");
      unfold bind, Offscreen.blobToDataUrl, request, ret;
      destruct (fails env reader_readAsDataURL (clock w)); intros [= <- _]; auto.
Qed.

Lemma normalizeExtension_negotiated (negotiated : string) :
  normalizeExtension (str_or negotiated "webm")
  = if String.eqb negotiated "wav" then "wav" else "webm".
Proof.
  destruct negotiated as [|c r]; [reflexivity|].
  cbn [str_or]. unfold normalizeExtension.
  destruct (String.eqb (String c r) "wav"); [reflexivity|].
  now destruct (String.eqb (String c r) "mp3").
Qed.

(** C6: requested "mp3", the worker's [finalize] returns the format
    "webm"; and the name under which [handleFinalized] saves the artifact
    ends in ".webm" when the negotiated format is "webm" and in ".wav" when
    it is "wav", whatever the requested format in the settings and whatever
    extension [currentFilename] carried.  For every recording the worker
    finalizes, whatever was requested, the extension of the saved name is
    the format the worker reported; a message with any other format (or
    none) is saved as ".webm". *)
Theorem extension_follows_negotiated_format
    (env : Env) (blob : Blob) (w : Offscreen.Worker) :
  fails env reader_readAsDataURL (clock w) = None ->
  fst (Offscreen.finalize env blob "mp3" w)
  = Ok {| Offscreen.fin_format := "webm"; Offscreen.blobDataUrl := data_url env blob |}
  /\ (forall date st settings,
        exists base, finalFilename date st settings "webm" = base +:+ ".webm"
                     /\ matchExt (finalFilename date st settings "webm") = Some (base, "webm"))
  /\ (forall date st settings,
        exists base, finalFilename date st settings "wav" = base +:+ ".wav"
                     /\ matchExt (finalFilename date st settings "wav") = Some (base, "wav"))
  /\ (forall env' blob' requested w' w'' finalized date st settings,
        Offscreen.finalize env' blob' requested w' = (Ok finalized, w'') ->
        (Offscreen.fin_format finalized = "wav" \/ Offscreen.fin_format finalized = "webm")
        /\ exists base,
             finalFilename date st settings (str_or (Offscreen.fin_format finalized) "webm")
             = base +:+ "." +:+ Offscreen.fin_format finalized
             /\ matchExt (finalFilename date st settings
                            (str_or (Offscreen.fin_format finalized) "webm"))
                = Some (base, Offscreen.fin_format finalized))
  /\ (forall negotiated date st settings,
        exists base,
          finalFilename date st settings (str_or negotiated "webm")
          = base +:+ "." +:+ (if String.eqb negotiated "wav" then "wav" else "webm")
          /\ matchExt (finalFilename date st settings (str_or negotiated "webm"))
             = Some (base, if String.eqb negotiated "wav" then "wav" else "webm"))
  /\ (forall env' negotiated url c,
        fails env' storage_get_settings (clock c) = None ->
        exists rest,
          trace (snd (handleFinalized env' negotiated url c))
          = trace c ++ StorageGet
              :: Download (DataUrl url)
                   (finalFilename (new_Date env' (S (clock c))) (state (globals c))
                      (storage (globals c)) (str_or negotiated "webm"))
              :: rest).
Proof.
  intros Hread. split; [|split; [|split; [|split; [|split]]]].
  - unfold Offscreen.finalize. cbn [String.eqb Ascii.eqb Bool.eqb].
    cbn. unfold Offscreen.blobToDataUrl, bind, request, ret. now rewrite Hread.
  - intros. apply (applyFormatToFilename_extension _ "webm").
  - intros. apply (applyFormatToFilename_extension _ "wav").
  - intros env' blob' requested w' w'' finalized date st settings Hf.
    pose proof (finalize_returns_wav_or_webm _ _ _ _ _ _ Hf) as Hfmt.
    split; [exact Hfmt|].
    destruct Hfmt as [-> | ->].
    + apply (applyFormatToFilename_extension _ "wav").
    + apply (applyFormatToFilename_extension _ "webm").
  - intros negotiated date st settings.
    rewrite <- normalizeExtension_negotiated. apply applyFormatToFilename_extension.
  - intros env' negotiated url c Hget.
    run_handleFinalized Hget.
    all: match goal with
         | |- context [publishState _ ?c1] =>
             destruct (publishState_trace env' c1) as [evs Htr];
             destruct (publishState env' c1) as [[u|e] c2]
         end; cbn in Htr |- *; rewrite Htr; cbn.
    all: rewrite <- ?app_assoc; cbn [app]; eexists; reflexivity.
Qed.

Lemma extension_follows_negotiated_format_witness :
  fst (Offscreen.finalize quiet {| blob_bytes := [26; 69; 223; 163]; blob_type := "audio/webm" |}
         "mp3" Offscreen.initial)
  = Ok {| Offscreen.fin_format := "webm";
          Offscreen.blobDataUrl := "data:audio/webm;base64,GkXfo0AgQoaBAUL3" |}
  /\ finalFilename march_9 (state (globals while_recording)) (settings true "both") "webm"
     = "TeamsRecordings/Teams_2024-03-09_14-05_Standup.webm"
  /\ currentFilename (state (globals while_recording))
     = "TeamsRecordings/Teams_2024-03-09_14-05_Standup.webm"
  /\ finalFilename march_9 (state (globals while_recording)) (settings true "both") "wav"
     = "TeamsRecordings/Teams_2024-03-09_14-05_Standup.wav"
  /\ exists base,
       finalFilename march_9 (state (globals while_recording)) (settings true "both") "wav"
       = base +:+ ".wav".
Proof.
  destruct (extension_follows_negotiated_format quiet
              {| blob_bytes := [26; 69; 223; 163]; blob_type := "audio/webm" |}
              Offscreen.initial eq_refl) as (H & _ & Hwav & _).
  split; [exact H|]. split; [vm_compute; reflexivity|].
  split; [vm_compute; reflexivity|]. split; [vm_compute; reflexivity|].
  destruct (Hwav march_9 (state (globals while_recording)) (settings true "both"))
    as (base & E & _).
  exists base. exact E.
Defined.

(** *** Preconditions *)

(** C4, as the code has it: a START_RECORDING request received while
    [consentAccepted] is false is answered with an error response (the
    consent error when the settings could be read), and handling it leaves
    every field of the state unchanged except [lastError], which receives
    the reported message.  The listener then publishes that state: what is
    left of the handling is one run of [publishState] on it, right after
    the settings read, so when the badge and snapshot calls are accepted
    the calls made are the settings read and the broadcast of that
    state. *)
Theorem start_without_consent_only_sets_lastError
    (env : Env) (notes' : string) (tab : option Z) (c : Coordinator) :
  consentAccepted (storage (globals c)) = false ->
  exists error : string,
    fst (onMessage env (Some (START_RECORDING notes')) tab c) = Some (Failure error)
    /\ state (globals (snd (onMessage env (Some (START_RECORDING notes')) tab c)))
       = set_lastError error (state (globals c))
    /\ (fails env storage_get_settings (clock c) = None ->
        error = "Consent disclaimer must be accepted.")
    /\ snd (onMessage env (Some (START_RECORDING notes')) tab c)
       = snd (publishState env
                {| globals := {| state := set_lastError error (state (globals c));
                                 storage := storage (globals c);
                                 offscreen := offscreen (globals c) |};
                   clock := S (clock c);
                   trace := trace c ++ [StorageGet] |})
    /\ (badge_works env ->
        trace (snd (onMessage env (Some (START_RECORDING notes')) tab c))
        = (trace c ++ [StorageGet]) ++ broadcast (set_lastError error (state (globals c)))).
Proof.
  intros Hconsent.
  unfold onMessage, handleMessage, startRecording, bind, call, get_storage, getg, ret, throw.
  destruct (fails env storage_get_settings (clock c)) as [e|] eqn:Hget; cbn.
  2: rewrite Hconsent; cbn.
  1: exists (str_or e "Error").
  2: exists "Consent disclaimer must be accepted.".
  all: unfold mod_state, modg; cbn.
  all: match goal with
       | |- context [publishState _ ?c1] =>
           destruct (publishState_frame env c1) as (Hst & _);
           pose proof (publishState_ok env c1) as Hok;
           destruct (publishState env c1) as [r c2]
       end; cbn in Hst, Hok |- *.
  all: split; [reflexivity|]; split; [exact Hst|]; split; [congruence|];
    split; [reflexivity|].
  all: intros Hbadge; destruct (Hok Hbadge) as [n [= _ ->]]; reflexivity.
Qed.

Lemma start_without_consent_only_sets_lastError_witness :
  exists error : string,
    fst (onMessage quiet (Some (START_RECORDING "")) (Some 7) (in_call false "both"))
    = Some (Failure error)
    /\ state (globals (snd (onMessage quiet (Some (START_RECORDING "")) (Some 7)
                              (in_call false "both"))))
       = set_lastError error (state (globals (in_call false "both")))
    /\ error = "Consent disclaimer must be accepted."
    /\ trace (snd (onMessage quiet (Some (START_RECORDING "")) (Some 7) (in_call false "both")))
       = (trace (in_call false "both") ++ [StorageGet])
         ++ broadcast (set_lastError error (state (globals (in_call false "both")))).
Proof.
  destruct (start_without_consent_only_sets_lastError quiet "" (Some 7) (in_call false "both"))
    as (error & H1 & H2 & H3 & _ & H5); [vm_compute; reflexivity|].
  exists error. split; [exact H1|]. split; [exact H2|]. split; [apply H3; reflexivity|].
  apply H5. apply badge_works_answering. intros n. cbn. auto.
Defined.

(** C4 as stated fails: handling the refused request changes [lastError]. *)
Lemma start_without_consent_changes_lastError :
  lastError (state (globals (in_call false "both"))) = ""
  /\ lastError (state (globals (snd (onMessage quiet (Some (START_RECORDING "")) (Some 7)
                                       (in_call false "both")))))
     = "Consent disclaimer must be accepted."
  /\ state (globals (snd (onMessage quiet (Some (START_RECORDING "")) (Some 7)
                            (in_call false "both"))))
     <> state (globals (in_call false "both")).
Proof.
  split; [vm_compute; reflexivity|]. split; [vm_compute; reflexivity|].
  intros H. apply (f_equal lastError) in H. vm_compute in H. discriminate H.
Qed.

(** C5, as the code has it: a PAUSE_RECORDING request received while the
    state is not Recording, and a RESUME_RECORDING request received while
    it is not Paused, is a silent no-op: the caller gets the success
    response with no result, and nothing changes (no state change, no
    command to the worker, no broadcast). *)
Theorem pause_resume_out_of_state_is_a_no_op
    (env : Env) (m : Message) (tab : option Z) (c : Coordinator) :
  (m = PAUSE_RECORDING /\ recordingState (state (globals c)) <> recording)
  \/ (m = RESUME_RECORDING /\ recordingState (state (globals c)) <> paused) ->
  onMessage env (Some m) tab c = (Some (Success undefined), c).
Proof.
  intros [[-> H] | [-> H]];
    unfold onMessage, handleMessage, pauseRecording, resumeRecording, bind, get_state, getg, ret;
    cbn; destruct (recordingState (state (globals c))); cbn; congruence.
Qed.

Lemma pause_resume_out_of_state_is_a_no_op_witness :
  onMessage quiet (Some RESUME_RECORDING) (Some 7) while_recording
  = (Some (Success undefined), while_recording).
Proof.
  apply (pause_resume_out_of_state_is_a_no_op quiet RESUME_RECORDING (Some 7) while_recording).
  right. split; [reflexivity|]. vm_compute. discriminate.
Defined.

(** C5 as stated fails: a pause while idle is not answered with an error. *)
Lemma pause_when_idle_is_answered_ok :
  recordingState (state (globals (in_call true "both"))) = idle
  /\ fst (onMessage quiet (Some PAUSE_RECORDING) (Some 7) (in_call true "both"))
     = Some (Success undefined)
  /\ ~ exists error,
         fst (onMessage quiet (Some PAUSE_RECORDING) (Some 7) (in_call true "both"))
         = Some (Failure error).
Proof.
  split; [vm_compute; reflexivity|]. split; [vm_compute; reflexivity|].
  intros [error H]. vm_compute in H. discriminate H.
Qed.

(** *** Start in mic-only mode *)

(** C3, what the code does: with [sourceMode = "mic"] and a refused
    microphone, the worker answers [{ ok: false, error }] and keeps nothing
    allocated, but [startRecording] only waits for the answer: the caller
    of START_RECORDING gets the success response and the state stays
    Recording. *)
Theorem mic_failure_is_not_reported
    (env : Env) (notes' : string) (sender_tab : option Z) (c : Coordinator) (tab : Z) :
  start_calls_work env ->
  (forall n, fails env getUserMedia_mic n <> None) ->
  consentAccepted (storage (globals c)) = true ->
  sourceMode (storage (globals c)) = "mic" ->
  recordingState (state (globals c)) = idle ->
  callTabId (state (globals c)) = Some tab ->
  tab <> 0 ->
  let after := onMessage env (Some (START_RECORDING notes')) sender_tab c in
  fst after = Some (Success undefined)
  /\ recordingState (state (globals (snd after))) = recording
  /\ exists w, offscreen (globals (snd after)) = Some w /\ Offscreen.released (globals w).
Proof.
  intros [Hbadge Hcalls] Hmic Hconsent Hmode Hidle Htab Hnz after. subst after.
  unfold onMessage, handleMessage, startRecording, resolveTeamsTabId, ensureOffscreenDocument.
  unfold bind, call, request, ask, get_state, get_storage, getg, mod_state, mod_storage,
    set_offscreen, modg, ret, throw, try_catch.
  destruct (Hcalls (clock c)) as (-> & _). cbn.
  rewrite Hconsent. cbn. rewrite Hidle. cbn. rewrite Htab. cbn.
  destruct (Z.eqb_spec tab 0) as [|_]; [contradiction|].
  rewrite Hmode. cbn.
  destruct (Hcalls (S (clock c))) as (_ & -> & _). cbn.
  destruct (offscreen (globals c)) as [w0|] eqn:Hoff; cbn.
  2: destruct (Hcalls (S (S (clock c)))) as (_ & _ & -> & _); cbn.
  all: repeat match goal with
              | |- context [fails _ storage_set_notes ?n] =>
                  destruct (Hcalls n) as (_ & _ & _ & -> & _); cbn
              | |- context [publishState _ ?c1] =>
                  destruct (publishState_ok _ c1 Hbadge) as [k ->]; cbn
              end.
  all: unfold sendMessage, bind, call, getg, set_offscreen, modg, ret; cbn.
  all: repeat match goal with
              | |- context [fails _ runtime_sendMessage ?n] =>
                  destruct (Hcalls n) as (_ & _ & _ & _ & ->); cbn
              end.
  all: match goal with
       | |- context [Offscreen.onMessage _ (Offscreen.OFFSCREEN_START ?p) ?w] =>
           destruct (mic_only_start_fails _ p w eq_refl Hmic) as (w' & -> & R)
       end; cbn.
  all: split; [reflexivity|]; split; [reflexivity|]; eauto.
Qed.

Lemma mic_failure_is_not_reported_witness :
  fst (onMessage mic_denied (Some (START_RECORDING "")) (Some 7) (in_call true "mic"))
  = Some (Success undefined)
  /\ recordingState
       (state (globals (snd (onMessage mic_denied (Some (START_RECORDING "")) (Some 7)
                               (in_call true "mic"))))) = recording
  /\ exists w,
       offscreen (globals (snd (onMessage mic_denied (Some (START_RECORDING "")) (Some 7)
                                  (in_call true "mic")))) = Some w
       /\ Offscreen.released (globals w).
Proof.
  apply (mic_failure_is_not_reported mic_denied "" (Some 7) (in_call true "mic") 7).
  - split; intros n; cbn; auto.
  - intros n. cbn. discriminate.
  - vm_compute. reflexivity.
  - vm_compute. reflexivity.
  - vm_compute. reflexivity.
  - vm_compute. reflexivity.
  - discriminate.
Defined.

End CoordinatorProofs.


(** * Further properties of the sources *)

(** ** File names *)

Lemma append_assoc (a b c : string) : (a +:+ b) +:+ c = a +:+ (b +:+ c).
Proof.
  induction a as [|x a IH]; [reflexivity|].
  rewrite !append_cons. now rewrite IH.
Qed.

Lemma str_forallb_append (p : ascii -> bool) (a b : string) :
  str_forallb p (a +:+ b) = str_forallb p a && str_forallb p b.
Proof.
  induction a as [|x a IH]; [reflexivity|].
  rewrite append_cons. cbn [str_forallb]. rewrite IH. apply andb_assoc.
Qed.

Lemma str_forallb_take (p : ascii -> bool) (n : nat) : forall s,
  str_forallb p s = true -> str_forallb p (str_take n s) = true.
Proof.
  induction n as [|n IH]; intros [|c s] H; try reflexivity.
  cbn in *. apply andb_true_iff in H as [Hc Hs]. rewrite Hc. now apply IH.
Qed.

Lemma length_str_take (n : nat) : forall s, (String.length (str_take n s) <= n)%nat.
Proof.
  induction n as [|n IH]; intros [|c s]; cbn; try lia.
  specialize (IH s). lia.
Qed.

Lemma str_take_all (n : nat) : forall s, (String.length s <= n)%nat -> str_take n s = s.
Proof.
  induction n as [|n IH]; intros [|c s] H; cbn in *; try reflexivity; try lia.
  f_equal. apply IH. lia.
Qed.

Lemma replaced_not_unsafe (s : string) :
  str_forallb (fun c => negb (is_unsafe c))
    (str_map (fun c => if is_unsafe c then "_"%char else c) s) = true.
Proof.
  induction s as [|c s IH]; [reflexivity|].
  cbn [str_map str_forallb]. rewrite IH, andb_true_r.
  destruct (is_unsafe c) eqn:E; [reflexivity | now rewrite E].
Qed.

Lemma collapse_from_safe (s : string) : forall in_run,
  str_forallb (fun c => negb (is_unsafe c)) s = true ->
  str_forallb is_safe (collapse_from in_run s) = true.
Proof.
  induction s as [|c s IH]; intros in_run H; [reflexivity|].
  cbn [str_forallb] in H. apply andb_true_iff in H as [Hc Hs].
  cbn [collapse_from]. destruct (is_space c) eqn:E.
  - destruct in_run; [now apply IH|].
    cbn [str_forallb]. rewrite (IH true Hs). reflexivity.
  - cbn [str_forallb]. rewrite (IH false Hs). unfold is_safe. now rewrite Hc, E.
Qed.

Lemma collapse_from_fixed (s : string) : forall in_run,
  str_forallb is_safe s = true -> collapse_from in_run s = s.
Proof.
  induction s as [|c s IH]; intros in_run H; [reflexivity|].
  cbn [str_forallb] in H. apply andb_true_iff in H as [Hc Hs].
  unfold is_safe in Hc. apply andb_true_iff in Hc as [_ Hc].
  cbn [collapse_from]. destruct (is_space c); [discriminate|].
  f_equal. now apply IH.
Qed.

Lemma replace_fixed (s : string) :
  str_forallb is_safe s = true ->
  str_map (fun c => if is_unsafe c then "_"%char else c) s = s.
Proof.
  induction s as [|c s IH]; intros H; [reflexivity|].
  cbn [str_forallb] in H. apply andb_true_iff in H as [Hc Hs].
  unfold is_safe in Hc. apply andb_true_iff in Hc as [Hc _].
  cbn [str_map]. destruct (is_unsafe c); [discriminate|].
  f_equal. now apply IH.
Qed.

Lemma sanitize_safe (input : string) :
  (String.length (sanitize input) <= 80)%nat /\ str_forallb is_safe (sanitize input) = true.
Proof.
  unfold sanitize. split; [apply length_str_take|].
  apply str_forallb_take, collapse_from_safe, replaced_not_unsafe.
Qed.

(** X1: whatever the title or folder, [sanitize] returns at most 80
    characters, none of which is white space or one of the nine characters
    that are not allowed in a file name (backslash, slash, colon, star,
    question mark, double quote, angle brackets, bar). *)
Theorem sanitize_is_short_and_safe (input : string) :
  (String.length (sanitize input) <= 80)%nat
  /\ str_forallb is_safe (sanitize input) = true
  /\ includes (sanitize input) "/" = false.
Proof.
  destruct (sanitize_safe input) as [Hl Hs].
  split; [exact Hl|]. split; [exact Hs|].
  induction (sanitize input) as [|c s IH]; [reflexivity|].
  cbn [str_forallb] in Hs. apply andb_true_iff in Hs as [Hc Hs].
  cbn [includes is_prefix]. rewrite (IH ltac:(cbn in Hl; lia) Hs), orb_false_r, andb_true_r.
  destruct (Ascii.eqb_spec "/"%char c) as [<-|]; [discriminate Hc | reflexivity].
Qed.

(** X2: [sanitize] is idempotent: a name that went through it once is
    not changed by a second pass. *)
Theorem sanitize_idempotent (input : string) :
  sanitize (sanitize input) = sanitize input.
Proof.
  destruct (sanitize_safe input) as [Hl Hs].
  unfold sanitize at 1.
  rewrite (replace_fixed _ Hs). unfold collapse_spaces.
  rewrite (collapse_from_fixed _ false Hs). now apply str_take_all.
Qed.

Lemma dotted_nonempty (base ext : string) : String.eqb (base +:+ "." +:+ ext) "" = false.
Proof. destruct base; reflexivity. Qed.

(** Re-applying a format to a name that ends in one of the two extensions
    replaces exactly that extension. *)
Lemma applyFormatToFilename_dotted (base format format' : string) :
  applyFormatToFilename (base +:+ "." +:+ normalizeExtension format) format'
  = base +:+ "." +:+ normalizeExtension format'.
Proof.
  assert (Hm : matchExt (base +:+ "." +:+ normalizeExtension format)
               = Some (base, normalizeExtension format)).
  { apply (matchExt_append base (normalizeExtension format));
      destruct (normalizeExtension_cases format) as [-> | ->];
      first [discriminate | reflexivity]. }
  unfold applyFormatToFilename at 1. now rewrite dotted_nonempty, Hm.
Qed.

(** The part of a name that [applyFormatToFilename] keeps. *)
Lemma applyFormatToFilename_base (filename : string) :
  exists base, forall format,
    applyFormatToFilename filename format = base +:+ "." +:+ normalizeExtension format.
Proof.
  unfold applyFormatToFilename.
  destruct (String.eqb filename "").
  - now exists "TeamsRecordings/TeamsCall".
  - destruct (matchExt filename) as [[before after]|]; eauto.
Qed.

Lemma makeFilename_base (date : LocalDate) (title folder : string) :
  exists base, forall format,
    makeFilename date title format folder = base +:+ "." +:+ normalizeExtension format.
Proof.
  exists (sanitize (str_or folder "TeamsRecordings") +:+ "/Teams_"
          +:+ String_of_Z (getFullYear date) +:+ "-"
          +:+ padStart2 (String_of_Z (getMonth date + 1)) +:+ "-"
          +:+ padStart2 (String_of_Z (getDate date)) +:+ "_"
          +:+ padStart2 (String_of_Z (getHours date)) +:+ "-"
          +:+ padStart2 (String_of_Z (getMinutes date)) +:+ "_"
          +:+ sanitize (str_or title "TeamsCall")).
  intros format. unfold makeFilename. now rewrite !append_assoc.
Qed.

(** X3: applying formats one after the other is the same as applying the
    last one: the extension never piles up, whatever the name was. *)
Theorem applyFormatToFilename_last_format_wins (filename format format' : string) :
  applyFormatToFilename (applyFormatToFilename filename format) format'
  = applyFormatToFilename filename format'.
Proof.
  destruct (applyFormatToFilename_base filename) as [base E].
  rewrite (E format), (E format'). apply applyFormatToFilename_dotted.
Qed.

(** X4: re-targeting the name chosen at Start to the format the worker
    really produced gives the name Start would have chosen for that format:
    folder, time stamp and title are kept, only the extension follows. *)
Theorem makeFilename_then_applyFormat (date : LocalDate) (title folder format format' : string) :
  applyFormatToFilename (makeFilename date title format folder) format'
  = makeFilename date title format' folder.
Proof.
  destruct (makeFilename_base date title folder) as [base E].
  rewrite (E format), (E format'). apply applyFormatToFilename_dotted.
Qed.

(** ** Escaped text *)

Section HtmlProofs.
Import Html.

Lemma replaceAll_append (c : ascii) (by_ a b : string) :
  replaceAll c by_ (a +:+ b) = replaceAll c by_ a +:+ replaceAll c by_ b.
Proof.
  induction a as [|x a IH]; [reflexivity|].
  rewrite append_cons. cbn [replaceAll]. rewrite IH.
  destruct (Ascii.eqb x c); [now rewrite append_assoc | now rewrite append_cons].
Qed.

Lemma replaceAll_flat_map (c : ascii) (by_ : string) (f : ascii -> string) (s : string) :
  replaceAll c by_ (str_flat_map f s) = str_flat_map (fun x => replaceAll c by_ (f x)) s.
Proof.
  induction s as [|x s IH]; [reflexivity|].
  cbn [str_flat_map]. now rewrite replaceAll_append, IH.
Qed.

Lemma replaceAll_as_flat_map (c : ascii) (by_ : string) (s : string) :
  replaceAll c by_ s
  = str_flat_map (fun x => if Ascii.eqb x c then by_ else String x EmptyString) s.
Proof.
  induction s as [|x s IH]; [reflexivity|].
  cbn [replaceAll str_flat_map]. rewrite IH. now destruct (Ascii.eqb x c).
Qed.

Lemma str_flat_map_ext (f g : ascii -> string) (s : string) :
  (forall c, f c = g c) -> str_flat_map f s = str_flat_map g s.
Proof.
  intros H. induction s as [|x s IH]; [reflexivity|].
  cbn [str_flat_map]. now rewrite H, IH.
Qed.

Lemma entity_passes (c : ascii) :
  replaceAll "034"%char "&quot;"
    (replaceAll ">"%char "&gt;"
       (replaceAll "<"%char "&lt;"
          (if Ascii.eqb c "&"%char then "&amp;" else String c EmptyString)))
  = entity c.
Proof.
  unfold entity.
  destruct (Ascii.eqb c "&"%char) eqn:E1; [reflexivity|].
  cbn [replaceAll].
  destruct (Ascii.eqb c "<"%char) eqn:E2; [reflexivity|].
  cbn [replaceAll].
  destruct (Ascii.eqb c ">"%char) eqn:E3; [reflexivity|].
  cbn [replaceAll].
  destruct (Ascii.eqb c "034"%char) eqn:E4; reflexivity.
Qed.

Lemma escapeHtml_flat_map (input : string) :
  escapeHtml input = str_flat_map entity input.
Proof.
  unfold escapeHtml.
  rewrite (replaceAll_as_flat_map "&"%char).
  rewrite !replaceAll_flat_map.
  apply str_flat_map_ext, entity_passes.
Qed.

(** X5: the four passes of [escapeHtml] amount to one pass that replaces
    each character of the input by its entity: no pass rewrites the
    ampersand an earlier pass has produced. *)
Theorem escapeHtml_escapes_each_character_once (input : string) :
  escapeHtml input = str_flat_map entity input
  /\ (forall (c : ascii) (rest : string),
        escapeHtml (String c rest) = entity c +:+ escapeHtml rest)
  /\ (forall a b : string, escapeHtml (a +:+ b) = escapeHtml a +:+ escapeHtml b).
Proof.
  split; [apply escapeHtml_flat_map|]. split.
  - intros c rest. now rewrite !escapeHtml_flat_map.
  - intros a b. unfold escapeHtml. now rewrite !replaceAll_append.
Qed.

Lemma entity_no_markup (c : ascii) :
  str_forallb (fun x => negb (is_markup x)) (entity c) = true.
Proof.
  unfold entity.
  destruct (Ascii.eqb c "&"%char) eqn:E1; [reflexivity|].
  destruct (Ascii.eqb c "<"%char) eqn:E2; [reflexivity|].
  destruct (Ascii.eqb c ">"%char) eqn:E3; [reflexivity|].
  destruct (Ascii.eqb c "034"%char) eqn:E4; [reflexivity|].
  cbn [str_forallb]. unfold is_markup. now rewrite E2, E3, E4.
Qed.

(** X6: the text [escapeHtml] returns holds no angle bracket and no double
    quote, so it cannot open a tag or leave an attribute value; text
    without the four special characters is returned as it is. *)
Theorem escapeHtml_output_has_no_markup (input : string) :
  str_forallb (fun c => negb (is_markup c)) (escapeHtml input) = true
  /\ (str_forallb (fun c => negb (is_markup c || Ascii.eqb c "&"%char)) input = true ->
      escapeHtml input = input).
Proof.
  rewrite escapeHtml_flat_map. split.
  - induction input as [|c s IH]; [reflexivity|].
    cbn [str_flat_map]. now rewrite str_forallb_append, entity_no_markup, IH.
  - induction input as [|c s IH]; [reflexivity|].
    cbn [str_forallb str_flat_map]. intros H. apply andb_true_iff in H as [Hc Hs].
    rewrite (IH Hs). unfold entity, is_markup in *.
    destruct (Ascii.eqb c "&"%char); [now rewrite orb_true_r in Hc|].
    destruct (Ascii.eqb c "<"%char); [discriminate|].
    destruct (Ascii.eqb c ">"%char); [discriminate|].
    destruct (Ascii.eqb c "034"%char); [discriminate|].
    reflexivity.
Qed.

Lemma escapeHtml_output_has_no_markup_witness :
  escapeHtml "Standup (weekly)" = "Standup (weekly)".
Proof.
  apply (proj2 (escapeHtml_output_has_no_markup "Standup (weekly)")). reflexivity.
Defined.

Lemma length_append (a b : string) :
  String.length (a +:+ b) = (String.length a + String.length b)%nat.
Proof.
  induction a as [|x a IH]; [reflexivity|].
  rewrite append_cons. cbn [String.length]. now rewrite IH.
Qed.

Lemma decode_entity (c : ascii) (rest : string) (n : nat) :
  decode (S n) (entity c +:+ rest) = String c (decode n rest).
Proof.
  unfold entity.
  destruct (Ascii.eqb_spec c "&"%char) as [->|N1]; [reflexivity|].
  destruct (Ascii.eqb_spec c "<"%char) as [->|N2]; [reflexivity|].
  destruct (Ascii.eqb_spec c ">"%char) as [->|N3]; [reflexivity|].
  destruct (Ascii.eqb_spec c "034"%char) as [->|N4]; [reflexivity|].
  rewrite append_cons, append_empty. cbn [decode is_prefix].
  destruct (Ascii.eqb_spec "&"%char c) as [<-|_]; [congruence|].
  reflexivity.
Qed.

Lemma decode_enough (s : string) : forall n,
  (String.length s <= n)%nat -> decode n (str_flat_map entity s) = s.
Proof.
  induction s as [|c s IH]; intros n Hn.
  - destruct n; reflexivity.
  - destruct n as [|n]; [cbn in Hn; lia|].
    cbn [str_flat_map]. rewrite decode_entity. f_equal.
    apply IH. cbn in Hn. lia.
Qed.

Lemma escapeHtml_decoded (input : string) :
  decode (String.length (escapeHtml input)) (escapeHtml input) = input.
Proof.
  rewrite escapeHtml_flat_map. apply decode_enough.
  induction input as [|c s IH]; [reflexivity|].
  cbn [str_flat_map]. rewrite length_append. cbn [String.length].
  assert (1 <= String.length (entity c))%nat; [|lia].
  unfold entity. repeat (destruct (Ascii.eqb c _); [cbn; lia|]). cbn. lia.
Qed.

(** X7: escaping loses nothing: a reader that turns the four entities back
    into their characters recovers the input from the escaped text, so two
    different texts are never escaped to the same one. *)
Theorem escapeHtml_can_be_decoded (input : string) :
  decode (String.length (escapeHtml input)) (escapeHtml input) = input
  /\ forall other : string, escapeHtml other = escapeHtml input -> other = input.
Proof.
  split; [apply escapeHtml_decoded|].
  intros other H. rewrite <- (escapeHtml_decoded other), H. apply escapeHtml_decoded.
Qed.

Lemma escapeHtml_can_be_decoded_witness :
  decode (String.length (escapeHtml "R&D <sync>")) (escapeHtml "R&D <sync>") = "R&D <sync>"
  /\ escapeHtml "R&D <sync>" = "R&amp;D &lt;sync&gt;".
Proof.
  split; [exact (proj1 (escapeHtml_can_be_decoded "R&D <sync>")) | reflexivity].
Defined.

End HtmlProofs.


(** ** The observer: participant counts, repeated polls, the panel *)

Section ObserverMore.
Import Observer.

Lemma drop_while_no_digit (text : string) :
  str_forallb (fun c => negb (is_digit c)) text = true ->
  drop_while (fun c => negb (is_digit c)) text = "".
Proof.
  induction text as [|c s IH]; [reflexivity|].
  cbn [str_forallb drop_while]. intros H. apply andb_true_iff in H as [Hc Hs].
  rewrite Hc. now apply IH.
Qed.

Lemma drop_while_starts_with_digit (text : string) :
  str_forallb (fun c => negb (is_digit c)) text = false ->
  exists c rest, drop_while (fun c => negb (is_digit c)) text = String c rest
                 /\ is_digit c = true.
Proof.
  induction text as [|c s IH]; [discriminate|].
  cbn [str_forallb drop_while]. destruct (is_digit c) eqn:E; cbn [negb andb].
  - intros _. now exists c, s.
  - exact IH.
Qed.

(** X8: [parseParticipantCount] answers [null] exactly for the texts
    without a decimal digit; any text with a digit gives a number. *)
Theorem parseParticipantCount_null_iff_no_digit (text : string) :
  parseParticipantCount text = None <-> has_digit text = false.
Proof.
  unfold has_digit, parseParticipantCount.
  destruct (str_forallb (fun c => negb (is_digit c)) text) eqn:E.
  - rewrite (drop_while_no_digit _ E). now split.
  - destruct (drop_while_starts_with_digit _ E) as (c & rest & -> & Hc).
    cbn [take_while]. rewrite Hc. now split.
Qed.

Lemma drop_while_prefix (before rest : string) :
  str_forallb (fun c => negb (is_digit c)) before = true ->
  drop_while (fun c => negb (is_digit c)) (before +:+ rest)
  = drop_while (fun c => negb (is_digit c)) rest.
Proof.
  induction before as [|c s IH]; [reflexivity|].
  cbn [str_forallb]. intros H. apply andb_true_iff in H as [Hc Hs].
  rewrite append_cons. cbn [drop_while]. rewrite Hc. now apply IH.
Qed.

Lemma take_while_run (digits rest : string) :
  str_forallb is_digit digits = true ->
  match rest with
  | EmptyString => true
  | String c _ => negb (is_digit c)
  end = true ->
  take_while is_digit (digits +:+ rest) = digits.
Proof.
  intros Hd Hr. induction digits as [|c s IH].
  - rewrite append_empty. destruct rest as [|c r]; [reflexivity|].
    cbn [take_while]. now destruct (is_digit c).
  - cbn [str_forallb] in Hd. apply andb_true_iff in Hd as [Hc Hs].
    rewrite append_cons. cbn [take_while]. rewrite Hc. f_equal. now apply IH.
Qed.

(** X9: the count is read from the first run of digits of the text, and
    only from it: for a text made of a digit-free part, a run of digits and
    a rest that does not go on with a digit, the result is the number the
    run denotes, which below 2^53 is its exact decimal value. *)
Theorem parseParticipantCount_reads_first_run (before digits rest : string) :
  str_forallb (fun c => negb (is_digit c)) before = true ->
  digits <> "" ->
  str_forallb is_digit digits = true ->
  match rest with
  | EmptyString => true
  | String c _ => negb (is_digit c)
  end = true ->
  parseParticipantCount (before +:+ digits +:+ rest) = Some (Number digits)
  /\ (digits_value 0 digits < 9007199254740992 ->
      Number digits = of_Z (digits_value 0 digits)).
Proof.
  intros Hb Hne Hd Hr. split.
  - unfold parseParticipantCount. rewrite (drop_while_prefix _ _ Hb).
    destruct digits as [|c s]; [congruence|].
    cbn [str_forallb] in Hd. apply andb_true_iff in Hd as [Hc Hs].
    rewrite append_cons. cbn [drop_while]. rewrite Hc. cbn [negb].
    rewrite <- append_cons, (take_while_run (String c s) rest); [reflexivity| |exact Hr].
    cbn [str_forallb]. now rewrite Hc, Hs.
  - intros Hv. unfold Number, round_binary64.
    set (v := digits_value 0 digits) in *.
    assert (Hbits : Z.log2 v + 1 <= 53).
    { destruct (Z_lt_le_dec 0 v) as [Hpos|Hneg].
      - assert (Z.log2 v < 53); [|lia].
        apply Z.log2_lt_pow2; [exact Hpos|].
        change (2 ^ 53) with 9007199254740992. exact Hv.
      - rewrite Z.log2_nonpos; lia. }
    apply Z.leb_le in Hbits. now rewrite Hbits.
Qed.

Lemma parseParticipantCount_reads_first_run_witness :
  parseParticipantCount ("People (" +:+ "12" +:+ ") in call 3") = Some (Number "12")
  /\ (digits_value 0 "12" < 9007199254740992 -> Number "12" = of_Z (digits_value 0 "12")).
Proof.
  apply (parseParticipantCount_reads_first_run "People (" "12" ") in call 3");
    first [reflexivity | discriminate].
Defined.

Lemma poll_after_poll (page : Page) (state : State) :
  pollCallState page (fst (pollCallState page state))
  = (fst (pollCallState page state), []).
Proof.
  unfold pollCallState.
  destruct (observe page) as [[a t] n] eqn:E.
  assert (Hn : count_eq n n = true).
  { pose proof (count_eq_observed page) as H. now rewrite E in H. }
  match goal with
  | |- context [if ?b then (state, []) else _] => destruct b eqn:Hc
  end; cbn [fst].
  - now rewrite Hc.
  - cbn. now rewrite eqb_reflx, String.eqb_refl, Hn.
Qed.

(** X10: however long the page stays the same, the polls of the timer
    have the effects and the final state of the first one: the observer
    reports a change of the page once. *)
Theorem polls_report_a_change_once (n : nat) (page : Page) (state : State) :
  polls (S n) page state = pollCallState page state.
Proof.
  cbn [polls]. destruct (pollCallState page state) as [state1 effects1] eqn:E.
  assert (H : pollCallState page state1 = (state1, [])).
  { pose proof (poll_after_poll page state) as H. now rewrite E in H. }
  assert (Hn : polls n page state1 = (state1, [])).
  { clear E. induction n as [|n IH]; [reflexivity|].
    cbn [polls]. now rewrite H, IH. }
  rewrite Hn. now rewrite app_nil_r.
Qed.

End ObserverMore.

Section PanelProofs.
Import Panel.

Lemma react_renders (e : Event) (c : Script) :
  panelRoot c = renderPanel (state c) ->
  panelRoot (react e c) = renderPanel (state (react e c)).
Proof.
  intros H. destruct e; cbn [react]; try reflexivity; try exact H.
  unfold Observer.pollCallState.
  destruct (Observer.observe page) as [[a t] n].
  destruct (negb _); cbn; [exact H | reflexivity].
Qed.

Lemma run_renders (events : list Event) : forall c,
  panelRoot c = renderPanel (state c) ->
  panelRoot (run events c) = renderPanel (state (run events c)).
Proof.
  induction events as [|e events IH]; intros c H; [exact H|].
  apply (IH (react e c)), react_renders, H.
Qed.

(** X11: the panel never goes stale.  After any sequence of timer ticks,
    runtime messages and storage changes, the panel in the page is the one
    [renderPanel] draws for the current state: it is there exactly when
    the panel is enabled and a call is active or a recording is going on,
    and its buttons are those of the current recording state. *)
Theorem panel_follows_state (events : list Panel.Event) :
  let c := run events loaded in
  panelRoot c = renderPanel (state c)
  /\ (panelRoot c <> None <->
      Observer.panelEnabled (state c) = true
      /\ (Observer.callActive (state c) = true \/ Observer.recordingState (state c) <> idle))
  /\ (forall v, panelRoot c = Some v ->
        start_disabled v = negb (stop_disabled v)
        /\ (pause_disabled v = false <-> Observer.recordingState (state c) = recording)
        /\ (resume_disabled v = false <-> Observer.recordingState (state c) = paused)
        /\ (stop_disabled v = true <-> Observer.recordingState (state c) = idle)).
Proof.
  intros c. assert (H : panelRoot c = renderPanel (state c)).
  { apply run_renders. reflexivity. }
  split; [exact H|]. rewrite H. unfold renderPanel. split.
  - destruct (Observer.panelEnabled (state c)), (Observer.callActive (state c)),
      (Observer.recordingState (state c)); cbn; split;
      first [ congruence | intros [? [?|?]]; congruence | intros _; split; [reflexivity|];
              first [now left | right; discriminate] ].
  - intros v.
    destruct (Observer.panelEnabled (state c)), (Observer.callActive (state c)),
      (Observer.recordingState (state c)) eqn:R; cbn; try discriminate;
      intros [= <-]; unfold container; rewrite R; cbn; repeat split; congruence.
Qed.

Lemma panel_follows_state_witness :
  panelRoot (run [Tick standup_page; STATE_CHANGED recording true; BadgeChanged (Some false)]
               loaded) = None
  /\ exists v,
       panelRoot (run [Tick standup_page; STATE_CHANGED recording true] loaded) = Some v
       /\ pause_disabled v = false.
Proof.
  split; [reflexivity|].
  destruct (panel_follows_state [Tick standup_page; STATE_CHANGED recording true])
    as (H & _ & Hv).
  eexists. split; [reflexivity|].
  apply (Hv _ eq_refl). reflexivity.
Defined.

End PanelProofs.

(** ** Default settings *)

Section InstallProofs.
Import Install.

Lemma storage_get_lookup (keys : list string) (store : gmap string Value) (k : string) :
  storage_get keys store !! k = if decide (k ∈ keys) then store !! k else None.
Proof.
  unfold storage_get. destruct (decide (k ∈ keys)) as [Hin|Hout].
  - destruct (store !! k) as [v|] eqn:E.
    + now apply map_lookup_filter_Some.
    + apply map_lookup_filter_None. left. exact E.
  - apply map_lookup_filter_None. right. intros v _. exact Hout.
Qed.

(** The loop adds exactly the entries whose key is missing. *)
Lemma missing_lookup (current : gmap string Value) (entries : list (string * Value)) (k : string) :
  NoDup (entries.*1) ->
  missing entries current !! k
  = match current !! k with
    | Some _ => None
    | None => (list_to_map entries : gmap string Value) !! k
    end.
Proof.
  unfold missing. intros Hnd.
  assert (G : forall acc : gmap string Value,
    foldl (fun update entry =>
             match current !! entry.1 with
             | None => <[entry.1 := entry.2]> update
             | Some _ => update
             end) acc entries !! k
    = match current !! k with
      | Some _ => acc !! k
      | None => match (list_to_map entries : gmap string Value) !! k with
                | Some v => Some v
                | None => acc !! k
                end
      end).
  { induction entries as [|[key value] entries IH]; intros acc.
    - cbn [foldl]. rewrite list_to_map_nil, lookup_empty. now destruct (current !! k).
    - cbn [foldl fst snd]. apply NoDup_cons in Hnd as [Hkey Hnd].
      rewrite (IH Hnd), list_to_map_cons.
      destruct (decide (key = k)) as [->|Hne].
      + rewrite lookup_insert_eq.
        assert (Hk : (list_to_map entries : gmap string Value) !! k = None)
          by now apply not_elem_of_list_to_map.
        rewrite Hk. destruct (current !! k); [reflexivity|].
        now rewrite lookup_insert_eq.
      + rewrite (lookup_insert_ne _ key k) by exact Hne.
        destruct (current !! k); [|destruct (list_to_map entries !! k); [reflexivity|]].
        * destruct (current !! key); [reflexivity|].
          now rewrite lookup_insert_ne.
        * destruct (current !! key); [reflexivity|].
          now rewrite lookup_insert_ne. }
  rewrite G, lookup_empty.
  destruct (current !! k); [reflexivity|]. now destruct (list_to_map entries !! k).
Qed.

Lemma NoDup_DEFAULT_SETTINGS : NoDup (DEFAULT_SETTINGS.*1).
Proof. apply (bool_decide_unpack (NoDup (DEFAULT_SETTINGS.*1))). vm_compute. exact I. Qed.

Lemma update_lookup (store : gmap string Value) (k : string) :
  missing DEFAULT_SETTINGS (storage_get (DEFAULT_SETTINGS.*1) store) !! k
  = match store !! k with
    | Some _ => None
    | None => (list_to_map DEFAULT_SETTINGS : gmap string Value) !! k
    end.
Proof.
  rewrite missing_lookup by apply NoDup_DEFAULT_SETTINGS.
  rewrite storage_get_lookup.
  destruct (decide (k ∈ DEFAULT_SETTINGS.*1)) as [Hin|Hout]; [reflexivity|].
  assert (Hk : (list_to_map DEFAULT_SETTINGS : gmap string Value) !! k = None)
    by now apply not_elem_of_list_to_map.
  rewrite Hk. now destruct (store !! k).
Qed.

Lemma lookup_union_first (m1 m2 : gmap string Value) (k : string) :
  (m1 ∪ m2) !! k = match m1 !! k with Some v => Some v | None => m2 !! k end.
Proof. rewrite lookup_union. now destruct (m1 !! k), (m2 !! k). Qed.

Local Arguments storage_set : simpl never.
Local Arguments storage_get : simpl never.
Local Arguments missing : simpl never.

(** The storage after a run: each of the two writes is made as a whole or
    not at all. *)
Lemma onInstalled_store (rejects : nat -> option string) (state : Background.State) (r : Run) :
  exists filled snapshot : bool,
    store (snd (onInstalled rejects state r))
    = (if snapshot then storage_set {["runtimeState" := VState state]} else id)
        ((if filled
          then storage_set (missing DEFAULT_SETTINGS (storage_get (DEFAULT_SETTINGS.*1) (store r)))
          else id) (store r)).
Proof.
  unfold onInstalled, publishState, invoke, bind, get, try_catch, ret.
  cbn [store calls fst snd].
  repeat match goal with
         | |- context [rejects ?n] => destruct (rejects n); cbn [store calls fst snd]
         | |- context [decide ?P] => destruct (decide P); cbn [store calls fst snd]
         | |- context [Background.callTabId ?s] =>
             destruct (Background.callTabId s); cbn [store calls fst snd]
         end.
  all: first [ now exists false, false | now exists true, false
             | now exists false, true | now exists true, true ].
Qed.

Lemma runtimeState_is_no_setting : "runtimeState" ∉ DEFAULT_SETTINGS.*1.
Proof.
  apply (bool_decide_unpack ("runtimeState" ∉ DEFAULT_SETTINGS.*1)). vm_compute. exact I.
Qed.

Lemma filled_lookup (store : gmap string Value) (k : string) :
  storage_set (missing DEFAULT_SETTINGS (storage_get (DEFAULT_SETTINGS.*1) store)) store !! k
  = (store ∪ list_to_map DEFAULT_SETTINGS) !! k.
Proof.
  unfold storage_set. rewrite !lookup_union_first, update_lookup.
  destruct (store !! k); [reflexivity|].
  now destruct (list_to_map DEFAULT_SETTINGS !! k).
Qed.

Lemma run_eq (s s' : gmap string Value) (c c' : list Call) :
  s = s' -> c = c' -> {| store := s; calls := c |} = {| store := s'; calls := c' |}.
Proof. now intros -> ->. Qed.

(** A run none of whose calls is rejected. *)
Lemma onInstalled_accepted (rejects : nat -> option string) (state : Background.State) (r : Run) :
  (forall n, rejects n = None) ->
  onInstalled rejects state r
  = (Ok tt,
     {| store := {["runtimeState" := VState state]} ∪ (store r ∪ list_to_map DEFAULT_SETTINGS);
        calls := calls r
                 ++ StorageGet (DEFAULT_SETTINGS.*1)
                    :: (if decide (missing DEFAULT_SETTINGS
                                     (storage_get (DEFAULT_SETTINGS.*1) (store r)) = ∅)
                        then []
                        else [StorageSet (missing DEFAULT_SETTINGS
                                            (storage_get (DEFAULT_SETTINGS.*1) (store r)))])
                    ++ published state |}).
Proof.
  intros Hok.
  unfold onInstalled, publishState, published, invoke, bind, get, try_catch, ret, id.
  cbn [store calls fst snd].
  repeat first
    [ rewrite Hok; cbn [store calls fst snd]
    | match goal with
      | |- context [@decide ?P ?d] =>
          destruct (@decide P d) as [?Hempty|?Hsome]; cbn [store calls fst snd]
      end ]; try contradiction.
  all: destruct (Background.callTabId state); cbn [store calls fst snd];
    repeat (rewrite Hok; cbn [store calls fst snd]).
  all: apply f_equal, run_eq; [|rewrite <- ?app_assoc; reflexivity].
  all: unfold storage_set at 1; f_equal; apply map_eq; intros k.
  all: pose proof (filled_lookup (store r) k) as H.
  all: first [ exact H
             | unfold storage_set in H;
               match goal with
               | Hempty : _ = ∅ |- _ => rewrite Hempty, lookup_union_first, lookup_empty in H
               end;
               rewrite <- H; now destruct (store r !! k) ].
Qed.

(** X12: installing or updating the extension never overwrites a stored
    setting.  Whatever the platform rejects, every key other than
    [runtimeState] that had a value keeps it (the consent flag and the
    history included), and no key besides the seven settings and
    [runtimeState] is touched.  When no call is rejected, each of the seven
    settings that had no value has its default and [runtimeState] holds
    the published state. *)
Theorem onInstalled_fills_only_missing_settings
    (rejects : nat -> option string) (state : Background.State) (r : Install.Run) :
  (forall k v, k <> "runtimeState" -> store r !! k = Some v ->
     store (snd (onInstalled rejects state r)) !! k = Some v)
  /\ (forall k, k ∉ DEFAULT_SETTINGS.*1 -> k <> "runtimeState" ->
        store (snd (onInstalled rejects state r)) !! k = store r !! k)
  /\ ((forall n, rejects n = None) ->
      fst (onInstalled rejects state r) = Ok tt
      /\ store (snd (onInstalled rejects state r))
         = {["runtimeState" := VState state]} ∪ (store r ∪ list_to_map DEFAULT_SETTINGS)
      /\ (forall k v, (k, v) ∈ DEFAULT_SETTINGS -> store r !! k = None ->
            store (snd (onInstalled rejects state r)) !! k = Some v)
      /\ store (snd (onInstalled rejects state r)) !! "runtimeState" = Some (VState state)).
Proof.
  split; [|split].
  - intros k v Hk Hv.
    destruct (onInstalled_store rejects state r) as (filled & snapshot & ->).
    assert (Hin : (if filled
                   then storage_set (missing DEFAULT_SETTINGS
                                       (storage_get (DEFAULT_SETTINGS.*1) (store r)))
                   else id) (store r) !! k = Some v).
    { destruct filled; [|exact Hv]. rewrite filled_lookup, lookup_union_first. now rewrite Hv. }
    destruct snapshot; [|exact Hin].
    unfold storage_set at 1. rewrite lookup_union_first, lookup_singleton_ne by congruence.
    exact Hin.
  - intros k Hout Hk.
    destruct (onInstalled_store rejects state r) as (filled & snapshot & ->).
    assert (Hin : (if filled
                   then storage_set (missing DEFAULT_SETTINGS
                                       (storage_get (DEFAULT_SETTINGS.*1) (store r)))
                   else id) (store r) !! k = store r !! k).
    { destruct filled; [|reflexivity]. rewrite filled_lookup, lookup_union_first.
      destruct (store r !! k); [reflexivity|]. now apply not_elem_of_list_to_map. }
    destruct snapshot; [|exact Hin].
    unfold storage_set at 1. rewrite lookup_union_first, lookup_singleton_ne by congruence.
    exact Hin.
  - intros Hok. rewrite (onInstalled_accepted rejects state r Hok). cbn [fst snd store].
    split; [reflexivity|]. split; [reflexivity|]. split.
    + intros k v Hin Hnone.
      assert (Hk : "runtimeState" <> k).
      { intros <-. apply runtimeState_is_no_setting.
        apply list_elem_of_fmap. exists ("runtimeState", v). split; [reflexivity | exact Hin]. }
      rewrite lookup_union_first, lookup_singleton_ne by exact Hk.
      rewrite lookup_union_first, Hnone.
      apply elem_of_list_to_map; [apply NoDup_DEFAULT_SETTINGS | exact Hin].
    + now rewrite lookup_union_first, lookup_singleton_eq.
Qed.

Lemma onInstalled_fills_only_missing_settings_witness :
  store (snd (onInstalled (fun _ => None) Background.initial_state
                {| store := {["consentAccepted" := VBool true]}; calls := [] |}))
  !! "consentAccepted" = Some (VBool true)
  /\ store (snd (onInstalled (fun _ => None) Background.initial_state
                   {| store := {["consentAccepted" := VBool true]}; calls := [] |}))
     !! "format" = Some (VString "webm")
  /\ store (snd (onInstalled (fun _ => None) Background.initial_state
                   {| store := {["consentAccepted" := VBool true]}; calls := [] |}))
     !! "runtimeState" = Some (VState Background.initial_state).
Proof.
  destruct (onInstalled_fills_only_missing_settings (fun _ => None) Background.initial_state
              {| store := {["consentAccepted" := VBool true]}; calls := [] |})
    as (Hkept & _ & Hok).
  destruct (Hok (fun n => eq_refl)) as (_ & _ & Hfilled & Hstate).
  split; [|split].
  - apply Hkept; [discriminate | reflexivity].
  - apply Hfilled; [|reflexivity].
    unfold DEFAULT_SETTINGS. constructor 2. constructor 1.
  - exact Hstate.
Defined.

(** X13: run again, the listener finds no setting to add.  When no call is
    rejected, a second run of the listener calls
    [chrome.storage.local.set] for the [runtimeState] snapshot of
    [publishState] only: its calls are the read of the settings and those
    of [publishState], and the storage is left as the first run left
    it. *)
Theorem onInstalled_twice_writes_only_the_snapshot
    (rejects : nat -> option string) (state : Background.State) (r : Install.Run) :
  (forall n, rejects n = None) ->
  store (snd (onInstalled rejects state (snd (onInstalled rejects state r))))
  = store (snd (onInstalled rejects state r))
  /\ calls (snd (onInstalled rejects state (snd (onInstalled rejects state r))))
     = calls (snd (onInstalled rejects state r))
       ++ StorageGet (DEFAULT_SETTINGS.*1) :: published state.
Proof.
  intros Hok.
  rewrite (onInstalled_accepted rejects state r Hok). cbn [snd].
  rewrite (onInstalled_accepted rejects state _ Hok). cbn [snd store calls].
  set (store1 := {["runtimeState" := VState state]} ∪ (store r ∪ list_to_map DEFAULT_SETTINGS)).
  assert (Hfull : missing DEFAULT_SETTINGS (storage_get (DEFAULT_SETTINGS.*1) store1) = ∅).
  { apply map_eq. intros k. rewrite update_lookup, lookup_empty.
    destruct (store1 !! k) eqn:E; [reflexivity|].
    unfold store1 in E. rewrite lookup_union_first in E.
    destruct ({["runtimeState" := VState state]} !! k); [discriminate|].
    rewrite lookup_union_first in E.
    destruct (store r !! k); [discriminate | now rewrite E]. }
  split.
  - apply map_eq. intros k. rewrite lookup_union_first.
    destruct (decide ("runtimeState" = k)) as [<-|Hk].
    + rewrite lookup_singleton_eq. unfold store1.
      now rewrite lookup_union_first, lookup_singleton_eq.
    + rewrite lookup_singleton_ne by exact Hk.
      rewrite lookup_union_first.
      destruct (store1 !! k) eqn:E; [reflexivity|].
      pose proof (f_equal (fun m : gmap string Value => m !! k) Hfull) as H.
      cbn beta in H. rewrite update_lookup, E, lookup_empty in H. exact H.
  - match goal with
    | |- context [@decide (?m = ∅) ?d] =>
        lazymatch m with
        | context [store1] => destruct (@decide (m = ∅) d) as [_|Hne]
        end
    end; [reflexivity | contradiction].
Qed.

Lemma onInstalled_twice_writes_only_the_snapshot_witness :
  calls (snd (onInstalled (fun _ => None) Background.initial_state
                (snd (onInstalled (fun _ => None) Background.initial_state
                        {| store := ∅; calls := [] |}))))
  = calls (snd (onInstalled (fun _ => None) Background.initial_state
                  {| store := ∅; calls := [] |}))
    ++ [StorageGet (DEFAULT_SETTINGS.*1); SetBadgeText ""; SetBadgeBackgroundColor "#7a7a7a";
        StorageSet {["runtimeState" := VState Background.initial_state]}].
Proof.
  apply (onInstalled_twice_writes_only_the_snapshot (fun _ => None) Background.initial_state
           {| store := ∅; calls := [] |}).
  intros n. reflexivity.
Defined.

End InstallProofs.


(** ** The capture worker: stop, start and finalize *)

Section WorkerProofs.
Import Offscreen.

Lemma cleanup_events (env : Env) (w : Worker) :
  exists w' evs,
    cleanup env w = (Ok tt, w')
    /\ released (globals w')
    /\ activeFormat (globals w') = activeFormat (globals w)
    /\ trace w' = trace w ++ evs
    /\ forallb is_release evs = true.
Proof.
  unfold cleanup, stop_tracks, bind, getg, emit, modg, try_catch, call, ret.
  cbn.
  destruct (tabStream (globals w)), (micStream (globals w)),
    (mixedStream (globals w)), (audioContext (globals w)); cbn.
  all: repeat match goal with
              | |- context [fails ?e ?api ?n] => destruct (fails e api n); cbn
              end.
  all: rewrite <- ?app_assoc; do 2 eexists; split; [reflexivity|];
    split; [repeat split|]; split; [reflexivity|];
    split; [first [reflexivity | symmetry; apply app_nil_r]|]; reflexivity.
Qed.

(** X14: when the recorder has stopped, the worker always ends with
    nothing allocated: streams, audio context, recorder and chunks are
    released whether or not the conversion, the data URL or the message to
    the coordinator fails. *)
Theorem onstop_always_releases (env : Env) (w : Worker) :
  released (globals (snd (onstop env w))).
Proof.
  unfold onstop, try_finally.
  match goal with
  | |- context [match ?m w with _ => _ end] => destruct (m w) as [r w1]
  end.
  destruct (cleanup_releases env w1) as (w2 & E & R). rewrite E. exact R.
Qed.



(** X16: a start that needs the tab audio ([sourceMode] is both or system,
    or absent) and carries no stream id fails with the error of the source
    before any device is asked for, and nothing is allocated. *)
Theorem start_without_stream_id_fails (env : Env) (payload : Payload) (w : Worker) :
  includeSystem (sourceMode payload) = true ->
  no_stream_id (streamId payload) = true ->
  exists w' evs,
    onMessage env (OFFSCREEN_START payload) w
    = ({| ok := false; error := "System audio capture is unavailable for this tab." |}, w')
    /\ released (globals w')
    /\ trace w' = trace w ++ evs
    /\ forallb is_release evs = true.
Proof.
  unfold includeSystem. intros Hsys Hid.
  destruct (cleanup_events env w) as (w1 & evs & E & R & _ & T & F).
  unfold onMessage, handle, startCapture.
  rewrite Hsys, Hid. cbn [when].
  unfold bind at 1. rewrite E.
  unfold bind, modg, throw. cbn.
  exists {| globals := set_activeFormat (str_or (format payload) "webm") (globals w1);
            clock := clock w1; trace := trace w1 |}, evs.
  split; [reflexivity|]. split; [|split; [exact T | exact F]].
  unfold released in *. cbn. tauto.
Qed.

Lemma start_without_stream_id_fails_witness :
  exists w' evs,
    onMessage quiet
      (OFFSCREEN_START {| streamId := None; sourceMode := ""; format := "wav";
                          beepOnStart := true;
                          metadata := {| startedAt := None; meta_meetingTitle := "Standup";
                                         meta_participantCount := None |} |}) initial
    = ({| ok := false; error := "System audio capture is unavailable for this tab." |}, w')
    /\ released (globals w')
    /\ trace w' = trace initial ++ evs
    /\ forallb is_release evs = true.
Proof.
  apply (start_without_stream_id_fails quiet
           {| streamId := None; sourceMode := ""; format := "wav"; beepOnStart := true;
              metadata := {| startedAt := None; meta_meetingTitle := "Standup";
                             meta_participantCount := None |} |} initial);
    reflexivity.
Defined.

End WorkerProofs.


Section WorkerStart.
Import Offscreen.




(** A start for which every device and audio call is answered: the
    recorder runs, on the streams the source mode asks for. *)
Lemma capture_starts (env : Env) (payload : Payload) (w : Worker) :
  capture_works env ->
  (forall n, fails env getUserMedia_mic n = None) ->
  (includeSystem (sourceMode payload) = true -> no_stream_id (streamId payload) = false) ->
  exists w' mime,
    onMessage env (OFFSCREEN_START payload) w = ({| ok := true; error := "" |}, w')
    /\ mediaRecorder (globals w') = Some {| state := rec_recording; mimeType := mime |}
    /\ chunks (globals w') = []
    /\ activeFormat (globals w') = str_or (format payload) "webm"
    /\ (if includeSystem (sourceMode payload)
        then tabStream (globals w') <> None else tabStream (globals w') = None)
    /\ (if includeMic (sourceMode payload)
        then micStream (globals w') <> None else micStream (globals w') = None).
Proof.
  intros Hw Hmic Hid.
  destruct (cleanup_events env w) as (w1 & evs & E & R & _ & T & F).
  destruct R as (_ & _ & Rtab & Rmic & _).
  unfold onMessage, handle, startCapture, includeSystem, includeMic in *.
  unfold bind at 1. rewrite E.
  destruct (String.eqb (str_or (sourceMode payload) "both") "both"),
    (String.eqb (str_or (sourceMode payload) "both") "system"),
    (String.eqb (str_or (sourceMode payload) "both") "mic").
  all: cbn [orb negb when] in *.
  all: try rewrite (Hid eq_refl).
  all: unfold bind, modg, ret, try_catch, request, call, ask, getg, throw, when, emit; cbn.
  all: repeat match goal with
              | |- context [tabStream (globals ?x)] => rewrite Rtab; cbn
              | |- context [micStream (globals ?x)] => rewrite Rmic; cbn
              | |- context [fails _ getUserMedia_mic ?n] => rewrite (Hmic n); cbn
              | |- context [fails ?e context_resume ?n] =>
                  destruct (fails e context_resume n); cbn
              | |- context [context_suspended ?e ?n] =>
                  destruct (context_suspended e n); cbn
              | |- context [fails _ ?api ?n] =>
                  let H1 := fresh in let H2 := fresh in let H3 := fresh in let H4 := fresh in
                  let H5 := fresh in let H6 := fresh in let H7 := fresh in
                  destruct (Hw n) as (H1 & H2 & H3 & H4 & H5 & H6 & H7 & _);
                  rewrite ?H1, ?H2, ?H3, ?H4, ?H5, ?H6, ?H7;
                  clear H1 H2 H3 H4 H5 H6 H7; cbn
              | |- context [(audio_track_count ?e ?n =? 0)%nat] =>
                  let Ht := fresh in
                  destruct (Nat.eqb_spec (audio_track_count e n) 0) as [Ht|_];
                  [exfalso;
                   exact (proj2 (proj2 (proj2 (proj2 (proj2 (proj2 (proj2 (Hw n))))))) Ht)|];
                  cbn
              | |- context [beepOnStart ?p] => destruct (beepOnStart p); cbn
              end.
  all: do 2 eexists; split; [reflexivity|]; cbn; rewrite ?Rtab, ?Rmic;
    repeat split; first [reflexivity | discriminate].
Qed.

End WorkerStart.


Section WorkerFinalize.
Import Offscreen.

Local Arguments cleanup : simpl never.

Lemma audioBufferToWavBlob_type (maxByteLength : nat) (buffer : Wav.AudioBuffer) (blob : Blob) :
  Wav.audioBufferToWavBlob maxByteLength buffer = Ok blob -> blob_type blob = "audio/wav".
Proof.
  unfold Wav.audioBufferToWavBlob.
  destruct (_ <? _)%nat; [discriminate|].
  match goal with
  | |- context [match ?m ?s with _ => _ end] => destruct (m s) as [[u|e] wr]
  end; [|discriminate].
  now intros [= <-].
Qed.

Lemma convertWebmToWav_type (env : Env) (webmBlob wavBlob : Blob) (w w' : Worker) :
  convertWebmToWav env webmBlob w = (Ok wavBlob, w') -> blob_type wavBlob = "audio/wav".
Proof.
  unfold convertWebmToWav, bind, request, call, lift. cbn.
  repeat match goal with
         | |- context [fails ?e ?api ?n] => destruct (fails e api n); cbn
         end; try discriminate.
  destruct (Wav.audioBufferToWavBlob _ _) as [b|e] eqn:Eb; [|discriminate].
  intros [= <- _]. exact (audioBufferToWavBlob_type _ _ _ Eb).
Qed.

(** X18: as long as the data URL can be read, [finalize] does not fail,
    whatever goes wrong in the conversion, and the format it reports is
    the format of the data it delivers: "wav" only when WAV was asked for
    and the data is the encoder's blob, "webm" with the recorded blob
    otherwise. *)
Theorem finalize_reports_the_format_it_delivers
    (env : Env) (blob : Blob) (format : string) (w : Worker) :
  (forall n, fails env reader_readAsDataURL n = None) ->
  exists f w',
    finalize env blob format w = (Ok f, w')
    /\ ((fin_format f = "wav" /\ format = "wav"
         /\ exists wavBlob, blob_type wavBlob = "audio/wav"
                            /\ blobDataUrl f = data_url env wavBlob)
        \/ (fin_format f = "webm" /\ blobDataUrl f = data_url env blob)).
Proof.
  intros Hr. unfold finalize.
  destruct (String.eqb_spec format "wav") as [->|Hne].
  - unfold try_catch, bind at 1.
    destruct (convertWebmToWav env blob w) as [[wavBlob|e] w1] eqn:C.
    + unfold bind, blobToDataUrl, request, ret. rewrite (Hr (clock w1)).
      do 2 eexists. split; [reflexivity|]. left. cbn.
      split; [reflexivity|]. split; [reflexivity|].
      exists wavBlob. split; [exact (convertWebmToWav_type _ _ _ _ _ C) | reflexivity].
    + unfold bind, blobToDataUrl, request, ret. rewrite (Hr (clock w1)).
      do 2 eexists. split; [reflexivity|]. right. now cbn.
  - assert (G : exists f w',
        (url <- blobToDataUrl env blob ;; ret {| fin_format := "webm"; blobDataUrl := url |}) w
        = (Ok f, w')
        /\ fin_format f = "webm" /\ blobDataUrl f = data_url env blob).
    { unfold bind, blobToDataUrl, request, ret. rewrite (Hr (clock w)).
      do 2 eexists. split; [reflexivity|]. now cbn. }
    destruct G as (f & w' & E & G).
    exists f, w'. split; [|now right].
    destruct (String.eqb format "mp3"); exact E.
Qed.

Lemma finalize_reports_the_format_it_delivers_witness :
  exists f w',
    finalize quiet {| blob_bytes := [26; 69; 223; 163]; blob_type := "audio/webm" |} "mp3" initial
    = (Ok f, w')
    /\ ((fin_format f = "wav" /\ "mp3" = "wav"
         /\ exists wavBlob, blob_type wavBlob = "audio/wav"
                            /\ blobDataUrl f = data_url quiet wavBlob)
        \/ (fin_format f = "webm"
            /\ blobDataUrl f
               = data_url quiet {| blob_bytes := [26; 69; 223; 163]; blob_type := "audio/webm" |})).
Proof.
  apply (finalize_reports_the_format_it_delivers quiet
           {| blob_bytes := [26; 69; 223; 163]; blob_type := "audio/webm" |} "mp3" initial).
  intros n. reflexivity.
Defined.

(** X19: when WAV is asked for and decoding works, what [finalize]
    delivers is the data URL of the encoder's output for the decoded
    audio: the 44-byte header followed by the interleaved 16-bit samples,
    typed "audio/wav". *)
Theorem finalize_wav_delivers_the_encoded_audio (env : Env) (blob : Blob) (w : Worker) :
  decoding_works env ->
  (forall n, fails env reader_readAsDataURL n = None) ->
  (44 + Wav.dataSize (decoded_audio env (S (S (clock w)))) <= maxByteLength env)%nat ->
  exists w',
    finalize env blob "wav" w
    = (Ok {| fin_format := "wav";
             blobDataUrl :=
               data_url env
                 {| blob_bytes :=
                      Wav.header
                        (36 + Z.of_nat (Wav.dataSize (decoded_audio env (S (S (clock w))))))
                        (Z.of_nat (Wav.channels (decoded_audio env (S (S (clock w))))))
                        (Wav.sampleRate (decoded_audio env (S (S (clock w)))))
                        (Wav.sampleRate (decoded_audio env (S (S (clock w))))
                         * Z.of_nat (Wav.blockAlign (decoded_audio env (S (S (clock w))))))
                        (Z.of_nat (Wav.blockAlign (decoded_audio env (S (S (clock w))))))
                        16
                        (Z.of_nat (Wav.dataSize (decoded_audio env (S (S (clock w))))))
                      ++ Wav.pcm (decoded_audio env (S (S (clock w))));
                    blob_type := "audio/wav" |} |}, w')
    /\ trace w' = trace w ++ [NewAudioContext; ArrayBuffer blob; DecodeAudioData;
                              CloseContext (media_stream env (clock w));
                              ReadAsDataURL
                                {| blob_bytes :=
                      Wav.header
                        (36 + Z.of_nat (Wav.dataSize (decoded_audio env (S (S (clock w))))))
                        (Z.of_nat (Wav.channels (decoded_audio env (S (S (clock w))))))
                        (Wav.sampleRate (decoded_audio env (S (S (clock w)))))
                        (Wav.sampleRate (decoded_audio env (S (S (clock w))))
                         * Z.of_nat (Wav.blockAlign (decoded_audio env (S (S (clock w))))))
                        (Z.of_nat (Wav.blockAlign (decoded_audio env (S (S (clock w))))))
                        16
                        (Z.of_nat (Wav.dataSize (decoded_audio env (S (S (clock w))))))
                      ++ Wav.pcm (decoded_audio env (S (S (clock w))));
                    blob_type := "audio/wav" |}].
Proof.
  intros Hd Hr Halloc.
  unfold finalize. rewrite String.eqb_refl.
  unfold try_catch, convertWebmToWav, blobToDataUrl, bind, request, call, lift, ret. cbn.
  destruct (Hd (clock w)) as (-> & _ & _ & _). cbn.
  destruct (Hd (S (clock w))) as (_ & -> & _ & _). cbn.
  destruct (Hd (S (S (clock w)))) as (_ & _ & -> & _). cbn.
  destruct (Hd (S (S (S (clock w))))) as (_ & _ & _ & ->). cbn.
  rewrite (audioBufferToWavBlob_bytes _ _ Halloc). cbn.
  rewrite Hr. cbn. eexists. split; [reflexivity|]. cbn.
  now rewrite <- !app_assoc.
Qed.

Lemma decoding_works_quiet : decoding_works quiet.
Proof. intros n. repeat split. Qed.

Lemma finalize_wav_delivers_the_encoded_audio_witness :
  exists w',
    fst (finalize quiet {| blob_bytes := [26; 69; 223; 163]; blob_type := "audio/webm" |}
           "wav" initial)
    = Ok {| fin_format := "wav";
            blobDataUrl :=
              data_url quiet
                {| blob_bytes := Wav.header 36 1 48000 96000 2 16 0 ++ Wav.pcm silence;
                   blob_type := "audio/wav" |} |}
    /\ w' = snd (finalize quiet {| blob_bytes := [26; 69; 223; 163]; blob_type := "audio/webm" |}
                   "wav" initial).
Proof.
  destruct (finalize_wav_delivers_the_encoded_audio quiet
              {| blob_bytes := [26; 69; 223; 163]; blob_type := "audio/webm" |} initial
              decoding_works_quiet (fun n => eq_refl)) as (w' & E & _).
  - vm_compute. lia.
  - exists w'. rewrite E. split; reflexivity.
Defined.

(** The chunks the recorder delivers are buffered in order, and nothing
    else in the worker changes. *)
Lemma delivered_spec (ds : list Blob) : forall (w : Worker) (type : string),
  blob_bytes (Blob_of (chunks (globals (delivered ds w))) type)
  = blob_bytes (Blob_of (chunks (globals w)) type) ++ concat (map blob_bytes ds)
  /\ set_chunks (chunks (globals w)) (globals (delivered ds w)) = globals w
  /\ trace (delivered ds w) = trace w
  /\ clock (delivered ds w) = clock w.
Proof.
  induction ds as [|d ds IH]; intros w type.
  - cbn. rewrite app_nil_r. repeat split. now destruct (globals w).
  - change (delivered (d :: ds) w) with (delivered ds (snd (ondataavailable d w))).
    destruct (IH (snd (ondataavailable d w)) type) as (Hb & Hg & Ht & Hc).
    rewrite Hb, Ht, Hc. clear Hb Ht Hc IH.
    revert Hg. generalize (globals (delivered ds (snd (ondataavailable d w)))).
    unfold ondataavailable, when, Blob_of, modg. cbn [map concat blob_bytes].
    destruct (blob_bytes d) as [|b bs] eqn:Ed; cbn; intros g Hg.
    + repeat split. exact Hg.
    + rewrite map_app, concat_app. cbn. rewrite Ed, app_nil_r, <- app_assoc.
      split; [reflexivity|]. split; [|split; reflexivity].
      destruct g, (globals w); cbn in *. now injection Hg as -> -> -> -> -> -> ->.
Qed.

(** X20: the recording the worker sends when the recorder stops holds
    every chunk of the session: for a session that did not ask for WAV, the
    RECORDING_FINALIZED message carries the data URL of the blob made of
    all delivered chunks in order, typed as the recorder, and after it the
    worker only releases its resources. *)
Theorem stop_finalizes_every_delivered_chunk
    (env : Env) (ds : list Blob) (w : Worker) (r : MediaRecorder) :
  mediaRecorder (globals w) = Some r ->
  chunks (globals w) = [] ->
  String.eqb (activeFormat (globals w)) "wav" = false ->
  (forall n, fails env reader_readAsDataURL n = None) ->
  (forall n, fails env worker_sendMessage n = None) ->
  exists w' evs,
    onstop env (delivered ds w) = (Ok tt, w')
    /\ released (globals w')
    /\ trace w'
       = trace w
         ++ [ReadAsDataURL {| blob_bytes := concat (map blob_bytes ds);
                              blob_type := str_or (mimeType r) "audio/webm" |};
             RECORDING_FINALIZED
               {| fin_format := "webm";
                  blobDataUrl :=
                    data_url env {| blob_bytes := concat (map blob_bytes ds);
                                    blob_type := str_or (mimeType r) "audio/webm" |} |}]
         ++ evs
    /\ forallb is_release evs = true.
Proof.
  intros Hrec Hchunks Hfmt Hr Hs.
  destruct (delivered_spec ds w (str_or (mimeType r) "audio/webm")) as (Hb & Hg & Ht & Hc).
  assert (Hrec' : mediaRecorder (globals (delivered ds w)) = Some r).
  { rewrite <- Hrec. exact (f_equal mediaRecorder Hg). }
  assert (Hfmt' : activeFormat (globals (delivered ds w)) = activeFormat (globals w)).
  { exact (f_equal activeFormat Hg). }
  rewrite Hchunks in Hb. cbn in Hb.
  unfold onstop, try_finally, bind at 1, getg.
  rewrite Hrec', Hfmt'. unfold Blob_of. rewrite Hb.
  unfold finalize. rewrite Hfmt.
  destruct (String.eqb (activeFormat (globals w)) "mp3").
  all: unfold bind, blobToDataUrl, request, call, ret; cbn.
  all: rewrite Hr; cbn; rewrite Hs; cbn.
  all: match goal with
       | |- context [cleanup ?e ?w1] =>
           destruct (cleanup_events e w1) as (w2 & evs & -> & R & _ & T & F)
       end.
  all: exists w2, evs; split; [reflexivity|]; split; [exact R|]; split; [|exact F].
  all: rewrite T; cbn; rewrite Ht, <- !app_assoc; reflexivity.
Qed.

Lemma stop_finalizes_every_delivered_chunk_witness :
  exists w' evs,
    onstop quiet
      (delivered [ {| blob_bytes := [26; 69]; blob_type := "audio/webm" |};
                   {| blob_bytes := []; blob_type := "audio/webm" |};
                   {| blob_bytes := [223; 163]; blob_type := "audio/webm" |} ]
         {| globals := set_mediaRecorder
                         (Some {| state := inactive; mimeType := "audio/webm;codecs=opus" |})
                         (globals initial);
            clock := 0; trace := [] |})
    = (Ok tt, w')
    /\ released (globals w')
    /\ trace w'
       = [] ++ [ReadAsDataURL {| blob_bytes := [26; 69; 223; 163];
                                 blob_type := "audio/webm;codecs=opus" |};
                RECORDING_FINALIZED
                  {| fin_format := "webm";
                     blobDataUrl :=
                       data_url quiet {| blob_bytes := [26; 69; 223; 163];
                                         blob_type := "audio/webm;codecs=opus" |} |}]
         ++ evs
    /\ forallb is_release evs = true.
Proof.
  apply (stop_finalizes_every_delivered_chunk quiet
           [ {| blob_bytes := [26; 69]; blob_type := "audio/webm" |};
             {| blob_bytes := []; blob_type := "audio/webm" |};
             {| blob_bytes := [223; 163]; blob_type := "audio/webm" |} ]
           {| globals := set_mediaRecorder
                           (Some {| state := inactive; mimeType := "audio/webm;codecs=opus" |})
                           (globals initial);
              clock := 0; trace := [] |}
           {| state := inactive; mimeType := "audio/webm;codecs=opus" |});
    first [reflexivity | intros n; reflexivity].
Defined.

End WorkerFinalize.


(** ** The coordinator: refused starts, stop, pause and resume, the end of
    a call, the history *)

Section CoordinatorMore.
Import Background.

Local Arguments publishState : simpl never.
Local Arguments makeFilename : simpl never.
Local Arguments Offscreen.onMessage : simpl never.
Local Arguments broadcast : simpl never.

Lemma trace_ends_with {E} (t before l last : list E) :
  before = t ++ l -> exists evs, before ++ last = t ++ evs ++ last.
Proof. intros ->. exists l. now rewrite app_assoc. Qed.

(** The [catch] of the listener: [lastError] is set and the state is
    published, which changes nothing else. *)
Ltac listener_catch :=
  unfold mod_state, modg; cbn;
  match goal with
  | |- context [publishState ?e ?c1] =>
      let r := fresh "r" in
      let c2 := fresh "c" in
      destruct (publishState_frame e c1) as (?Hstate & ?Hoff & ?Hrecs & ?Hnotes);
      destruct (publishState e c1) as [r c2]
  end; cbn in *.

(** X21: a START_RECORDING request that arrives while a recording is
    going on or paused (consent given, settings readable) is refused with
    the error of the source; nothing but [lastError] changes in the state,
    and the worker, the stored notes and the history stay as they are. *)
Theorem start_while_busy_is_refused
    (env : Env) (notes' : string) (tab : option Z) (c : Coordinator) :
  fails env storage_get_settings (clock c) = None ->
  consentAccepted (storage (globals c)) = true ->
  recordingState (state (globals c)) <> idle ->
  let after := onMessage env (Some (START_RECORDING notes')) tab c in
  fst after = Some (Failure "Recording already in progress.")
  /\ state (globals (snd after))
     = set_lastError "Recording already in progress." (state (globals c))
  /\ offscreen (globals (snd after)) = offscreen (globals c)
  /\ recordings (storage (globals (snd after))) = recordings (storage (globals c))
  /\ notes (storage (globals (snd after))) = notes (storage (globals c)).
Proof.
  intros Hget Hconsent Hbusy after. subst after.
  unfold onMessage, handleMessage, startRecording, bind, call, get_storage, get_state,
    getg, ret, throw.
  rewrite Hget. cbn. rewrite Hconsent. cbn.
  destruct (recordingState (state (globals c))) eqn:Hs; [congruence | |]; cbn.
  all: listener_catch.
  all: auto.
Qed.

Lemma start_while_busy_is_refused_witness :
  fst (onMessage quiet (Some (START_RECORDING "again")) (Some 7) while_recording)
  = Some (Failure "Recording already in progress.")
  /\ state (globals (snd (onMessage quiet (Some (START_RECORDING "again")) (Some 7)
                            while_recording)))
     = set_lastError "Recording already in progress." (state (globals while_recording))
  /\ offscreen (globals (snd (onMessage quiet (Some (START_RECORDING "again")) (Some 7)
                                while_recording)))
     = offscreen (globals while_recording)
  /\ recordings (storage (globals (snd (onMessage quiet (Some (START_RECORDING "again"))
                                          (Some 7) while_recording))))
     = recordings (storage (globals while_recording))
  /\ notes (storage (globals (snd (onMessage quiet (Some (START_RECORDING "again")) (Some 7)
                                     while_recording))))
     = notes (storage (globals while_recording)).
Proof.
  apply (start_while_busy_is_refused quiet "again" (Some 7) while_recording).
  - reflexivity.
  - vm_compute. reflexivity.
  - vm_compute. discriminate.
Defined.

(** X22: a START_RECORDING request for which no Teams tab is known (none
    was reported by an observer, and the tab query finds none) is refused
    with the error of the source before anything is allocated: the state
    changes in [lastError] only, no offscreen document is created. *)
Theorem start_without_tab_is_refused
    (env : Env) (notes' : string) (tab : option Z) (c : Coordinator) :
  fails env storage_get_settings (clock c) = None ->
  fails env tabs_query (S (clock c)) = None ->
  consentAccepted (storage (globals c)) = true ->
  recordingState (state (globals c)) = idle ->
  callTabId (state (globals c)) = None ->
  query_result env (S (clock c)) = [] ->
  let after := onMessage env (Some (START_RECORDING notes')) tab c in
  fst after = Some (Failure "No active Teams call tab found.")
  /\ state (globals (snd after))
     = set_lastError "No active Teams call tab found." (state (globals c))
  /\ offscreen (globals (snd after)) = offscreen (globals c)
  /\ notes (storage (globals (snd after))) = notes (storage (globals c)).
Proof.
  intros Hget Hquery Hconsent Hidle Htab Hnone after. subst after.
  unfold onMessage, handleMessage, startRecording, resolveTeamsTabId.
  unfold bind, call, request, get_storage, get_state, getg, ret, throw.
  rewrite Hget. cbn. rewrite Hconsent. cbn. rewrite Hidle. cbn. rewrite Htab. cbn.
  rewrite Hquery. cbn. rewrite Hnone. cbn.
  listener_catch. auto.
Qed.

Lemma start_without_tab_is_refused_witness :
  fst (onMessage no_teams_tab (Some (START_RECORDING "")) None (fresh true "both"))
  = Some (Failure "No active Teams call tab found.")
  /\ state (globals (snd (onMessage no_teams_tab (Some (START_RECORDING "")) None
                            (fresh true "both"))))
     = set_lastError "No active Teams call tab found." (state (globals (fresh true "both")))
  /\ offscreen (globals (snd (onMessage no_teams_tab (Some (START_RECORDING "")) None
                                (fresh true "both"))))
     = offscreen (globals (fresh true "both"))
  /\ notes (storage (globals (snd (onMessage no_teams_tab (Some (START_RECORDING ""))
                                     None (fresh true "both")))))
     = notes (storage (globals (fresh true "both"))).
Proof.
  apply (start_without_tab_is_refused no_teams_tab "" None (fresh true "both"));
    reflexivity.
Defined.

(** X23: when the message to the worker cannot be delivered,
    [startRecording] rolls back: the request fails with the error of the
    channel, the state is Idle again with no start time and no file name,
    [lastError] holds the error, and that state is what is published
    last.  The notes written before the attempt stay stored, and the
    worker, if there is one, has not been touched. *)
Theorem start_rolls_back_when_the_worker_is_unreachable
    (env : Env) (notes' : string) (sender_tab : option Z) (c : Coordinator)
    (tab : Z) (e : string) :
  start_prepares env ->
  (forall n, fails env runtime_sendMessage n = Some e) ->
  consentAccepted (storage (globals c)) = true ->
  recordingState (state (globals c)) = idle ->
  callTabId (state (globals c)) = Some tab ->
  tab <> 0 ->
  let after := onMessage env (Some (START_RECORDING notes')) sender_tab c in
  let final :=
    {| callActive := callActive (state (globals c));
       callTabId := Some tab;
       callTitle := callTitle (state (globals c));
       participantCount := participantCount (state (globals c));
       recordingState := idle;
       recordingStartedAt := None;
       lastError := str_or e "Error";
       currentFilename := "";
       latestDownloadId := latestDownloadId (state (globals c)) |} in
  fst after = Some (Failure (str_or e "Error"))
  /\ state (globals (snd after)) = final
  /\ notes (storage (globals (snd after))) = notes'
  /\ offscreen (globals (snd after))
     = Some (default Offscreen.initial (offscreen (globals c)))
  /\ exists evs, trace (snd after) = trace c ++ evs ++ broadcast final.
Proof.
  intros [Hbadge Hcalls] Hsend Hconsent Hidle Htab Hnz after final. subst after final.
  unfold onMessage, handleMessage, startRecording, resolveTeamsTabId, ensureOffscreenDocument.
  unfold bind, call, request, ask, get_state, get_storage, getg, mod_state, mod_storage,
    set_offscreen, modg, ret, throw, try_catch.
  destruct (Hcalls (clock c)) as (-> & _). cbn.
  rewrite Hconsent. cbn. rewrite Hidle. cbn. rewrite Htab. cbn.
  destruct (Z.eqb_spec tab 0) as [|_]; [contradiction|].
  destruct (String.eqb (str_or (sourceMode (storage (globals c))) "both") "mic"); cbn.
  2: destruct (Hcalls (S (clock c))) as (_ & -> & _); cbn.
  all: repeat match goal with
              | |- context [fails _ runtime_getContexts ?n] =>
                  destruct (Hcalls n) as (_ & _ & -> & _); cbn
              end.
  all: destruct (offscreen (globals c)) as [w0|] eqn:Hoff; cbn.
  all: repeat match goal with
              | |- context [fails _ offscreen_createDocument ?n] =>
                  destruct (Hcalls n) as (_ & _ & _ & -> & _); cbn
              | |- context [fails _ storage_set_notes ?n] =>
                  destruct (Hcalls n) as (_ & _ & _ & _ & ->); cbn
              | |- context [publishState _ ?c1] =>
                  destruct (publishState_ok _ c1 Hbadge) as [? ->]; cbn
              | |- context [sendMessage _ _ ?c1] =>
                  unfold sendMessage, bind, call; rewrite Hsend; cbn
              end.
  all: destruct notes'; cbn.
  all: split; [reflexivity|]; split; [reflexivity|]; split; [reflexivity|];
    split; [reflexivity|].
  all: eapply trace_ends_with; rewrite <- ?app_assoc; reflexivity.
Qed.

Lemma start_prepares_channel_closed : start_prepares channel_closed.
Proof. split; intros n; repeat split. Qed.

Lemma start_rolls_back_when_the_worker_is_unreachable_witness :
  fst (onMessage channel_closed (Some (START_RECORDING "weekly sync")) (Some 7)
         (in_call true "both"))
  = Some (Failure "Could not establish connection.")
  /\ recordingState (state (globals (snd (onMessage channel_closed
                                             (Some (START_RECORDING "weekly sync")) (Some 7)
                                             (in_call true "both"))))) = idle
  /\ notes (storage (globals (snd (onMessage channel_closed
                                     (Some (START_RECORDING "weekly sync")) (Some 7)
                                     (in_call true "both"))))) = "weekly sync".
Proof.
  assert (H := start_rolls_back_when_the_worker_is_unreachable channel_closed "weekly sync"
                 (Some 7) (in_call true "both") 7 "Could not establish connection.").
  destruct H as (H1 & H2 & H3 & _).
  - exact start_prepares_channel_closed.
  - intros n. reflexivity.
  - vm_compute. reflexivity.
  - vm_compute. reflexivity.
  - vm_compute. reflexivity.
  - discriminate.
  - split; [exact H1|]. split; [rewrite H2; reflexivity | exact H3].
Defined.

(** X24: STOP_RECORDING never moves the coordinator out of its recording
    state by itself: whatever the environment and the worker answer,
    [recordingState], [recordingStartedAt] and [currentFilename] are what
    they were (only RECORDING_FINALIZED resets them); a successful stop
    changes no field at all, and a stop while Idle does nothing. *)
Theorem stop_leaves_the_reset_to_finalize (env : Env) (tab : option Z) (c : Coordinator) :
  recordingState (state (globals (snd (onMessage env (Some STOP_RECORDING) tab c))))
  = recordingState (state (globals c))
  /\ recordingStartedAt (state (globals (snd (onMessage env (Some STOP_RECORDING) tab c))))
     = recordingStartedAt (state (globals c))
  /\ currentFilename (state (globals (snd (onMessage env (Some STOP_RECORDING) tab c))))
     = currentFilename (state (globals c))
  /\ (fst (onMessage env (Some STOP_RECORDING) tab c) = Some (Success undefined) ->
      state (globals (snd (onMessage env (Some STOP_RECORDING) tab c))) = state (globals c))
  /\ (recordingState (state (globals c)) = idle ->
      onMessage env (Some STOP_RECORDING) tab c = (Some (Success undefined), c)).
Proof.
  unfold onMessage, handleMessage, stopRecording, sendMessage.
  unfold bind, call, get_state, getg, set_offscreen, modg, ret, throw. cbn.
  destruct (recordingState (state (globals c))) eqn:Hs; cbn.
  1: now rewrite Hs.
  all: destruct (fails env runtime_sendMessage (clock c)); cbn.
  all: try destruct (offscreen (globals c)) as [w|]; cbn.
  all: try destruct (Offscreen.onMessage env Offscreen.OFFSCREEN_STOP w) as [response w']; cbn.
  all: try listener_catch.
  all: rewrite ?Hstate; cbn; rewrite ?Hs; repeat split; congruence.
Qed.

Lemma stop_leaves_the_reset_to_finalize_witness :
  onMessage quiet (Some STOP_RECORDING) (Some 7) (in_call true "both")
  = (Some (Success undefined), in_call true "both")
  /\ recordingState (state (globals (snd (onMessage channel_closed (Some STOP_RECORDING)
                                             (Some 7) while_recording)))) = recording.
Proof.
  split.
  - apply (stop_leaves_the_reset_to_finalize quiet (Some 7) (in_call true "both")).
    vm_compute. reflexivity.
  - rewrite (proj1 (stop_leaves_the_reset_to_finalize channel_closed (Some 7) while_recording)).
    vm_compute. reflexivity.
Defined.

(** One accepted pause or resume: the worker's recorder and the
    coordinator's state move together, and the new state is broadcast. *)
Lemma pause_resume_step (env : Env) (m : Message) (tab : option Z) (c : Coordinator)
    (w : Offscreen.Worker) (r : Offscreen.MediaRecorder) :
  badge_works env ->
  (forall n, fails env runtime_sendMessage n = None) ->
  (m = PAUSE_RECORDING /\ recordingState (state (globals c)) = recording)
  \/ (m = RESUME_RECORDING /\ recordingState (state (globals c)) = paused) ->
  offscreen (globals c) = Some w ->
  Offscreen.mediaRecorder (globals w) = Some r ->
  Offscreen.state r <> Offscreen.inactive ->
  let target := match m with PAUSE_RECORDING => paused | _ => recording end in
  let command := match m with
                 | PAUSE_RECORDING => Offscreen.OFFSCREEN_PAUSE
                 | _ => Offscreen.OFFSCREEN_RESUME
                 end in
  let recorder := {| Offscreen.state := match m with
                                        | PAUSE_RECORDING => Offscreen.rec_paused
                                        | _ => Offscreen.rec_recording
                                        end;
                     Offscreen.mimeType := Offscreen.mimeType r |} in
  exists k,
    onMessage env (Some m) tab c
    = (Some (Success undefined),
       {| globals :=
            {| state := set_recordingState target (state (globals c));
               storage := store_runtimeState (set_recordingState target (state (globals c)))
                            (storage (globals c));
               offscreen :=
                 Some {| globals := Offscreen.set_mediaRecorder (Some recorder) (globals w);
                         clock := clock w; trace := trace w |} |};
          clock := k;
          trace := (trace c ++ [SendMessage command])
                   ++ broadcast (set_recordingState target (state (globals c))) |}).
Proof.
  intros Hbadge Hsend Hm Hoff Hr Hrs target command recorder.
  subst target command recorder.
  destruct Hm as [[-> Hrec] | [-> Hrec]].
  all: unfold onMessage, handleMessage, pauseRecording, resumeRecording, sendMessage.
  all: unfold bind, call, get_state, getg, set_offscreen, mod_state, modg, ret, throw; cbn.
  all: rewrite Hrec; cbn; rewrite Hsend; cbn; rewrite Hoff; cbn.
  all: unfold Offscreen.onMessage, Offscreen.handle, Offscreen.recorder_pause,
         Offscreen.recorder_resume, bind, getg, modg; cbn.
  all: rewrite Hr; cbn.
  all: destruct (Offscreen.state r) eqn:Es; [congruence| |]; cbn.
  all: match goal with
       | |- context [publishState ?e ?c1] =>
           destruct (publishState_ok e c1 Hbadge) as [k ->]
       end; cbn.
  all: exists k; reflexivity.
Qed.

(** X25: pause followed by resume is a round trip.  While recording, with
    a running recorder, PAUSE_RECORDING puts both the coordinator and the
    recorder into the paused state, and RESUME_RECORDING brings both back:
    the coordinator's state and the worker's variables are again what they
    were before the pause. *)
Theorem pause_then_resume_restores_the_state
    (env : Env) (tab tab' : option Z) (c : Coordinator)
    (w : Offscreen.Worker) (r : Offscreen.MediaRecorder) :
  badge_works env ->
  (forall n, fails env runtime_sendMessage n = None) ->
  recordingState (state (globals c)) = recording ->
  offscreen (globals c) = Some w ->
  Offscreen.mediaRecorder (globals w) = Some r ->
  Offscreen.state r = Offscreen.rec_recording ->
  let held := onMessage env (Some PAUSE_RECORDING) tab c in
  let resumed := onMessage env (Some RESUME_RECORDING) tab' (snd held) in
  fst held = Some (Success undefined)
  /\ state (globals (snd held)) = set_recordingState paused (state (globals c))
  /\ (exists w1,
        offscreen (globals (snd held)) = Some w1
        /\ Offscreen.mediaRecorder (globals w1)
           = Some {| Offscreen.state := Offscreen.rec_paused;
                     Offscreen.mimeType := Offscreen.mimeType r |})
  /\ fst resumed = Some (Success undefined)
  /\ state (globals (snd resumed)) = state (globals c)
  /\ (exists w2, offscreen (globals (snd resumed)) = Some w2 /\ globals w2 = globals w).
Proof.
  intros Hbadge Hsend Hrec Hoff Hr Hrs held resumed. subst held resumed.
  destruct (pause_resume_step env PAUSE_RECORDING tab c w r Hbadge Hsend
              (or_introl (conj eq_refl Hrec)) Hoff Hr ltac:(congruence)) as [k ->].
  cbn [fst snd].
  match goal with
  | |- context [onMessage env (Some RESUME_RECORDING) tab' ?c1] =>
      destruct (pause_resume_step env RESUME_RECORDING tab' c1 _ _ Hbadge Hsend
                  (or_intror (conj eq_refl eq_refl)) eq_refl eq_refl ltac:(discriminate))
        as [k' ->]
  end.
  cbn. split; [reflexivity|]. split; [reflexivity|]. split; [eauto|].
  split; [reflexivity|]. split.
  - destruct (state (globals c)); cbn in *. now subst.
  - eexists. split; [reflexivity|]. cbn.
    destruct (globals w), r; cbn in *. now subst.
Qed.

Lemma pause_then_resume_restores_the_state_witness :
  fst (onMessage quiet (Some PAUSE_RECORDING) (Some 7) while_recording)
  = Some (Success undefined)
  /\ recordingState (state (globals (snd (onMessage quiet (Some PAUSE_RECORDING) (Some 7)
                                             while_recording)))) = paused
  /\ state (globals (snd (onMessage quiet (Some RESUME_RECORDING) None
                            (snd (onMessage quiet (Some PAUSE_RECORDING) (Some 7)
                                    while_recording)))))
     = state (globals while_recording).
Proof.
  assert (H := pause_then_resume_restores_the_state quiet (Some 7) None while_recording
                 recording_worker
                 {| Offscreen.state := Offscreen.rec_recording;
                    Offscreen.mimeType := "audio/webm;codecs=opus" |}).
  destruct H as (H1 & H2 & _ & _ & H5 & _).
  - intros n. repeat split.
  - intros n. reflexivity.
  - vm_compute. reflexivity.
  - vm_compute. reflexivity.
  - vm_compute. reflexivity.
  - reflexivity.
  - split; [exact H1|]. split; [rewrite H2; reflexivity | exact H5].
Defined.

(** X26: a status report from the observer is taken over and broadcast,
    and the end of the call stops a recording that is still going on: the
    stop command goes to the worker exactly when the reported call is not
    active and the coordinator is not Idle.  The recording state itself is
    left as it is until the worker has finalized. *)
Theorem call_end_stops_the_recording
    (env : Env) (a : bool) (t : string) (n : option float) (sender_tab : option Z)
    (c : Coordinator) (w : Offscreen.Worker) :
  badge_works env ->
  (forall k, fails env runtime_sendMessage k = None) ->
  offscreen (globals c) = Some w ->
  let after := onMessage env (Some (CALL_STATUS_UPDATE a t n)) sender_tab c in
  let seen :=
    {| callActive := a;
       callTabId := match sender_tab with
                    | Some tab => if tab =? 0 then callTabId (state (globals c)) else Some tab
                    | None => callTabId (state (globals c))
                    end;
       callTitle := t;
       participantCount := n;
       recordingState := recordingState (state (globals c));
       recordingStartedAt := recordingStartedAt (state (globals c));
       lastError := lastError (state (globals c));
       currentFilename := currentFilename (state (globals c));
       latestDownloadId := latestDownloadId (state (globals c)) |} in
  let stops := negb a && negb (RecState_eqb (recordingState (state (globals c))) idle) in
  fst after = Some (Success undefined)
  /\ state (globals (snd after)) = seen
  /\ trace (snd after)
     = (trace c ++ broadcast seen)
       ++ (if stops then [SendMessage Offscreen.OFFSCREEN_STOP] else [])
  /\ offscreen (globals (snd after))
     = Some (if stops then snd (Offscreen.onMessage env Offscreen.OFFSCREEN_STOP w) else w).
Proof.
  intros Hbadge Hsend Hoff after seen stops. subst after seen stops.
  unfold onMessage, handleMessage, handleCallStatus, stopRecording, sendMessage.
  unfold bind, call, get_state, getg, set_offscreen, mod_state, modg, ret, throw. cbn.
  match goal with
  | |- context [publishState ?e ?c1] =>
      destruct (publishState_ok e c1 Hbadge) as [k ->]
  end. cbn.
  destruct a, (recordingState (state (globals c))); cbn.
  all: rewrite ?Hsend; cbn; rewrite ?Hoff; cbn.
  all: try destruct (Offscreen.onMessage env Offscreen.OFFSCREEN_STOP w) as [response w'];
    cbn.
  all: rewrite ?app_nil_r; repeat split; auto.
Qed.

Lemma call_end_stops_the_recording_witness :
  fst (onMessage quiet (Some (CALL_STATUS_UPDATE false "Standup" None)) (Some 7)
         while_recording) = Some (Success undefined)
  /\ exists evs,
       trace (snd (onMessage quiet (Some (CALL_STATUS_UPDATE false "Standup" None)) (Some 7)
                     while_recording))
       = evs ++ [SendMessage Offscreen.OFFSCREEN_STOP].
Proof.
  assert (H := call_end_stops_the_recording quiet false "Standup" None (Some 7)
                 while_recording recording_worker).
  destruct H as (H1 & _ & H3 & _).
  - intros n. repeat split.
  - intros n. reflexivity.
  - vm_compute. reflexivity.
  - split; [exact H1|]. eexists. rewrite H3.
    replace (recordingState (state (globals while_recording))) with recording
      by (vm_compute; reflexivity).
    reflexivity.
Defined.

(** X27: DELETE_RECORDING removes from the history exactly the records
    with the given id and keeps all others in their order; the state of the
    coordinator is not touched, and a file that cannot be removed from the
    disk does not stop the record from being deleted. *)
Theorem delete_removes_exactly_the_given_id
    (env : Env) (id' : string) (tab : option Z) (c : Coordinator) :
  id' <> "" ->
  (forall n, fails env storage_get_recordings n = None
             /\ fails env downloads_erase n = None
             /\ fails env storage_set_recordings n = None) ->
  let after := onMessage env (Some (DELETE_RECORDING id')) tab c in
  fst after = Some (Success undefined)
  /\ history_of (snd after)
     = filter (fun r => negb (String.eqb (id r) id')) (history_of c)
  /\ (forall r, r ∈ history_of (snd after) <-> r ∈ history_of c /\ id r <> id')
  /\ state (globals (snd after)) = state (globals c).
Proof.
  intros Hid Hcalls after. subst after.
  assert (G : fst (onMessage env (Some (DELETE_RECORDING id')) tab c) = Some (Success undefined)
              /\ history_of (snd (onMessage env (Some (DELETE_RECORDING id')) tab c))
                 = filter (fun r => negb (String.eqb (id r) id')) (history_of c)
              /\ state (globals (snd (onMessage env (Some (DELETE_RECORDING id')) tab c)))
                 = state (globals c)).
  { unfold onMessage, handleMessage, deleteRecording, history_of.
    destruct (String.eqb_spec id' "") as [|_]; [contradiction|].
    unfold bind, call, when, try_catch, get_storage, getg, mod_storage, modg, ret. cbn.
    destruct (Hcalls (clock c)) as (-> & _). cbn.
    destruct (find _ _) as [target|]; cbn.
    1: destruct (downloadId target =? 0); cbn.
    all: repeat match goal with
                | |- context [fails ?e downloads_removeFile ?n] =>
                    destruct (fails e downloads_removeFile n); cbn
                | |- context [fails _ downloads_erase ?n] =>
                    destruct (Hcalls n) as (_ & -> & _); cbn
                | |- context [fails _ storage_set_recordings ?n] =>
                    destruct (Hcalls n) as (_ & _ & ->); cbn
                end.
    all: auto. }
  destruct G as (G1 & G2 & G3).
  split; [exact G1|]. split; [exact G2|]. split; [|exact G3].
  intros r. rewrite G2, list_elem_of_filter.
  destruct (String.eqb_spec (id r) id'); cbn; intuition congruence.
Qed.

Lemma delete_removes_exactly_the_given_id_witness :
  history_of
    (snd (onMessage download_refused (Some (DELETE_RECORDING "b")) None
            {| globals :=
                 {| state := initial_state;
                    storage := store_recordings
                                 (Some [sample_record "a" 1; sample_record "b" 2;
                                        sample_record "c" 0; sample_record "b" 4])
                                 (settings true "both");
                    offscreen := None |};
               clock := 0; trace := [] |}))
  = [sample_record "a" 1; sample_record "c" 0].
Proof.
  assert (H := delete_removes_exactly_the_given_id download_refused "b" None
                 {| globals :=
                      {| state := initial_state;
                         storage := store_recordings
                                      (Some [sample_record "a" 1; sample_record "b" 2;
                                             sample_record "c" 0; sample_record "b" 4])
                                      (settings true "both");
                         offscreen := None |};
                    clock := 0; trace := [] |}).
  destruct H as (_ & H2 & _).
  - discriminate.
  - intros n. repeat split.
  - rewrite H2. reflexivity.
Defined.

End CoordinatorMore.


Section CoordinatorFiles.
Import Background.

Local Arguments publishState : simpl never.
Local Arguments finalFilename : simpl never.
Local Arguments makeFilename : simpl never.
Local Arguments strip_ext : simpl never.
Local Arguments duration : simpl never.
Local Arguments take : simpl never.

(** X28: the metadata sidecar is saved next to the artifact under the same
    base name: once the artifact has been handed to the download manager
    under [base.ext], with [ext] the extension of the finalized format, the
    next download is the record under [base.json], and the record names the
    artifact's file, format and download id. *)
Theorem sidecar_is_named_after_the_artifact
    (env : Env) (f url : string) (tab : option Z) (c : Coordinator) :
  fails env storage_get_settings (clock c) = None ->
  fails env downloads_download (S (S (clock c))) = None ->
  exists base record rest,
    trace (snd (onMessage env (Some (RECORDING_FINALIZED f url)) tab c))
    = trace c
      ++ StorageGet
         :: Download (DataUrl url) (base +:+ "." +:+ normalizeExtension (str_or f "webm"))
         :: Download (JsonDataUrl record) (base +:+ ".json")
         :: rest
    /\ filename record = base +:+ "." +:+ normalizeExtension (str_or f "webm")
    /\ rec_format record = str_or f "webm"
    /\ downloadId record = download_id env (S (S (clock c))).
Proof.
  intros Hget Hsave.
  pose (name := finalFilename (new_Date env (S (clock c))) (state (globals c))
                  (storage (globals c)) (str_or f "webm")).
  destruct (applyFormatToFilename_extension
              (str_or (currentFilename (state (globals c)))
                 (makeFilename (new_Date env (S (clock c))) (callTitle (state (globals c)))
                    (str_or f "webm") (folder (storage (globals c)))))
              (str_or f "webm")) as (base & E & Hm).
  fold (finalFilename (new_Date env (S (clock c))) (state (globals c)) (storage (globals c))
          (str_or f "webm")) in E, Hm.
  fold name in E, Hm.
  assert (Hstrip : strip_ext name = base) by (unfold strip_ext; now rewrite Hm).
  exists base.
  unfold onMessage, handleMessage, handleFinalized, bind, call, try_finally, saveBlobToDownloads,
    request, ask, get_state, get_storage, getg, mod_state, mod_storage, modg, ret.
  rewrite Hget. cbn. fold name. rewrite Hsave. cbn. rewrite Hstrip, E.
  repeat match goal with
         | |- context [fails ?e ?api ?n] => destruct (fails e api n) eqn:?; cbn
         end.
  all: repeat match goal with
              | |- context [publishState ?e ?c1] =>
                  let evs := fresh "evs" in
                  let Htr := fresh "Htr" in
                  let c2 := fresh "c" in
                  let r := fresh "r" in
                  destruct (publishState_trace e c1) as [evs Htr];
                  destruct (publishState e c1) as [r c2]; cbn in Htr |- *;
                  try destruct r; cbn
              end.
  all: do 2 eexists.
  all: repeat match goal with
              | H : trace ?x = _ |- context [trace ?x] => rewrite H; clear H
              end.
  all: rewrite <- ?app_assoc; cbn; split; [reflexivity|]; cbn; auto.
Qed.

Lemma sidecar_is_named_after_the_artifact_witness :
  exists base record rest,
    trace (snd (onMessage quiet (Some (RECORDING_FINALIZED "wav" "data:audio/wav;base64,UklGRg"))
                  None while_recording))
    = trace while_recording
      ++ StorageGet
         :: Download (DataUrl "data:audio/wav;base64,UklGRg")
              (base +:+ "." +:+ normalizeExtension (str_or "wav" "webm"))
         :: Download (JsonDataUrl record) (base +:+ ".json")
         :: rest
    /\ filename record = base +:+ "." +:+ normalizeExtension (str_or "wav" "webm")
    /\ rec_format record = str_or "wav" "webm"
    /\ downloadId record = download_id quiet (S (S (clock while_recording))).
Proof.
  apply (sidecar_is_named_after_the_artifact quiet "wav" "data:audio/wav;base64,UklGRg" None
           while_recording); reflexivity.
Defined.

End CoordinatorFiles.

Section CoordinatorStart.
Import Background.

Local Arguments publishState : simpl never.
Local Arguments makeFilename : simpl never.
Local Arguments Offscreen.onMessage : simpl never.

Lemma str_or_idem (a b : string) : str_or (str_or a b) b = str_or a b.
Proof. destruct a; [destruct b|]; reflexivity. Qed.

(** X29: a START_RECORDING request that meets its preconditions, in an
    environment that answers every call, begins a session on both sides:
    the coordinator is Recording with a start time, the file name
    [makeFilename] builds for the call title and the stored format and
    folder, and an empty [lastError]; the notes are stored; and the worker
    has a running recorder with no chunk yet, set to the stored format. *)
Theorem start_begins_a_session
    (env : Env) (notes' : string) (sender_tab : option Z) (c : Coordinator) (tab : Z) :
  start_prepares env ->
  (forall n, fails env runtime_sendMessage n = None) ->
  capture_works env ->
  (forall n, fails env getUserMedia_mic n = None) ->
  (forall n, media_stream_id env n <> "") ->
  consentAccepted (storage (globals c)) = true ->
  recordingState (state (globals c)) = idle ->
  callTabId (state (globals c)) = Some tab ->
  tab <> 0 ->
  let after := onMessage env (Some (START_RECORDING notes')) sender_tab c in
  fst after = Some (Success undefined)
  /\ (exists k1 k2,
        state (globals (snd after))
        = {| callActive := callActive (state (globals c));
             callTabId := Some tab;
             callTitle := callTitle (state (globals c));
             participantCount := participantCount (state (globals c));
             recordingState := recording;
             recordingStartedAt := Some (Date_now env k1);
             lastError := "";
             currentFilename :=
               makeFilename (new_Date env k2) (callTitle (state (globals c)))
                 (format (storage (globals c))) (folder (storage (globals c)));
             latestDownloadId := latestDownloadId (state (globals c)) |})
  /\ notes (storage (globals (snd after))) = notes'
  /\ (exists w mime,
        offscreen (globals (snd after)) = Some w
        /\ Offscreen.mediaRecorder (globals w)
           = Some {| Offscreen.state := Offscreen.rec_recording; Offscreen.mimeType := mime |}
        /\ Offscreen.chunks (globals w) = []
        /\ Offscreen.activeFormat (globals w) = str_or (format (storage (globals c))) "webm").
Proof.
  intros [Hbadge Hcalls] Hsend Hw Hmic Hid Hconsent Hidle Htab Hnz after. subst after.
  unfold onMessage, handleMessage, startRecording, resolveTeamsTabId, ensureOffscreenDocument.
  unfold bind, call, request, ask, get_state, get_storage, getg, mod_state, mod_storage,
    set_offscreen, modg, ret, throw, try_catch.
  destruct (Hcalls (clock c)) as (-> & _). cbn.
  rewrite Hconsent. cbn. rewrite Hidle. cbn. rewrite Htab. cbn.
  destruct (Z.eqb_spec tab 0) as [|_]; [contradiction|].
  destruct (String.eqb (str_or (sourceMode (storage (globals c))) "both") "mic") eqn:Emic; cbn.
  2: destruct (Hcalls (S (clock c))) as (_ & -> & _); cbn.
  all: repeat match goal with
              | |- context [fails _ runtime_getContexts ?n] =>
                  destruct (Hcalls n) as (_ & _ & -> & _); cbn
              end.
  all: destruct (offscreen (globals c)) as [w0|] eqn:Hoff; cbn.
  all: repeat match goal with
              | |- context [fails _ offscreen_createDocument ?n] =>
                  destruct (Hcalls n) as (_ & _ & _ & -> & _); cbn
              | |- context [fails _ storage_set_notes ?n] =>
                  destruct (Hcalls n) as (_ & _ & _ & _ & ->); cbn
              | |- context [publishState _ ?c1] =>
                  destruct (publishState_ok _ c1 Hbadge) as [? ->]; cbn
              end.
  all: unfold sendMessage, bind, call, getg, set_offscreen, modg, ret; cbn.
  all: rewrite Hsend; cbn.
  all: match goal with
       | |- context [Offscreen.onMessage _ (Offscreen.OFFSCREEN_START ?p) ?w] =>
           destruct (capture_starts _ p w Hw Hmic) as (w' & mime & -> & Hr & Hch & Hfmt & _)
       end.
  all: try (unfold includeSystem; cbn; rewrite str_or_idem; intros Hsys).
  all: try (apply String.eqb_eq in Emic; rewrite Emic in Hsys; discriminate Hsys).
  all: try (cbn; specialize (Hid (S (clock c))); destruct (media_stream_id env (S (clock c)));
            [congruence | reflexivity]).
  all: cbn.
  all: split; [reflexivity|]; split; [do 2 eexists; reflexivity|];
    split; [now destruct notes'|]; eauto 10.
Qed.

Lemma start_prepares_quiet : start_prepares quiet.
Proof. split; intros n; repeat split. Qed.

Lemma capture_works_quiet : capture_works quiet.
Proof. intros n. repeat split; discriminate. Qed.

Lemma start_begins_a_session_witness :
  fst (onMessage quiet (Some (START_RECORDING "weekly sync")) (Some 7) (in_call true "both"))
  = Some (Success undefined)
  /\ recordingState (state (globals (snd (onMessage quiet (Some (START_RECORDING "weekly sync"))
                                             (Some 7) (in_call true "both"))))) = recording
  /\ currentFilename (state (globals (snd (onMessage quiet
                                              (Some (START_RECORDING "weekly sync"))
                                              (Some 7) (in_call true "both")))))
     = "TeamsRecordings/Teams_2024-03-09_14-05_Standup.webm"
  /\ notes (storage (globals (snd (onMessage quiet (Some (START_RECORDING "weekly sync"))
                                     (Some 7) (in_call true "both"))))) = "weekly sync".
Proof.
  assert (H := start_begins_a_session quiet "weekly sync" (Some 7) (in_call true "both") 7).
  destruct H as (H1 & (k1 & k2 & H2) & H3 & _).
  - exact start_prepares_quiet.
  - intros n. reflexivity.
  - exact capture_works_quiet.
  - intros n. reflexivity.
  - intros n. discriminate.
  - vm_compute. reflexivity.
  - vm_compute. reflexivity.
  - vm_compute. reflexivity.
  - discriminate.
  - split; [exact H1|]. rewrite H2. split; [reflexivity|].
    split; [vm_compute; reflexivity | exact H3].
Defined.

End CoordinatorStart.


(** ** The length of the history *)

Create HintDb short.

Section HistoryProofs.
Import Background.

Lemma short_same {A} (m : B A) :
  (forall c, recordings (storage (globals (snd (m c)))) = recordings (storage (globals c))) ->
  keeps_short m.
Proof. intros H c. unfold short_history, history_of. now rewrite H. Qed.

Lemma short_ret {A} (a : A) : keeps_short (ret a).
Proof. now apply short_same. Qed.

Lemma short_throw {A} (e : string) : keeps_short (throw (A := A) e).
Proof. now apply short_same. Qed.

Lemma short_bind {A A'} (m : B A) (k : A -> B A') :
  keeps_short m -> (forall a, keeps_short (k a)) -> keeps_short (bind m k).
Proof.
  intros Hm Hk c H. unfold bind. specialize (Hm c H).
  destruct (m c) as [[a|e] c1]; cbn in *; [now apply Hk | exact Hm].
Qed.

Lemma short_try_catch {A} (m : B A) (h : string -> B A) :
  keeps_short m -> (forall e, keeps_short (h e)) -> keeps_short (try_catch m h).
Proof.
  intros Hm Hh c H. unfold try_catch. specialize (Hm c H).
  destruct (m c) as [[a|e] c1]; cbn in *; [exact Hm | now apply Hh].
Qed.

Lemma short_try_finally {A} (m : B A) (f : B unit) :
  keeps_short m -> keeps_short f -> keeps_short (try_finally m f).
Proof.
  intros Hm Hf c H. unfold try_finally. specialize (Hm c H).
  destruct (m c) as [r c1]. specialize (Hf c1 Hm).
  destruct (f c1) as [[u|e] c2]; exact Hf.
Qed.

Lemma short_call env api ev : keeps_short (call env api ev).
Proof. apply short_same. intros c. unfold call. now destruct (fails env api (clock c)). Qed.

Lemma short_request {A} env api ev (f : nat -> A) : keeps_short (request env api ev f).
Proof. apply short_same. intros c. unfold request. now destruct (fails env api (clock c)). Qed.

Lemma short_ask {A} (f : nat -> A) : keeps_short (ask f).
Proof. now apply short_same. Qed.

Lemma short_get_state : keeps_short get_state.
Proof. now apply short_same. Qed.

Lemma short_get_storage : keeps_short get_storage.
Proof. now apply short_same. Qed.

Lemma short_getg : keeps_short (getg (G := World) (E := Event)).
Proof. now apply short_same. Qed.

Lemma short_mod_state f : keeps_short (mod_state f).
Proof. now apply short_same. Qed.

Lemma short_set_offscreen v : keeps_short (set_offscreen v).
Proof. now apply short_same. Qed.

Lemma short_store_notes v : keeps_short (mod_storage (store_notes v)).
Proof. now apply short_same. Qed.

Lemma short_store_runtimeState s : keeps_short (mod_storage (store_runtimeState s)).
Proof. now apply short_same. Qed.

Lemma short_store_take (l : list RecordingRecord) :
  keeps_short (mod_storage (fun s => store_notes "" (store_recordings (Some (take 200 l)) s))).
Proof.
  intros c _. unfold short_history, history_of. cbn. rewrite length_take. lia.
Qed.

Lemma short_when (b : bool) (m : B unit) : keeps_short m -> keeps_short (when b m).
Proof. intros H. destruct b; [exact H | apply short_ret]. Qed.

Hint Resolve short_ret short_throw short_call short_request short_ask short_get_state
  short_get_storage short_getg short_mod_state short_set_offscreen short_store_notes
  short_store_runtimeState short_store_take : short.
Hint Extern 2 (keeps_short (bind _ _)) => apply short_bind; [|intro] : short.
Hint Extern 2 (keeps_short (try_catch _ _)) => apply short_try_catch; [|intro] : short.
Hint Extern 2 (keeps_short (try_finally _ _)) => apply short_try_finally : short.
Hint Extern 2 (keeps_short (when _ _)) => apply short_when : short.
Hint Extern 3 (keeps_short (match ?x with _ => _ end)) => destruct x : short.
Hint Extern 3 (keeps_short (if ?x then _ else _)) => destruct x : short.
Hint Extern 3 (keeps_short (let (_, _) := ?x in _)) => destruct x : short.

Lemma short_publishState env : keeps_short (publishState env).
Proof. unfold publishState. auto 20 with short. Qed.

Lemma short_sendMessage env m : keeps_short (sendMessage env m).
Proof. unfold sendMessage. auto 20 with short. Qed.

Lemma short_ensureOffscreenDocument env : keeps_short (ensureOffscreenDocument env).
Proof. unfold ensureOffscreenDocument. auto 20 with short. Qed.

Lemma short_resolveTeamsTabId env : keeps_short (resolveTeamsTabId env).
Proof. unfold resolveTeamsTabId. auto 20 with short. Qed.

Lemma short_saveBlobToDownloads env url name : keeps_short (saveBlobToDownloads env url name).
Proof. unfold saveBlobToDownloads. auto with short. Qed.

Hint Resolve short_publishState short_sendMessage short_ensureOffscreenDocument
  short_resolveTeamsTabId short_saveBlobToDownloads : short.

Lemma short_pauseRecording env : keeps_short (pauseRecording env).
Proof. unfold pauseRecording. auto 20 with short. Qed.

Lemma short_resumeRecording env : keeps_short (resumeRecording env).
Proof. unfold resumeRecording. auto 20 with short. Qed.

Lemma short_stopRecording env : keeps_short (stopRecording env).
Proof. unfold stopRecording. auto 20 with short. Qed.

Hint Resolve short_pauseRecording short_resumeRecording short_stopRecording : short.

Lemma short_handleCallStatus env a t n tab : keeps_short (handleCallStatus env a t n tab).
Proof. unfold handleCallStatus. auto 20 with short. Qed.

Lemma short_startRecording env notes : keeps_short (startRecording env notes).
Proof. unfold startRecording. auto 40 with short. Qed.

Lemma short_handleFinalized env f url : keeps_short (handleFinalized env f url).
Proof. unfold handleFinalized. auto 40 with short. Qed.

Lemma short_listRecordings env : keeps_short (listRecordings env).
Proof. unfold listRecordings. auto 20 with short. Qed.

(** Deleting filters the history that was just read. *)
Lemma short_deleteRecording env i : keeps_short (deleteRecording env i).
Proof.
  intros c H. unfold deleteRecording.
  destruct (String.eqb i ""); [exact H|].
  unfold bind, call, when, try_catch, get_storage, getg, mod_storage, modg, ret. cbn.
  assert (Hf : (length (filter (fun r => negb (String.eqb (id r) i)) (history_of c)) <= 200)%nat).
  { etransitivity; [apply length_filter | exact H]. }
  unfold short_history, history_of in *.
  repeat match goal with
         | |- context [fails ?e ?api ?n] => destruct (fails e api n); cbn
         | |- context [find ?p ?l] => destruct (find p l); cbn
         | |- context [(downloadId ?r =? 0)] => destruct (downloadId r =? 0); cbn
         end; assumption.
Qed.

Hint Resolve short_handleCallStatus short_startRecording short_handleFinalized
  short_listRecordings short_deleteRecording : short.

Lemma short_onMessage env message tab c :
  short_history c -> short_history (snd (onMessage env message tab c)).
Proof.
  intros H. unfold onMessage. destruct message as [m|]; [|exact H].
  assert (Hm : keeps_short (handleMessage env m tab)).
  { destruct m; cbn [handleMessage]; unfold handleChunk; auto 10 with short. }
  specialize (Hm c H).
  destruct (handleMessage env m tab c) as [[r|e] c1]; [exact Hm|].
  assert (Hc : keeps_short (mod_state (set_lastError (str_or e "Error")) ;;; publishState env))
    by auto 10 with short.
  specialize (Hc c1 Hm).
  destruct ((mod_state (set_lastError (str_or e "Error")) ;;; publishState env) c1) as [r c2].
  exact Hc.
Qed.

Lemma short_onCommand env command : keeps_short (onCommand env command).
Proof. unfold onCommand. auto 40 with short. Qed.

Lemma short_step env i c : short_history c -> short_history (step env i c).
Proof.
  intros H. destruct i; cbn [step].
  - now apply short_onMessage.
  - now apply short_onCommand.
  - unfold in_worker. now destruct (offscreen (globals c)).
  - unfold in_worker. now destruct (offscreen (globals c)).
Qed.

(** X30: the history never outgrows its cap.  If it holds at most 200
    records, it still does after any sequence of messages, keyboard
    commands and recorder events, whatever the environment answers to each
    call: a finalized recording is added to a list cut to 200, a delete only
    removes, and no other handler writes the list. *)
Theorem history_stays_capped
    (events : list (Env * Input)) (c : Coordinator) :
  short_history c -> short_history (runs events c).
Proof.
  revert c. induction events as [|[env i] events IH]; intros c H; [exact H|].
  apply (IH (step env i c)), short_step, H.
Qed.

Lemma history_stays_capped_witness :
  short_history
    (runs [(quiet, Deliver (Some (RECORDING_FINALIZED "webm" "data:audio/webm;base64,GkXf")) None);
           (download_refused, Command "toggle-recording");
           (quiet, Deliver (Some (DELETE_RECORDING "3f0c2b9e-5d1a-4c6e-9a37-2b8f0e4d7c11")) None)]
       (in_call true "both")).
Proof.
  apply (history_stays_capped
           [(quiet, Deliver (Some (RECORDING_FINALIZED "webm" "data:audio/webm;base64,GkXf")) None);
            (download_refused, Command "toggle-recording");
            (quiet, Deliver (Some (DELETE_RECORDING "3f0c2b9e-5d1a-4c6e-9a37-2b8f0e4d7c11"))
                      None)]
           (in_call true "both")).
  unfold short_history. vm_compute. lia.
Defined.

End HistoryProofs.
